(** * Layout state of the graph component (ngwmn-ui)

    A shallow embedding of
    [assets/src/scripts/components/graph/state/layout.js]: the action
    creators, the selectors, the memoized chart-position selector and the
    reducer, over a small model of the JavaScript store they run in
    (objects live in a heap and are compared by reference, numbers are
    IEEE-754 binary64, reading a property of [undefined] or [null] throws a
    TypeError). *)

From Stdlib Require Import Floats ZArith.
From Stdlib Require Uint63.
From stdpp Require Import base option list gmap strings.

Set Warnings "-inexact-float".
Local Open Scope string_scope.
Local Open Scope list_scope.

(** ** JavaScript values and the store *)

Definition loc := nat.

(** Data values.  Objects are references into the heap, so that two objects
    with the same fields are still two objects. *)
Inductive value :=
  | VUndef
  | VNull
  | VBool (b : bool)
  | VNum (n : float)
  | VStr (s : string)
  | VRef (l : loc).

(** A plain object: its own enumerable data properties. *)
Abbreviation obj := (gmap string value).

(** reselect's [defaultMemoize] keeps the arguments and the result of the
    last call ([lastArgs = null; lastResult = null] at creation).  Selectors
    of this module are called with one argument, the state. *)
Record memo := Memo { lastArgs : option value; lastResult : value }.

(** A selector built by [createSelector(getContainerSize, resultFunc)] for
    one chart type: the memo of the selector itself and the memo of its
    result function. *)
Record selector := Selector {
  sel_chartType : string;
  sel_memo : memo;
  sel_resultMemo : memo
}.

(** The store: the object heap, the selectors created so far (a selector is
    identified by its index) and the cache of fast-memoize around
    [getChartPosition]. *)
Record world := World {
  heap : list obj;
  selectors : list selector;
  cache : gmap string nat
}.

Definition empty_world : world := World [] [] ∅.

Definition set_heap (h : list obj) (w : world) : world :=
  World h (selectors w) (cache w).

(** ** Computations: state passing with exceptions *)

(** [Return] is normal completion; [Throw_TypeError] is the only exception
    this module can raise; [Unmodelled] marks the inputs the embedding does
    not cover (string-to-number and object-to-number coercions, spreading a
    string, dangling references). *)
Inductive outcome (A : Type) :=
  | Return (a : A)
  | Throw_TypeError
  | Unmodelled.
Arguments Return {A} a.
Arguments Throw_TypeError {A}.
Arguments Unmodelled {A}.

Definition M (A : Type) : Type := world → outcome (A * world).

Definition ret {A} (a : A) : M A := λ w, Return (a, w).

Definition bind {A B} (m : M A) (k : A → M B) : M B := λ w,
  match m w with
  | Return (a, w') => k a w'
  | Throw_TypeError => Throw_TypeError
  | Unmodelled => Unmodelled
  end.

Definition unmodelled {A} : M A := λ _, Unmodelled.

Notation "'let*' x := m 'in' k" := (bind m (λ x, k))
  (at level 10, x name, m at level 100, k at level 200,
   format "'[v' 'let*'  x  :=  m  'in' '/' k ']'").

(** [{...}]: a new object, distinct from every object allocated before.
    The object enters the heap once its properties are evaluated; objects
    have no address to observe, so only the identity matters. *)
Definition alloc (o : obj) : M value := λ w,
  Return (VRef (length (heap w)), set_heap (heap w ++ [o]) w).

(** [v[k]] for the property names this module reads ([type], [payload],
    [width], the mount point, ...): none of them is defined on the prototype
    of a plain object or of a primitive, so the read is the own property or
    [undefined]; on [undefined] and [null] it throws. *)
Definition get (v : value) (k : string) : M value := λ w,
  match v with
  | VUndef | VNull => Throw_TypeError
  | VBool _ | VNum _ | VStr _ => Return (VUndef, w)
  | VRef l =>
      match heap w !! l with
      | Some o => Return (default VUndef (o !! k), w)
      | None => Unmodelled
      end
  end.

(** [...v] in an object literal: the own enumerable properties of [v];
    nothing for [undefined], [null], booleans and numbers. *)
Definition spread (v : value) : M obj := λ w,
  match v with
  | VUndef | VNull | VBool _ | VNum _ => Return (∅, w)
  | VStr _ => Unmodelled
  | VRef l =>
      match heap w !! l with
      | Some o => Return (o, w)
      | None => Unmodelled
      end
  end.

(** [a === b] *)
Definition strict_eq (a b : value) : bool :=
  match a, b with
  | VUndef, VUndef => true
  | VNull, VNull => true
  | VBool x, VBool y => bool_decide (x = y)
  | VNum x, VNum y => PrimFloat.eqb x y
  | VStr x, VStr y => bool_decide (x = y)
  | VRef x, VRef y => bool_decide (x = y)
  | _, _ => false
  end.

(** Truthiness, as [||] tests it. *)
Definition truthy (v : value) : bool :=
  match v with
  | VUndef | VNull => false
  | VBool b => b
  | VNum n => negb (PrimFloat.eqb n 0 || negb (PrimFloat.eqb n n))
  | VStr s => negb (bool_decide (s = ""))
  | VRef _ => true
  end.

(** ToNumber on the values that need no parsing and no method call. *)
Definition ToNumber (v : value) : option float :=
  match v with
  | VUndef => Some nan
  | VNull => Some 0%float
  | VBool b => Some (if b then 1 else 0)%float
  | VNum n => Some n
  | VStr _ | VRef _ => None
  end.

(** [a * c] for a numeric literal [c]; an operand that JavaScript would
    parse (a string) or convert by method calls (an object) is left
    unmodelled. *)
Definition times (a : value) (c : float) : M value :=
  match ToNumber a with
  | Some n => ret (VNum (n * c))
  | None => unmodelled
  end.

(** ** layout.js *)

Definition MOUNT_POINT := "components/graph/layout".
Definition GRAPH_SIZE_SET := Eval cbv in MOUNT_POINT +:+ "/GRAPH_SIZE_SET".
Definition GRAPH_SELECTION_RECT_SET := Eval cbv in MOUNT_POINT +:+ "/GRAPH_SELECTION_RECT_SET".
Definition GRAPH_SELECTION_RECT_CLEAR := Eval cbv in MOUNT_POINT +:+ "/GRAPH_SELECTION_RECT_CLEAR".
Definition VIEWPORT_RESET := Eval cbv in MOUNT_POINT +:+ "/VIEWPORT_RESET".
Definition VIEWPORT_SET := Eval cbv in MOUNT_POINT +:+ "/VIEWPORT_SET".

(** [setViewport({startDate, endDate})]: destructuring the parameter reads
    the two properties of the argument (and throws on [undefined]/[null]). *)
Definition setViewport (arg : value) : M value :=
  let* startDate := get arg "startDate" in
  let* endDate := get arg "endDate" in
  let* payload := alloc {[ "startDate" := startDate; "endDate" := endDate ]} in
  alloc {[ "type" := VStr VIEWPORT_SET; "payload" := payload ]}.

Definition resetViewport : M value :=
  alloc {[ "type" := VStr VIEWPORT_RESET ]}.

Definition getViewport (state : value) : M value :=
  let* layout := get state MOUNT_POINT in
  get layout "viewport".

Definition setContainerSize (arg : value) : M value :=
  let* width := get arg "width" in
  let* height := get arg "height" in
  let* payload := alloc {[ "width" := width; "height" := height ]} in
  alloc {[ "type" := VStr GRAPH_SIZE_SET; "payload" := payload ]}.

Definition getContainerSize (state : value) : M value :=
  let* layout := get state MOUNT_POINT in
  let* graphSize := get layout "graphSize" in
  if truthy graphSize then ret graphSize
  else alloc {[ "width" := VNum 0; "height" := VNum 0 ]}.

Definition setSelectionRect (arg : value) : M value :=
  let* top := get arg "top" in
  let* left := get arg "left" in
  let* bottom := get arg "bottom" in
  let* right := get arg "right" in
  let* payload :=
    alloc {[ "top" := top; "left" := left; "bottom" := bottom; "right" := right ]} in
  alloc {[ "type" := VStr GRAPH_SELECTION_RECT_SET; "payload" := payload ]}.

Definition clearSelectionRect : M value :=
  alloc {[ "type" := VStr GRAPH_SELECTION_RECT_CLEAR ]}.

Definition getSelectionRect (state : value) : M value :=
  let* layout := get state MOUNT_POINT in
  get layout "selectionRect".

(** The result function handed to [createSelector] inside
    [getChartPosition]: [size => { switch (chartType) ... }].  The
    properties of each literal are evaluated in the order they are written;
    without a matching [case] the function returns [undefined]. *)
Definition getChartPosition_resultFunc (chartType : string) (size : value) : M value :=
  if bool_decide (chartType = "main") then
    let* width := get size "width" in
    let* h := get size "height" in
    let* height := times h 0.8 in
    alloc {[ "x" := VNum 0; "y" := VNum 0; "width" := width; "height" := height ]}
  else if bool_decide (chartType = "panner") then
    let* h := get size "height" in
    let* y := times h 0.8 in
    let* width := get size "width" in
    let* h' := get size "height" in
    let* height := times h' 0.2 in
    alloc {[ "x" := VNum 0; "y" := y; "width" := width; "height" := height ]}
  else if bool_decide (chartType = "lithography") then
    let* w := get size "width" in
    let* x := times w 0.9 in
    let* w' := get size "width" in
    let* width := times w' 0.1 in
    let* h := get size "height" in
    let* height := times h 0.8 in
    alloc {[ "x" := x; "y" := VNum 0; "width" := width; "height" := height ]}
  else ret VUndef.

(** *** reselect and fast-memoize, as [getChartPosition] uses them *)

Definition read_selector (f : nat) : M selector := λ w,
  match selectors w !! f with
  | Some s => Return (s, w)
  | None => Unmodelled
  end.

Definition modify_selector (f : nat) (g : selector → selector) : M unit := λ w,
  match selectors w !! f with
  | Some s => Return ((), World (heap w) (<[f := g s]> (selectors w)) (cache w))
  | None => Unmodelled
  end.

Definition set_memo (m : memo) (s : selector) : selector :=
  Selector (sel_chartType s) m (sel_resultMemo s).
Definition set_resultMemo (m : memo) (s : selector) : selector :=
  Selector (sel_chartType s) (sel_memo s) m.

(** [areArgumentsShallowlyEqual(equalityCheck, lastArgs, arguments)] with the
    default [equalityCheck], [===], for one argument. *)
Definition same_args (m : memo) (arg : value) : bool :=
  match lastArgs m with
  | Some prev => strict_eq prev arg
  | None => false
  end.

(** reselect's [defaultMemoize(func)]: a cache of one entry,
    [if (!same) lastResult = func(arg); lastArgs = arguments; return lastResult].
    [rd] and [wr] reach the memo inside the store. *)
Definition defaultMemoize (func : value → M value)
    (rd : M memo) (wr : memo → M unit) (arg : value) : M value :=
  let* m := rd in
  let* r := (if same_args m arg then ret (lastResult m) else func arg) in
  let* _ := wr (Memo (Some arg) r) in
  ret r.

(** Calling the selector [createSelector(getContainerSize, resultFunc)]:
    the selector is memoized on the state, its result function on the
    container size, both by [===]. *)
Definition call_selector (f : nat) (state : value) : M value :=
  let* s := read_selector f in
  defaultMemoize
    (λ st,
      let* size := getContainerSize st in
      defaultMemoize (getChartPosition_resultFunc (sel_chartType s))
        (let* s' := read_selector f in ret (sel_resultMemo s'))
        (λ m, modify_selector f (set_resultMemo m))
        size)
    (let* s' := read_selector f in ret (sel_memo s'))
    (λ m, modify_selector f (set_memo m))
    state.

(** [getChartPosition = memoize(chartType => createSelector(...))], on chart
    type identifiers, which are strings: fast-memoize keys its cache by the
    serialized argument, which is injective on strings, so the cache is
    keyed by the chart type; a missing entry creates a selector and records
    it. *)
Definition getChartPosition (chartType : string) : M nat := λ w,
  match cache w !! chartType with
  | Some f => Return (f, w)
  | None =>
      let f := length (selectors w) in
      Return (f, World (heap w)
                   (selectors w ++ [Selector chartType (Memo None VNull) (Memo None VNull)])
                   (<[chartType := f]> (cache w)))
  end.

(** [reducer(state = {}, action)] *)
Definition reducer (state action : value) : M value :=
  let* state := (if strict_eq state VUndef then alloc ∅ else ret state) in
  let* type := get action "type" in
  if strict_eq type (VStr GRAPH_SIZE_SET) then
    let* old := spread state in
    let* p := get action "payload" in
    let* width := get p "width" in
    let* p' := get action "payload" in
    let* height := get p' "height" in
    let* graphSize := alloc {[ "width" := width; "height" := height ]} in
    alloc (<["graphSize" := graphSize]> old)
  else if strict_eq type (VStr GRAPH_SELECTION_RECT_SET) then
    let* old := spread state in
    let* p1 := get action "payload" in
    let* top := get p1 "top" in
    let* p2 := get action "payload" in
    let* left := get p2 "left" in
    let* p3 := get action "payload" in
    let* bottom := get p3 "bottom" in
    let* p4 := get action "payload" in
    let* right := get p4 "right" in
    let* selectionRect :=
      alloc {[ "top" := top; "left" := left; "bottom" := bottom; "right" := right ]} in
    alloc (<["selectionRect" := selectionRect]> old)
  else if strict_eq type (VStr GRAPH_SELECTION_RECT_CLEAR) then
    let* old := spread state in
    alloc (<["selectionRect" := VNull]> old)
  else if strict_eq type (VStr VIEWPORT_SET) then
    let* old := spread state in
    let* p1 := get action "payload" in
    let* startDate := get p1 "startDate" in
    let* p2 := get action "payload" in
    let* endDate := get p2 "endDate" in
    let* viewport := alloc {[ "startDate" := startDate; "endDate" := endDate ]} in
    alloc (<["viewport" := viewport]> old)
  else if strict_eq type (VStr VIEWPORT_RESET) then
    let* old := spread state in
    alloc (<["viewport" := VNull]> old)
  else ret state.

(** ** Modelled scales *)

(** Modelled from the spec: [scales.js] is not among the sources (only its
    test, [scales.spec.js], is).  The container size a scale is built for:
    a width and a height. *)
Record ContainerSize := { size_width : float; size_height : float }.

(** Modelled from the spec: a scale exposes the domain [[min, max]] and the
    range [[min, max]] it was configured with ([scale.domain()],
    [scale.range()]); [scales.js] is missing. *)
Record Scale := { scale_domain : float * float; scale_range : float * float }.

(** Modelled from the spec: [scaleX(domain, containerSize)], the result
    function of [getScaleX] in the missing [scales.js], maps [domain] onto
    the range [[0, containerSize.width]]. *)
Definition getScaleX_resultFunc (domain : float * float) (size : ContainerSize) : Scale :=
  {| scale_domain := domain; scale_range := (0%float, size_width size) |}.

(** Modelled from the spec: [scaleY(domain, containerSize)], the result
    function of [getScaleY] in the missing [scales.js], maps [domain] onto
    the range [[0, containerSize.height]]. *)
Definition getScaleY_resultFunc (domain : float * float) (size : ContainerSize) : Scale :=
  {| scale_domain := domain; scale_range := (0%float, size_height size) |}.

(** ** Predicates of the statements *)

(** [allocates m w o]: run in [w], [m] returns a new object with exactly the
    properties [o], and changes nothing else. *)
Definition allocates (m : M value) (w : world) (o : obj) : Prop :=
  m w = Return (VRef (length (heap w)), set_heap (heap w ++ [o]) w).

(** A container size object with numeric width and height. *)
Definition is_size (w : world) (size : value) (width height : float) : Prop :=
  ∃ l o, size = VRef l ∧ heap w !! l = Some o ∧
    o !! "width" = Some (VNum width) ∧ o !! "height" = Some (VNum height).

(** Reading one coordinate of a panel's rectangle. *)
Definition panel_field (chartType k : string) (size : value) : M value :=
  let* r := getChartPosition_resultFunc chartType size in
  get r k.

(** [readable w v o]: reading a property [k] of [v] does not throw and
    yields [o !! k] (or [undefined]): [v] is an object with properties [o],
    or a primitive other than [undefined] and [null], which has none of the
    properties this module reads. *)
Definition readable (w : world) (v : value) (o : obj) : Prop :=
  match v with
  | VUndef | VNull => False
  | VBool _ | VNum _ | VStr _ => o = ∅
  | VRef l => heap w !! l = Some o
  end.

(** [extends w w']: every object of [w] is in [w'], unchanged. *)
Definition extends (w w' : world) : Prop :=
  ∀ l o, heap w !! l = Some o → heap w' !! l = Some o.

(** [mounted w root layout]: [root] is a root state of the store whose
    [MOUNT_POINT] slot holds [layout], as the default export
    [{[MOUNT_POINT]: reducer}] arranges. *)
Definition mounted (w : world) (root layout : value) : Prop :=
  ∃ r ro, root = VRef r ∧ heap w !! r = Some ro ∧ ro !! MOUNT_POINT = Some layout.

(** [frame w s field s' w']: the transition from state [s] in [w] to state
    [s'] in [w'] only allocated objects (every object of [w], the input
    state among them, is unchanged, and so are the selectors and the
    cache), the new state is a new object, and it has the properties of the
    old one except, at most, [field]. *)
Definition frame (w : world) (s : loc) (field : string) (s' : loc) (w' : world) : Prop :=
  (∃ new, w' = set_heap (heap w ++ new) w) ∧
  heap w !! s' = None ∧
  ∃ so so', heap w !! s = Some so ∧ heap w' !! s = Some so ∧
    heap w' !! s' = Some so' ∧ ∀ k, k ≠ field → so' !! k = so !! k.

(** [sized_state w state size]: [state] is a root state whose layout record
    has the container size [size] set. *)
Definition sized_state (w : world) (state size : value) : Prop :=
  ∃ layout lo, mounted w state layout ∧ readable w layout lo ∧
    lo !! "graphSize" = Some size ∧ truthy size = true.

(** What reselect maintains for a selector of this module: once it was
    called, the last state is a root state with a layout record, both memos
    hold the same result, and the memo of the result function holds the
    container size of the last state when that state has one. *)
Definition consistent (w : world) (s : selector) : Prop :=
  ∀ state, lastArgs (sel_memo s) = Some state →
    lastResult (sel_resultMemo s) = lastResult (sel_memo s) ∧
    ∃ layout lo, mounted w state layout ∧ readable w layout lo ∧
      ∀ size, lo !! "graphSize" = Some size → truthy size = true →
        lastArgs (sel_resultMemo s) = Some size.

Definition world_consistent (w : world) : Prop :=
  ∀ f s, selectors w !! f = Some s → consistent w s.

(** [grows m]: whenever [m] returns, it has only allocated objects; every
    object that existed is unchanged, and so are the selectors and the
    cache. *)
Definition grows {A} (m : M A) : Prop :=
  ∀ w a w', m w = Return (a, w') → ∃ new, w' = set_heap (heap w ++ new) w.

(** The whole number [z] as a binary64 number (exact below 2^53). *)
Definition whole (z : Z) : float := PrimFloat.of_uint63 (Uint63.of_Z z).

(** [h × 0.8 + h × 0.2 == h], with the products as the code computes them. *)
Definition heights_exact (h : float) : bool :=
  PrimFloat.eqb (h * 0.8 + h * 0.2) h.

(** [heights_exact] at [z, z + 5, ..., z + 5 (n - 1)]. *)
Fixpoint exact_from (z : Z) (n : nat) : bool :=
  match n with
  | O => true
  | S n' => heights_exact (whole z) && exact_from (z + 5) n'
  end.

(** ** Stores of the examples *)

(** A store holding one size object, [{width: 100, height: 50}]. *)
Definition size_world : world :=
  World [ {[ "width" := VNum 100; "height" := VNum 50 ]} ] [] ∅.

(** A store holding one size object, [{width: 4, height: 3}]. *)
Definition small_world : world :=
  World [ {[ "width" := VNum 4; "height" := VNum 3 ]} ] [] ∅.

(** A store with an empty state, a size payload and one action of each of
    four kinds. *)
Definition table_world : world :=
  World [ ∅;
          {[ "width" := VNum 100; "height" := VNum 50 ]};
          {[ "type" := VStr GRAPH_SIZE_SET; "payload" := VRef 1 ]};
          {[ "type" := VStr GRAPH_SELECTION_RECT_CLEAR ]};
          {[ "type" := VStr VIEWPORT_RESET ]};
          {[ "type" := VStr "UNKNOWN" ]} ] [] ∅.

(** A store with a state that has all three fields set, and a
    set-container-size action. *)
Definition full_world : world :=
  World [ {[ "width" := VNum 1; "height" := VNum 2 ]};
          {[ "top" := VNum 1; "left" := VNum 2; "bottom" := VNum 3; "right" := VNum 4 ]};
          {[ "startDate" := VNum 10; "endDate" := VNum 20 ]};
          {[ "graphSize" := VRef 0; "selectionRect" := VRef 1; "viewport" := VRef 2 ]};
          {[ "width" := VNum 100; "height" := VNum 50 ]};
          {[ "type" := VStr GRAPH_SIZE_SET; "payload" := VRef 4 ]} ] [] ∅.

(** A store with a state whose selection is set, and an argument for
    [setViewport] that has one property too many. *)
Definition roundtrip_world : world :=
  World [ {[ "selectionRect" := VNull ]};
          {[ "startDate" := VNum 10; "endDate" := VNum 20; "zoom" := VNum 7 ]} ] [] ∅.

(** A root state [{'components/graph/layout': {}}]. *)
Definition initial_world : world :=
  World [ ∅; {[ MOUNT_POINT := VRef 0 ]} ] [] ∅.

(** A store with a state, a set-container-size action whose payload is
    there but empty, and a root state. *)
Definition partial_world : world :=
  World [ ∅; ∅;
          {[ "type" := VStr GRAPH_SIZE_SET; "payload" := VRef 1 ]};
          {[ MOUNT_POINT := VRef 0 ]} ] [] ∅.

(** A store with two root states whose container sizes are two objects
    with the same width and height, and the selector of the main panel. *)
Definition resize_world : world :=
  World [ {[ "width" := VNum 100; "height" := VNum 50 ]};
          {[ "graphSize" := VRef 0 ]};
          {[ MOUNT_POINT := VRef 1 ]};
          {[ "width" := VNum 100; "height" := VNum 50 ]};
          {[ "graphSize" := VRef 3 ]};
          {[ MOUNT_POINT := VRef 4 ]} ]
        [ Selector "main" (Memo None VNull) (Memo None VNull) ]
        {[ "main" := 0%nat ]}.

(** The container size is set to 100 by 50, the position of the main panel
    is read, the container size is set to 100 by 50 once more, and the
    position is read again. *)
Definition resize_scenario : M (value * value) :=
  let* size := alloc {[ "width" := VNum 100; "height" := VNum 50 ]} in
  let* action1 := setContainerSize size in
  let* layout1 := reducer VUndef action1 in
  let* state1 := alloc {[ MOUNT_POINT := layout1 ]} in
  let* position := getChartPosition "main" in
  let* p1 := call_selector position state1 in
  let* action2 := setContainerSize size in
  let* layout2 := reducer layout1 action2 in
  let* state2 := alloc {[ MOUNT_POINT := layout2 ]} in
  let* p2 := call_selector position state2 in
  ret (p1, p2).

(** ** Predicates of the transitions and of the further properties *)

(** [undefined] or [null]: the values whose properties cannot be read. *)
Definition nullish (v : value) : Prop := v = VUndef ∨ v = VNull.

(** [points_to w v o]: [v] is an object of [w] with exactly the properties
    [o]. *)
Definition points_to (w : world) (v : value) (o : obj) : Prop :=
  ∃ l, v = VRef l ∧ heap w !! l = Some o.

(** One step of the store: the action made by a creator goes through the
    reducer. *)
Definition dispatch (creator : M value) (state : value) : M value :=
  let* action := creator in
  reducer state action.

(** [state_fields w state so]: the fields the reducer finds in [state]:
    those of the state object, or none when the state is [undefined] (the
    default parameter [state = {}] supplies a new empty object). *)
Definition state_fields (w : world) (state : value) (so : obj) : Prop :=
  (state = VUndef ∧ so = ∅) ∨ ∃ s, state = VRef s ∧ heap w !! s = Some so.

(** What a set action leaves behind: only new objects, among
    them a copy [d] of the named fields and the new state, which is the old
    one with [field] pointing to the copy. *)
Definition set_result (w : world) (so : obj) (field : string) (d : obj)
    (r : outcome (value * world)) : Prop :=
  ∃ s' v w', r = Return (VRef s', w') ∧
    (∃ new, w' = set_heap (heap w ++ new) w) ∧
    heap w !! s' = None ∧ heap w !! v = None ∧
    heap w' !! s' = Some (<[field := VRef v]> so) ∧
    heap w' !! v = Some d.

(** What a clear or reset action leaves behind: the new state is
    the old one with [field] set to [null]. *)
Definition clear_result (w : world) (so : obj) (field : string)
    (r : outcome (value * world)) : Prop :=
  ∃ s' w', r = Return (VRef s', w') ∧
    (∃ new, w' = set_heap (heap w ++ new) w) ∧
    heap w !! s' = None ∧
    heap w' !! s' = Some (<[field := VNull]> so).

(** [holds w so k d]: the field [k] of the state [so] is an object of [w]
    with exactly the properties [d]. *)
Definition holds (w : world) (so : obj) (k : string) (d : obj) : Prop :=
  ∃ v, so !! k = Some (VRef v) ∧ heap w !! v = Some d.

(** A store with a state whose three fields are set, and two arguments for
    the action creators. *)
Definition dispatch_world : world :=
  World [ {[ "width" := VNum 1; "height" := VNum 2 ]};
          {[ "top" := VNum 1; "left" := VNum 2; "bottom" := VNum 3; "right" := VNum 4 ]};
          {[ "startDate" := VNum 10; "endDate" := VNum 20 ]};
          {[ "graphSize" := VRef 0; "selectionRect" := VRef 1; "viewport" := VRef 2 ]};
          {[ "width" := VNum 100; "height" := VNum 50; "depth" := VNum 3 ]};
          {[ "startDate" := VNum 30; "endDate" := VNum 40 ]} ] [] ∅.

(** The three kinds of action that carry a payload. *)
Definition set_kind (ao : obj) : Prop :=
  ao !! "type" = Some (VStr GRAPH_SIZE_SET) ∨
  ao !! "type" = Some (VStr GRAPH_SELECTION_RECT_SET) ∨
  ao !! "type" = Some (VStr VIEWPORT_SET).

(** A store with a state and three set actions: without payload, with the
    payload [null], and with an empty payload. *)
Definition payload_world : world :=
  World [ ∅;
          {[ "type" := VStr VIEWPORT_SET ]};
          {[ "type" := VStr GRAPH_SELECTION_RECT_SET; "payload" := VNull ]};
          ∅;
          {[ "type" := VStr GRAPH_SIZE_SET; "payload" := VRef 3 ]} ] [] ∅.

(** [no_layout w root]: the root state has no layout record under the mount
    point: it is itself [undefined] or [null], or its [MOUNT_POINT] slot is
    missing, [undefined] or [null]. *)
Definition no_layout (w : world) (root : value) : Prop :=
  nullish root ∨
  ∃ ro, readable w root ro ∧ nullish (default VUndef (ro !! MOUNT_POINT)).

(** A store with an empty root state and a root state with an empty layout
    record, and a selector of the main panel that was never called. *)
Definition roots_world : world :=
  World [ ∅; ∅; {[ MOUNT_POINT := VRef 1 ]} ]
        [ Selector "main" (Memo None VNull) (Memo None VNull) ]
        {[ "main" := 0%nat ]}.

(** An action type the reducer has no [case] for. *)
Definition unrecognized (type : value) : Prop :=
  type ≠ VStr GRAPH_SIZE_SET ∧ type ≠ VStr GRAPH_SELECTION_RECT_SET ∧
  type ≠ VStr GRAPH_SELECTION_RECT_CLEAR ∧
  type ≠ VStr VIEWPORT_SET ∧ type ≠ VStr VIEWPORT_RESET.

(** A store with the action Redux sends first. *)
Definition init_world : world :=
  World [ {[ "type" := VStr "@@redux/INIT" ]} ] [] ∅.

(** The falsy values: [||] passes them over. *)
Definition falsy (v : value) : Prop := truthy v = false.

(** A store with layout records whose container size is [null] or 0, and
    their root states. *)
Definition falsy_world : world :=
  World [ {[ "graphSize" := VNull ]}; {[ MOUNT_POINT := VRef 0 ]};
          {[ "graphSize" := VNum 0 ]}; {[ MOUNT_POINT := VRef 2 ]} ] [] ∅.

(** ** The memoized position, seen from outside *)

(** The rectangle the result function makes for a chart type in a
    container [width] by [height]; none for another chart type. *)
Definition rectangle (chartType : string) (width height : float) : option obj :=
  if bool_decide (chartType = "main") then
    Some {[ "x" := VNum 0; "y" := VNum 0;
            "width" := VNum width; "height" := VNum (height * 0.8) ]}
  else if bool_decide (chartType = "panner") then
    Some {[ "x" := VNum 0; "y" := VNum (height * 0.8);
            "width" := VNum width; "height" := VNum (height * 0.2) ]}
  else if bool_decide (chartType = "lithography") then
    Some {[ "x" := VNum (width * 0.9); "y" := VNum 0;
            "width" := VNum (width * 0.1); "height" := VNum (height * 0.8) ]}
  else None.

Definition recognized (chartType : string) : bool :=
  bool_decide (chartType = "main") || bool_decide (chartType = "panner")
  || bool_decide (chartType = "lithography").

(** [is_position w chartType width height r]: [r] is what the position of
    the panel is in a container [width] by [height]: an object with the
    properties of the rectangle, or [undefined] for another chart type. *)
Definition is_position (w : world) (chartType : string) (width height : float)
    (r : value) : Prop :=
  match rectangle chartType width height with
  | Some o => points_to w r o
  | None => r = VUndef
  end.

(** [cache_ok w]: every entry of the cache of [getChartPosition] is a
    selector of the chart type it is filed under. *)
Definition cache_ok (w : world) : Prop :=
  ∀ chartType f, cache w !! chartType = Some f →
    ∃ s, selectors w !! f = Some s ∧ sel_chartType s = chartType.

(** [sound w s]: the memos of the selector [s] are consistent and hold no
    stale result: the result kept for a size is the position for that size
    ([undefined] for a chart type without rectangle), a size object kept
    for a panel that has a rectangle is an object of the store, and the
    result kept for a state without container size is the position in the
    empty container. *)
Definition sound (w : world) (s : selector) : Prop :=
  consistent w s ∧
  (recognized (sel_chartType s) = false →
   is_Some (lastArgs (sel_resultMemo s)) → lastResult (sel_resultMemo s) = VUndef) ∧
  (recognized (sel_chartType s) = true →
   ∀ l, lastArgs (sel_resultMemo s) = Some (VRef l) → is_Some (heap w !! l)) ∧
  (∀ size width height,
     lastArgs (sel_resultMemo s) = Some size → is_size w size width height →
     is_position w (sel_chartType s) width height (lastResult (sel_resultMemo s))) ∧
  (∀ state layout lo,
     lastArgs (sel_memo s) = Some state →
     mounted w state layout → readable w layout lo →
     falsy (default VUndef (lo !! "graphSize")) →
     is_position w (sel_chartType s) 0 0 (lastResult (sel_memo s))).

(** [world_sound w]: the cache and every selector of the store are in
    order. *)
Definition world_sound (w : world) : Prop :=
  cache_ok w ∧ ∀ f s, selectors w !! f = Some s → sound w s.

(** The position of a panel as a component reads it:
    [getChartPosition(chartType)(state)]. *)
Definition chart_position (chartType : string) (state : value) : M value :=
  let* position := getChartPosition chartType in
  call_selector position state.

(** A store with a root state of each sort (a container size of 100 by 50,
    one of 200 by 80, and none), nothing cached yet. *)
Definition position_world : world :=
  World [ {[ "width" := VNum 100; "height" := VNum 50 ]};
          {[ "graphSize" := VRef 0 ]};
          {[ MOUNT_POINT := VRef 1 ]};
          {[ "width" := VNum 200; "height" := VNum 80 ]};
          {[ "graphSize" := VRef 3 ]};
          {[ MOUNT_POINT := VRef 4 ]};
          ∅;
          {[ MOUNT_POINT := VRef 6 ]} ] [] ∅.

(** ** Running computations *)

Lemma bind_Return {A B} (m : M A) (k : A → M B) w a w' :
  m w = Return (a, w') → bind m k w = k a w'.
Proof. unfold bind. by intros ->. Qed.

Lemma get_object w l o k :
  heap w !! l = Some o → get (VRef l) k w = Return (default VUndef (o !! k), w).
Proof. unfold get. by intros ->. Qed.

Lemma get_field w l o k v :
  heap w !! l = Some o → o !! k = Some v → get (VRef l) k w = Return (v, w).
Proof. intros Hl Hk. by rewrite (get_object _ _ _ _ Hl), Hk. Qed.

Lemma spread_object w l o :
  heap w !! l = Some o → spread (VRef l) w = Return (o, w).
Proof. unfold spread. by intros ->. Qed.

Lemma alloc_Return o w :
  alloc o w = Return (VRef (length (heap w)), set_heap (heap w ++ [o]) w).
Proof. reflexivity. Qed.

Lemma heap_grows_lookup (h new : list obj) l o :
  h !! l = Some o → (h ++ new) !! l = Some o.
Proof. apply lookup_app_l_Some. Qed.

Lemma heap_fresh (h : list obj) : h !! length h = None.
Proof. by apply lookup_ge_None. Qed.

(** Multiplication of binary64 numbers is commutative, so [h * 0.8] in the
    code is the [0.8 × h] of the layout rule. *)
Lemma SF64mul_comm x y : SF64mul x y = SF64mul y x.
Proof.
  unfold SF64mul, SFmul.
  destruct x as [sx|sx| |sx mx ex], y as [sy|sy| |sy my ey];
    try reflexivity; rewrite ?(Bool.xorb_comm sx sy); try reflexivity.
  by rewrite (Pos.mul_comm mx my), (Z.add_comm ex ey).
Qed.

Lemma float_mul_comm (x y : float) : (x * y = y * x)%float.
Proof. apply Prim2SF_inj. rewrite !FloatAxioms.mul_spec. apply SF64mul_comm. Qed.

(** ** The chart position calculator *)

(** One step of a computation: the first action of a [let*] is a property
    read justified by the hypotheses, an allocation or a pure step. *)
Ltac run_step :=
  erewrite bind_Return
    by first [ eapply get_field; eassumption
             | eapply get_object; eassumption
             | eapply spread_object; eassumption
             | apply alloc_Return
             | reflexivity ];
  cbn beta.

Ltac run := repeat run_step.

Lemma resultFunc_main w size width height :
  is_size w size width height →
  allocates (getChartPosition_resultFunc "main" size) w
    {[ "x" := VNum 0; "y" := VNum 0;
       "width" := VNum width; "height" := VNum (height * 0.8) ]}.
Proof.
  intros (l & o & -> & Hl & Hw & Hh).
  unfold allocates, getChartPosition_resultFunc; simpl.
  by run.
Qed.

Lemma resultFunc_panner w size width height :
  is_size w size width height →
  allocates (getChartPosition_resultFunc "panner" size) w
    {[ "x" := VNum 0; "y" := VNum (height * 0.8);
       "width" := VNum width; "height" := VNum (height * 0.2) ]}.
Proof.
  intros (l & o & -> & Hl & Hw & Hh).
  unfold allocates, getChartPosition_resultFunc; simpl.
  by run.
Qed.

Lemma resultFunc_lithography w size width height :
  is_size w size width height →
  allocates (getChartPosition_resultFunc "lithography" size) w
    {[ "x" := VNum (width * 0.9); "y" := VNum 0;
       "width" := VNum (width * 0.1); "height" := VNum (height * 0.8) ]}.
Proof.
  intros (l & o & -> & Hl & Hw & Hh).
  unfold allocates, getChartPosition_resultFunc; simpl.
  by run.
Qed.

(** C1: for every container size [{width, height}] the position calculator
    returns exactly the fixed-ratio rectangle of each panel: for ['main']
    [{x: 0, y: 0, width, height: 0.8 × height}], for ['panner']
    [{x: 0, y: 0.8 × height, width, height: 0.2 × height}], for
    ['lithography'] [{x: 0.9 × width, y: 0, width: 0.1 × width,
    height: 0.8 × height}]. *)
Theorem C1_fixed_ratio_rectangles (w : world) (size : value) (width height : float) :
  is_size w size width height →
  allocates (getChartPosition_resultFunc "main" size) w
    {[ "x" := VNum 0; "y" := VNum 0;
       "width" := VNum width; "height" := VNum (0.8 * height) ]} ∧
  allocates (getChartPosition_resultFunc "panner" size) w
    {[ "x" := VNum 0; "y" := VNum (0.8 * height);
       "width" := VNum width; "height" := VNum (0.2 * height) ]} ∧
  allocates (getChartPosition_resultFunc "lithography" size) w
    {[ "x" := VNum (0.9 * width); "y" := VNum 0;
       "width" := VNum (0.1 * width); "height" := VNum (0.8 * height) ]}.
Proof.
  intros Hsize.
  rewrite (float_mul_comm 0.8), (float_mul_comm 0.2),
    (float_mul_comm 0.9), (float_mul_comm 0.1).
  split; [|split].
  - by apply resultFunc_main.
  - by apply resultFunc_panner.
  - by apply resultFunc_lithography.
Qed.

Lemma size_world_is_size : is_size size_world (VRef 0) 100 50.
Proof. by exists 0, {[ "width" := VNum 100; "height" := VNum 50 ]}. Qed.

(** In a container 100 wide and 50 high the main panel is 100 by 40. *)
Lemma C1_fixed_ratio_rectangles_witness :
  allocates (getChartPosition_resultFunc "main" (VRef 0)) size_world
    {[ "x" := VNum 0; "y" := VNum 0;
       "width" := VNum 100; "height" := VNum 40 ]}.
Proof.
  pose proof (C1_fixed_ratio_rectangles size_world (VRef 0) 100 50
                size_world_is_size) as [H _].
  exact H.
Defined.

Lemma panel_field_allocates chartType k size w o v :
  allocates (getChartPosition_resultFunc chartType size) w o →
  o !! k = Some v →
  panel_field chartType k size w = Return (v, set_heap (heap w ++ [o]) w).
Proof.
  unfold allocates, panel_field. intros Hrun Hk.
  rewrite (bind_Return _ _ _ _ _ Hrun).
  apply get_field with o; [|done].
  simpl. rewrite lookup_app_r by done. by rewrite Nat.sub_diag.
Qed.

Lemma exact_from_nth n : ∀ z (k : nat),
  exact_from z n = true → (k < n)%nat →
  heights_exact (whole (z + 5 * Z.of_nat k)) = true.
Proof.
  induction n as [|n IH]; intros z k Hn Hk; [lia|].
  cbn [exact_from] in Hn. apply andb_prop in Hn as [Hhere Hnext].
  destruct k as [|k].
  - by rewrite Z.mul_0_r, Z.add_0_r.
  - replace (z + 5 * Z.of_nat (S k))%Z with ((z + 5) + 5 * Z.of_nat k)%Z by lia.
    apply IH; [done|lia].
Qed.

Lemma multiples_of_5_exact (k : Z) :
  (0 ≤ k ≤ 20000)%Z → heights_exact (whole (5 * k)) = true.
Proof.
  intros Hk.
  replace (5 * k)%Z with (0 + 5 * Z.of_nat (Z.to_nat k))%Z by lia.
  apply exact_from_nth with (n := Z.to_nat 20001); [by vm_compute | lia].
Qed.

Lemma small_world_is_size : is_size small_world (VRef 0) 4 3.
Proof. by exists 0, {[ "width" := VNum 4; "height" := VNum 3 ]}. Qed.

Lemma panel_heights w size width height :
  is_size w size width height →
  ∃ w1 w2 w3,
    panel_field "main" "height" size w = Return (VNum (height * 0.8), w1) ∧
    panel_field "panner" "y" size w = Return (VNum (height * 0.8), w2) ∧
    panel_field "panner" "height" size w = Return (VNum (height * 0.2), w3).
Proof.
  intros Hsize. do 3 eexists. split; [|split].
  - by eapply panel_field_allocates; [apply resultFunc_main|].
  - by eapply panel_field_allocates; [apply resultFunc_panner|].
  - by eapply panel_field_allocates; [apply resultFunc_panner|].
Qed.

(** C5, as stated, fails: in a container of height 3 the 'main' panel is
    2.4000000000000004 high and the 'panner' panel 0.6000000000000001, and
    their sum is 3.0000000000000004, not 3. *)
Lemma C5_heights_sum_counterexample :
  (∃ w1 w2,
     panel_field "main" "height" (VRef 0) small_world
       = Return (VNum 2.4000000000000004, w1) ∧
     panel_field "panner" "height" (VRef 0) small_world
       = Return (VNum 0.6000000000000001, w2) ∧
     (2.4000000000000004 + 0.6000000000000001 = 3.0000000000000004)%float ∧
     PrimFloat.eqb (2.4000000000000004 + 0.6000000000000001) 3 = false) ∧
  ¬ (∀ (w : world) (size : value) (width height : float),
       is_size w size width height →
       PrimFloat.leb 0 width = true → PrimFloat.leb 0 height = true →
       ∃ hm hp w1 w2,
         panel_field "main" "height" size w = Return (VNum hm, w1) ∧
         panel_field "panner" "height" size w = Return (VNum hp, w2) ∧
         PrimFloat.eqb (hm + hp) height = true).
Proof.
  destruct (panel_heights _ _ _ _ small_world_is_size) as (w1 & w2 & w3 & Hm & _ & Hp).
  split.
  - exists w1, w3. by repeat split.
  - intros Hall.
    destruct (Hall _ _ _ _ small_world_is_size eq_refl eq_refl)
      as (hm & hp & w1' & w2' & Hm' & Hp' & Hsum).
    rewrite Hm in Hm'. rewrite Hp in Hp'.
    injection Hm' as <- _. injection Hp' as <- _.
    vm_compute in Hsum. discriminate.
Qed.

(** C5, amended: for every container size the 'main' height is
    [height × 0.8] and the 'panner' height [height × 0.2], each rounded to
    binary64, and the 'panner' [y] is the 'main' height, so the panner
    starts exactly where the main panel ends; the two heights sum exactly to
    the container height when the height is a whole multiple of 5 up to
    100000. *)
Theorem C5_panner_starts_where_main_ends (w : world) (size : value) (width height : float) :
  is_size w size width height →
  ∃ w1 w2 w3,
    panel_field "main" "height" size w = Return (VNum (height * 0.8), w1) ∧
    panel_field "panner" "y" size w = Return (VNum (height * 0.8), w2) ∧
    panel_field "panner" "height" size w = Return (VNum (height * 0.2), w3) ∧
    (∀ k : Z, (0 ≤ k ≤ 20000)%Z → height = whole (5 * k) →
       PrimFloat.eqb (height * 0.8 + height * 0.2) height = true).
Proof.
  intros Hsize.
  destruct (panel_heights _ _ _ _ Hsize) as (w1 & w2 & w3 & Hm & Hy & Hp).
  exists w1, w2, w3.
  split; [done|]. split; [done|]. split; [done|].
  intros k Hk ->. by apply multiples_of_5_exact.
Qed.

(** In a container 50 high: 40 for the main panel, 10 for the panner. *)
Lemma C5_panner_starts_where_main_ends_witness :
  is_size size_world (VRef 0) 100 50 ∧
  ∃ w1 w2 w3,
    panel_field "main" "height" (VRef 0) size_world = Return (VNum 40, w1) ∧
    panel_field "panner" "y" (VRef 0) size_world = Return (VNum 40, w2) ∧
    panel_field "panner" "height" (VRef 0) size_world = Return (VNum 10, w3) ∧
    PrimFloat.eqb (40 + 10) 50 = true.
Proof.
  split; [apply size_world_is_size|].
  destruct (C5_panner_starts_where_main_ends size_world (VRef 0) 100 50
              size_world_is_size) as (w1 & w2 & w3 & Hm & Hy & Hp & Hsum).
  exists w1, w2, w3.
  split; [exact Hm|]. split; [exact Hy|]. split; [exact Hp|].
  apply (Hsum 10%Z); [lia|reflexivity].
Defined.

Lemma resultFunc_other chartType size w :
  chartType ≠ "main" → chartType ≠ "panner" → chartType ≠ "lithography" →
  getChartPosition_resultFunc chartType size w = Return (VUndef, w).
Proof.
  intros Hmain Hpanner Hlitho. unfold getChartPosition_resultFunc.
  by rewrite !bool_decide_eq_false_2.
Qed.

(** C6: for every panel identifier other than ['main'], ['panner'] and
    ['lithography'] and every container size (any value at all), the
    position lookup returns [undefined], raises nothing and leaves the store
    as it was. *)
Theorem C6_unrecognized_panel (chartType : string) (size : value) (w : world) :
  chartType ≠ "main" → chartType ≠ "panner" → chartType ≠ "lithography" →
  getChartPosition_resultFunc chartType size w = Return (VUndef, w).
Proof. apply resultFunc_other. Qed.

(** There is no ['legend'] panel. *)
Lemma C6_unrecognized_panel_witness :
  getChartPosition_resultFunc "legend" VUndef empty_world
    = Return (VUndef, empty_world).
Proof. by apply (C6_unrecognized_panel "legend" VUndef empty_world). Defined.

(** ** Nothing is mutated *)

Lemma set_heap_nil w : w = set_heap (heap w ++ []) w.
Proof. unfold set_heap. rewrite app_nil_r. by destruct w. Qed.

Lemma bind_inv {A B} (m : M A) (k : A → M B) w b w'' :
  bind m k w = Return (b, w'') →
  ∃ a w', m w = Return (a, w') ∧ k a w' = Return (b, w'').
Proof.
  unfold bind. destruct (m w) as [[a w']| |]; [|done..]. intros Hk. by exists a, w'.
Qed.

Lemma grows_ret {A} (a : A) : grows (ret a).
Proof. intros w a' w' [= _ <-]. exists []. apply set_heap_nil. Qed.

Lemma grows_bind {A B} (m : M A) (k : A → M B) :
  grows m → (∀ a, grows (k a)) → grows (bind m k).
Proof.
  intros Hm Hk w b w'' (a & w' & Hrun & Hrest)%bind_inv.
  destruct (Hm _ _ _ Hrun) as [new ->].
  destruct (Hk _ _ _ _ Hrest) as [new' ->].
  exists (new ++ new'). simpl. by rewrite app_assoc.
Qed.

Lemma grows_alloc o : grows (alloc o).
Proof. intros w a w' [= _ <-]. by exists [o]. Qed.

Lemma grows_get v k : grows (get v k).
Proof.
  intros w a w'. unfold get.
  destruct v as [| |b|n|s|l]; try done;
    try (intros [= _ <-]; exists []; apply set_heap_nil).
  destruct (heap w !! l); [|done].
  intros [= _ <-]. exists []. apply set_heap_nil.
Qed.

Lemma grows_spread v : grows (spread v).
Proof.
  intros w a w'. unfold spread.
  destruct v as [| |b|n|s|l]; try done;
    try (intros [= _ <-]; exists []; apply set_heap_nil).
  destruct (heap w !! l); [|done].
  intros [= _ <-]. exists []. apply set_heap_nil.
Qed.

Lemma grows_times v c : grows (times v c).
Proof. unfold times. destruct (ToNumber v); [apply grows_ret|done]. Qed.

Lemma grows_if {A} (b : bool) (m1 m2 : M A) :
  grows m1 → grows m2 → grows (if b then m1 else m2).
Proof. by destruct b. Qed.

Create HintDb grows.
#[local] Hint Resolve grows_ret grows_alloc grows_get grows_spread grows_times : grows.
#[local] Hint Extern 1 (grows (bind _ _)) => apply grows_bind; [|intros ?] : grows.
#[local] Hint Extern 1 (grows (if _ then _ else _)) => apply grows_if : grows.

Lemma grows_reducer state action : grows (reducer state action).
Proof. unfold reducer. auto 30 with grows. Qed.

Lemma grows_setViewport arg : grows (setViewport arg).
Proof. unfold setViewport. auto 10 with grows. Qed.

Lemma grows_setContainerSize arg : grows (setContainerSize arg).
Proof. unfold setContainerSize. auto 10 with grows. Qed.

Lemma grows_setSelectionRect arg : grows (setSelectionRect arg).
Proof. unfold setSelectionRect. auto 10 with grows. Qed.

Lemma grows_getContainerSize state : grows (getContainerSize state).
Proof. unfold getContainerSize. auto 10 with grows. Qed.

Lemma grows_getViewport state : grows (getViewport state).
Proof. unfold getViewport. auto with grows. Qed.

Lemma grows_getSelectionRect state : grows (getSelectionRect state).
Proof. unfold getSelectionRect. auto with grows. Qed.

Lemma grows_resultFunc chartType size :
  grows (getChartPosition_resultFunc chartType size).
Proof. unfold getChartPosition_resultFunc. auto 30 with grows. Qed.

(** ** The reducer *)

Lemma get_readable w v o k :
  readable w v o → get v k w = Return (default VUndef (o !! k), w).
Proof.
  destruct v; simpl; try done; by intros ->.
Qed.

Lemma readable_grows w v o new :
  readable w v o → readable (set_heap (heap w ++ new) w) v o.
Proof. destruct v; simpl; try done. apply heap_grows_lookup. Qed.

Lemma get_field_readable w v o k x :
  readable w v o → o !! k = Some x → get v k w = Return (x, w).
Proof. intros Hv Hk. by rewrite (get_readable _ _ _ _ Hv), Hk. Qed.

Lemma strict_eq_VStr_ne v s : v ≠ VStr s → strict_eq v (VStr s) = false.
Proof.
  destruct v; simpl; try done.
  intros Hne. apply bool_decide_eq_false_2. congruence.
Qed.

(** Deciding a [case] of the [switch] on a concrete action type. *)
Ltac decide_case :=
  match goal with
  | |- context [strict_eq (VStr ?a) (VStr ?b)] =>
      let r := eval vm_compute in (strict_eq (VStr a) (VStr b)) in
      change (strict_eq (VStr a) (VStr b)) with r; cbn iota
  end.

Ltac run_reducer :=
  unfold reducer; cbn [strict_eq];
  repeat first
    [ decide_case
    | erewrite bind_Return
        by first [ eapply get_field; eassumption
                 | eapply get_readable; eassumption
                 | eapply spread_object; eassumption
                 | apply alloc_Return
                 | reflexivity ];
      cbn beta ].

Section reducer_cases.
Context (w : world) (s a : loc) (so ao : obj).
Hypothesis Hs : heap w !! s = Some so.
Hypothesis Ha : heap w !! a = Some ao.

Lemma reducer_GRAPH_SIZE_SET p po :
  ao !! "type" = Some (VStr GRAPH_SIZE_SET) →
  ao !! "payload" = Some p → readable w p po →
  reducer (VRef s) (VRef a) w =
    Return (VRef (S (length (heap w))),
            set_heap (heap w ++
              [ {[ "width" := default VUndef (po !! "width");
                   "height" := default VUndef (po !! "height") ]};
                <["graphSize" := VRef (length (heap w))]> so ]) w).
Proof.
  intros Hty Hp Hpo. run_reducer.
  rewrite alloc_Return. simpl.
  by rewrite length_app, Nat.add_1_r, <-app_assoc.
Qed.

Lemma reducer_GRAPH_SELECTION_RECT_SET p po :
  ao !! "type" = Some (VStr GRAPH_SELECTION_RECT_SET) →
  ao !! "payload" = Some p → readable w p po →
  reducer (VRef s) (VRef a) w =
    Return (VRef (S (length (heap w))),
            set_heap (heap w ++
              [ {[ "top" := default VUndef (po !! "top");
                   "left" := default VUndef (po !! "left");
                   "bottom" := default VUndef (po !! "bottom");
                   "right" := default VUndef (po !! "right") ]};
                <["selectionRect" := VRef (length (heap w))]> so ]) w).
Proof.
  intros Hty Hp Hpo. run_reducer.
  rewrite alloc_Return. simpl.
  by rewrite length_app, Nat.add_1_r, <-app_assoc.
Qed.

Lemma reducer_GRAPH_SELECTION_RECT_CLEAR :
  ao !! "type" = Some (VStr GRAPH_SELECTION_RECT_CLEAR) →
  reducer (VRef s) (VRef a) w =
    Return (VRef (length (heap w)),
            set_heap (heap w ++ [ <["selectionRect" := VNull]> so ]) w).
Proof. intros Hty. by run_reducer. Qed.

Lemma reducer_VIEWPORT_SET p po :
  ao !! "type" = Some (VStr VIEWPORT_SET) →
  ao !! "payload" = Some p → readable w p po →
  reducer (VRef s) (VRef a) w =
    Return (VRef (S (length (heap w))),
            set_heap (heap w ++
              [ {[ "startDate" := default VUndef (po !! "startDate");
                   "endDate" := default VUndef (po !! "endDate") ]};
                <["viewport" := VRef (length (heap w))]> so ]) w).
Proof.
  intros Hty Hp Hpo. run_reducer.
  rewrite alloc_Return. simpl.
  by rewrite length_app, Nat.add_1_r, <-app_assoc.
Qed.

Lemma reducer_VIEWPORT_RESET :
  ao !! "type" = Some (VStr VIEWPORT_RESET) →
  reducer (VRef s) (VRef a) w =
    Return (VRef (length (heap w)),
            set_heap (heap w ++ [ <["viewport" := VNull]> so ]) w).
Proof. intros Hty. by run_reducer. Qed.
End reducer_cases.

Lemma reducer_other w state action type :
  state ≠ VUndef →
  get action "type" w = Return (type, w) →
  type ≠ VStr GRAPH_SIZE_SET → type ≠ VStr GRAPH_SELECTION_RECT_SET →
  type ≠ VStr GRAPH_SELECTION_RECT_CLEAR →
  type ≠ VStr VIEWPORT_SET → type ≠ VStr VIEWPORT_RESET →
  reducer state action w = Return (state, w).
Proof.
  intros Hstate Hty H1 H2 H3 H4 H5. unfold reducer.
  assert (strict_eq state VUndef = false) as -> by by destruct state.
  erewrite bind_Return by reflexivity. cbn beta.
  rewrite (bind_Return _ _ _ _ _ Hty).
  by rewrite !strict_eq_VStr_ne.
Qed.

(** With no state given, the default parameter [state = {}] supplies a new
    empty object. *)
Lemma reducer_default action w :
  reducer VUndef action w
    = reducer (VRef (length (heap w))) action (set_heap (heap w ++ [∅]) w).
Proof. reflexivity. Qed.

Lemma extends_set_heap w new : extends w (set_heap (heap w ++ new) w).
Proof. intros l o. apply heap_grows_lookup. Qed.

Lemma lookup_last_1 (h : list obj) (o : obj) : (h ++ [o]) !! length h = Some o.
Proof. rewrite lookup_app_r by done. by rewrite Nat.sub_diag. Qed.

Lemma lookup_last_2 (h : list obj) (o1 o2 : obj) :
  (h ++ [o1; o2]) !! length h = Some o1 ∧ (h ++ [o1; o2]) !! S (length h) = Some o2.
Proof.
  split; rewrite lookup_app_r by lia.
  - by rewrite Nat.sub_diag.
  - by replace (S (length h) - length h)%nat with 1%nat by lia.
Qed.

Lemma frame_intro_1 w s so field v :
  heap w !! s = Some so →
  frame w s field (length (heap w)) (set_heap (heap w ++ [ <[field := v]> so ]) w).
Proof.
  intros Hs. split; [by eexists|]. split; [apply heap_fresh|].
  exists so, (<[field := v]> so). simpl.
  split; [done|]. split; [by apply heap_grows_lookup|].
  split; [apply lookup_last_1|]. intros k Hk. by apply lookup_insert_ne.
Qed.

Lemma frame_intro_2 w s so field o v :
  heap w !! s = Some so →
  frame w s field (S (length (heap w)))
    (set_heap (heap w ++ [ o; <[field := v]> so ]) w).
Proof.
  intros Hs. split; [by eexists|]. split; [apply lookup_ge_None; lia|].
  exists so, (<[field := v]> so). simpl.
  split; [done|]. split; [by apply heap_grows_lookup|].
  split; [apply lookup_last_2|]. intros k Hk. by apply lookup_insert_ne.
Qed.

(** C8: the reducer mutates nothing: whenever it returns, on any state and
    any action, it has only allocated.  For every prior state and every
    recognized action the new state is a new object that carries over every
    field but the targeted one: [graphSize] for set-container-size,
    [selectionRect] for set/clear-selection-rect, [viewport] for
    set/reset-viewport. *)
Theorem C8_reducer_frame :
  (∀ state action, grows (reducer state action)) ∧
  (∀ (w : world) (s a : loc) (so ao : obj),
     heap w !! s = Some so → heap w !! a = Some ao →
     (ao !! "type" = Some (VStr GRAPH_SIZE_SET) →
      ∀ p po, ao !! "payload" = Some p → readable w p po →
      ∃ s' w', reducer (VRef s) (VRef a) w = Return (VRef s', w') ∧
               frame w s "graphSize" s' w') ∧
     (ao !! "type" = Some (VStr GRAPH_SELECTION_RECT_SET) →
      ∀ p po, ao !! "payload" = Some p → readable w p po →
      ∃ s' w', reducer (VRef s) (VRef a) w = Return (VRef s', w') ∧
               frame w s "selectionRect" s' w') ∧
     (ao !! "type" = Some (VStr GRAPH_SELECTION_RECT_CLEAR) →
      ∃ s' w', reducer (VRef s) (VRef a) w = Return (VRef s', w') ∧
               frame w s "selectionRect" s' w') ∧
     (ao !! "type" = Some (VStr VIEWPORT_SET) →
      ∀ p po, ao !! "payload" = Some p → readable w p po →
      ∃ s' w', reducer (VRef s) (VRef a) w = Return (VRef s', w') ∧
               frame w s "viewport" s' w') ∧
     (ao !! "type" = Some (VStr VIEWPORT_RESET) →
      ∃ s' w', reducer (VRef s) (VRef a) w = Return (VRef s', w') ∧
               frame w s "viewport" s' w')).
Proof.
  split; [exact grows_reducer|].
  intros w s a so ao Hs Ha. repeat split.
  - intros Hty p po Hp Hpo. eexists _, _.
    split; [by eapply reducer_GRAPH_SIZE_SET|]. by apply frame_intro_2.
  - intros Hty p po Hp Hpo. eexists _, _.
    split; [by eapply reducer_GRAPH_SELECTION_RECT_SET|]. by apply frame_intro_2.
  - intros Hty. eexists _, _.
    split; [by eapply reducer_GRAPH_SELECTION_RECT_CLEAR|]. by apply frame_intro_1.
  - intros Hty p po Hp Hpo. eexists _, _.
    split; [by eapply reducer_VIEWPORT_SET|]. by apply frame_intro_2.
  - intros Hty. eexists _, _.
    split; [by eapply reducer_VIEWPORT_RESET|]. by apply frame_intro_1.
Qed.

(** Setting the container size keeps the selection and the viewport. *)
Lemma C8_reducer_frame_witness :
  ∃ s' so' w',
    reducer (VRef 3) (VRef 5) full_world = Return (VRef s', w') ∧
    heap w' !! 3%nat = heap full_world !! 3%nat ∧
    heap w' !! s' = Some so' ∧
    so' !! "selectionRect" = Some (VRef 1) ∧ so' !! "viewport" = Some (VRef 2).
Proof.
  destruct C8_reducer_frame as [_ Hframes].
  destruct (Hframes full_world 3%nat 5%nat
    {[ "graphSize" := VRef 0; "selectionRect" := VRef 1; "viewport" := VRef 2 ]}
    {[ "type" := VStr GRAPH_SIZE_SET; "payload" := VRef 4 ]}
    eq_refl eq_refl) as (Hsize & _).
  destruct (Hsize eq_refl (VRef 4) {[ "width" := VNum 100; "height" := VNum 50 ]}
              eq_refl eq_refl)
    as (s' & w' & Hrun & _ & _ & so & so' & Hso & Hkeep & Hso' & Hframe).
  exists s', so', w'. split; [exact Hrun|].
  injection Hso as <-.
  split; [exact Hkeep|]. split; [exact Hso'|].
  split.
  - rewrite (Hframe "selectionRect") by discriminate. reflexivity.
  - rewrite (Hframe "viewport") by discriminate. reflexivity.
Defined.

(** ** Action creators, reducer and selectors together *)

Lemma get_mounted w root layout lo k :
  mounted w root layout → readable w layout lo →
  (let* l := get root MOUNT_POINT in get l k) w
    = Return (default VUndef (lo !! k), w).
Proof.
  intros (r & ro & -> & Hr & Hmp) Hlo.
  rewrite (bind_Return _ _ _ _ _ (get_field _ _ _ _ _ Hr Hmp)).
  by apply get_readable.
Qed.

Lemma setViewport_Return w arg argo :
  readable w arg argo →
  setViewport arg w =
    Return (VRef (S (length (heap w))),
            set_heap (heap w ++
              [ {[ "startDate" := default VUndef (argo !! "startDate");
                   "endDate" := default VUndef (argo !! "endDate") ]};
                {[ "type" := VStr VIEWPORT_SET;
                   "payload" := VRef (length (heap w)) ]} ]) w).
Proof.
  intros Harg. unfold setViewport.
  do 2 (erewrite bind_Return by (eapply get_readable; eassumption); cbn beta).
  erewrite bind_Return by apply alloc_Return. cbn beta.
  rewrite alloc_Return. simpl.
  by rewrite length_app, Nat.add_1_r, <-app_assoc.
Qed.

Lemma setContainerSize_Return w arg argo :
  readable w arg argo →
  setContainerSize arg w =
    Return (VRef (S (length (heap w))),
            set_heap (heap w ++
              [ {[ "width" := default VUndef (argo !! "width");
                   "height" := default VUndef (argo !! "height") ]};
                {[ "type" := VStr GRAPH_SIZE_SET;
                   "payload" := VRef (length (heap w)) ]} ]) w).
Proof.
  intros Harg. unfold setContainerSize.
  do 2 (erewrite bind_Return by (eapply get_readable; eassumption); cbn beta).
  erewrite bind_Return by apply alloc_Return. cbn beta.
  rewrite alloc_Return. simpl.
  by rewrite length_app, Nat.add_1_r, <-app_assoc.
Qed.

Lemma setSelectionRect_Return w arg argo :
  readable w arg argo →
  setSelectionRect arg w =
    Return (VRef (S (length (heap w))),
            set_heap (heap w ++
              [ {[ "top" := default VUndef (argo !! "top");
                   "left" := default VUndef (argo !! "left");
                   "bottom" := default VUndef (argo !! "bottom");
                   "right" := default VUndef (argo !! "right") ]};
                {[ "type" := VStr GRAPH_SELECTION_RECT_SET;
                   "payload" := VRef (length (heap w)) ]} ]) w).
Proof.
  intros Harg. unfold setSelectionRect.
  do 4 (erewrite bind_Return by (eapply get_readable; eassumption); cbn beta).
  erewrite bind_Return by apply alloc_Return. cbn beta.
  rewrite alloc_Return. simpl.
  by rewrite length_app, Nat.add_1_r, <-app_assoc.
Qed.

Lemma viewport_roundtrip w s so arg argo :
  heap w !! s = Some so → readable w arg argo →
  let d : obj := {[ "startDate" := default VUndef (argo !! "startDate");
                    "endDate" := default VUndef (argo !! "endDate") ]} in
  ∃ a p w1 s' w2 v,
    setViewport arg w = Return (VRef a, w1) ∧
    heap w1 !! a = Some {[ "type" := VStr VIEWPORT_SET; "payload" := VRef p ]} ∧
    heap w1 !! p = Some d ∧
    reducer (VRef s) (VRef a) w1 = Return (VRef s', w2) ∧
    heap w2 !! v = Some d ∧
    ∀ w3 root, extends w2 w3 → mounted w3 root (VRef s') →
      getViewport root w3 = Return (VRef v, w3).
Proof.
  intros Hs Harg d.
  pose proof (setViewport_Return w arg argo Harg) as Hset.
  set (w1 := set_heap _ w) in Hset.
  destruct (lookup_last_2 (heap w) d
    {[ "type" := VStr VIEWPORT_SET; "payload" := VRef (length (heap w)) ]})
    as [Hp Ha].
  assert (heap w1 !! s = Some so) as Hs1 by by apply heap_grows_lookup.
  pose proof (reducer_VIEWPORT_SET w1 s (S (length (heap w))) so _ Hs1 Ha
                (VRef (length (heap w))) d eq_refl eq_refl Hp) as Hred.
  set (w2 := set_heap _ w1) in Hred.
  change (default VUndef (d !! "startDate")) with (default VUndef (argo !! "startDate")) in *.
  change (default VUndef (d !! "endDate")) with (default VUndef (argo !! "endDate")) in *.
  destruct (lookup_last_2 (heap w1) d
    (<["viewport" := VRef (length (heap w1))]> so)) as [Hv Hs'].
  eexists _, _, w1, _, w2, _.
  split; [exact Hset|]. split; [exact Ha|]. split; [exact Hp|].
  split; [exact Hred|]. split; [exact Hv|].
  intros w3 root Hext Hroot. unfold getViewport.
  erewrite get_mounted; [|exact Hroot|apply Hext, Hs'].
  by rewrite lookup_insert_eq.
Qed.

Lemma selectionRect_roundtrip w s so arg argo :
  heap w !! s = Some so → readable w arg argo →
  let d : obj := {[ "top" := default VUndef (argo !! "top");
                    "left" := default VUndef (argo !! "left");
                    "bottom" := default VUndef (argo !! "bottom");
                    "right" := default VUndef (argo !! "right") ]} in
  ∃ a p w1 s' w2 v,
    setSelectionRect arg w = Return (VRef a, w1) ∧
    heap w1 !! a = Some {[ "type" := VStr GRAPH_SELECTION_RECT_SET; "payload" := VRef p ]} ∧
    heap w1 !! p = Some d ∧
    reducer (VRef s) (VRef a) w1 = Return (VRef s', w2) ∧
    heap w2 !! v = Some d ∧
    ∀ w3 root, extends w2 w3 → mounted w3 root (VRef s') →
      getSelectionRect root w3 = Return (VRef v, w3).
Proof.
  intros Hs Harg d.
  pose proof (setSelectionRect_Return w arg argo Harg) as Hset.
  set (w1 := set_heap _ w) in Hset.
  destruct (lookup_last_2 (heap w) d
    {[ "type" := VStr GRAPH_SELECTION_RECT_SET; "payload" := VRef (length (heap w)) ]})
    as [Hp Ha].
  assert (heap w1 !! s = Some so) as Hs1 by by apply heap_grows_lookup.
  pose proof (reducer_GRAPH_SELECTION_RECT_SET w1 s (S (length (heap w))) so _ Hs1 Ha
                (VRef (length (heap w))) d eq_refl eq_refl Hp) as Hred.
  set (w2 := set_heap _ w1) in Hred.
  change (default VUndef (d !! "top")) with (default VUndef (argo !! "top")) in *.
  change (default VUndef (d !! "left")) with (default VUndef (argo !! "left")) in *.
  change (default VUndef (d !! "bottom")) with (default VUndef (argo !! "bottom")) in *.
  change (default VUndef (d !! "right")) with (default VUndef (argo !! "right")) in *.
  destruct (lookup_last_2 (heap w1) d
    (<["selectionRect" := VRef (length (heap w1))]> so)) as [Hv Hs'].
  eexists _, _, w1, _, w2, _.
  split; [exact Hset|]. split; [exact Ha|]. split; [exact Hp|].
  split; [exact Hred|]. split; [exact Hv|].
  intros w3 root Hext Hroot. unfold getSelectionRect.
  erewrite get_mounted; [|exact Hroot|apply Hext, Hs'].
  by rewrite lookup_insert_eq.
Qed.

(** C10, as stated, fails: the state the reducer gives is the layout record
    itself; it has no property named by the mount point, so [getViewport]
    applied to it reads [viewport] of [undefined] and throws. *)
Lemma C10_unmounted_state_counterexample :
  (let* action := setViewport (VRef 1) in
   let* s' := reducer (VRef 0) action in
   getViewport s') roundtrip_world = Throw_TypeError.
Proof. reflexivity. Qed.

(** C10, amended: the round trip.  For every state [s], the action made by
    [setViewport] from an argument with [startDate] and [endDate] (and
    whatever else) has a payload of exactly these two fields; the reducer
    applied to [s] and this action gives a state on which, once it sits
    under the mount point of a root state, [getViewport] returns an object
    with exactly these two fields.  Likewise for [setSelectionRect],
    [getSelectionRect] and the four fields [top], [left], [bottom],
    [right]. *)
Theorem C10_action_roundtrip (w : world) (s : loc) (so : obj) (arg : value) (argo : obj) :
  heap w !! s = Some so → readable w arg argo →
  (let d : obj := {[ "startDate" := default VUndef (argo !! "startDate");
                     "endDate" := default VUndef (argo !! "endDate") ]} in
   ∃ a p w1 s' w2 v,
     setViewport arg w = Return (VRef a, w1) ∧
     heap w1 !! a = Some {[ "type" := VStr VIEWPORT_SET; "payload" := VRef p ]} ∧
     heap w1 !! p = Some d ∧
     reducer (VRef s) (VRef a) w1 = Return (VRef s', w2) ∧
     heap w2 !! v = Some d ∧
     ∀ w3 root, extends w2 w3 → mounted w3 root (VRef s') →
       getViewport root w3 = Return (VRef v, w3)) ∧
  (let d : obj := {[ "top" := default VUndef (argo !! "top");
                     "left" := default VUndef (argo !! "left");
                     "bottom" := default VUndef (argo !! "bottom");
                     "right" := default VUndef (argo !! "right") ]} in
   ∃ a p w1 s' w2 v,
     setSelectionRect arg w = Return (VRef a, w1) ∧
     heap w1 !! a = Some {[ "type" := VStr GRAPH_SELECTION_RECT_SET; "payload" := VRef p ]} ∧
     heap w1 !! p = Some d ∧
     reducer (VRef s) (VRef a) w1 = Return (VRef s', w2) ∧
     heap w2 !! v = Some d ∧
     ∀ w3 root, extends w2 w3 → mounted w3 root (VRef s') →
       getSelectionRect root w3 = Return (VRef v, w3)).
Proof.
  intros Hs Harg. split.
  - exact (viewport_roundtrip w s so arg argo Hs Harg).
  - exact (selectionRect_roundtrip w s so arg argo Hs Harg).
Qed.

(** The viewport from the 10th to the 20th; the extra [zoom] is dropped. *)
Lemma C10_action_roundtrip_witness :
  ∃ a p w1 s' w2 v,
    setViewport (VRef 1) roundtrip_world = Return (VRef a, w1) ∧
    heap w1 !! p = Some {[ "startDate" := VNum 10; "endDate" := VNum 20 ]} ∧
    reducer (VRef 0) (VRef a) w1 = Return (VRef s', w2) ∧
    heap w2 !! v = Some {[ "startDate" := VNum 10; "endDate" := VNum 20 ]} ∧
    ∀ w3 root, extends w2 w3 → mounted w3 root (VRef s') →
      getViewport root w3 = Return (VRef v, w3).
Proof.
  destruct (C10_action_roundtrip roundtrip_world 0 {[ "selectionRect" := VNull ]}
    (VRef 1) {[ "startDate" := VNum 10; "endDate" := VNum 20; "zoom" := VNum 7 ]}
    eq_refl eq_refl) as [(a & p & w1 & s' & w2 & v & Hset & _ & Hp & Hred & Hv & Hget) _].
  exists a, p, w1, s', w2, v.
  split; [exact Hset|]. split; [exact Hp|]. split; [exact Hred|].
  split; [exact Hv|exact Hget].
Defined.

(** ** Selectors on a state without the layout record *)

(** C4, as stated, fails: on the empty root state [{}] there is no layout
    record under the mount point, and [getContainerSize] throws. *)
Lemma C4_empty_state_counterexample :
  getContainerSize (VRef 0) (World [∅] [] ∅) = Throw_TypeError.
Proof. reflexivity. Qed.

(** C4, amended: on every root state whose layout record has no container
    size set, the empty layout record among them, [getContainerSize]
    returns a new [{width: 0, height: 0}]. *)
Theorem C4_default_container_size (w : world) (root layout : value) (lo : obj) :
  mounted w root layout → readable w layout lo → lo !! "graphSize" = None →
  allocates (getContainerSize root) w {[ "width" := VNum 0; "height" := VNum 0 ]}.
Proof.
  intros (r & ro & -> & Hr & Hmp) Hlo Hnone.
  unfold allocates, getContainerSize.
  rewrite (bind_Return _ _ _ _ _ (get_field _ _ _ _ _ Hr Hmp)).
  rewrite (bind_Return _ _ _ _ _ (get_readable _ _ _ "graphSize" Hlo)).
  by rewrite Hnone.
Qed.

Lemma initial_world_mounted : mounted initial_world (VRef 1) (VRef 0).
Proof. by exists 1, {[ MOUNT_POINT := VRef 0 ]}. Qed.

(** The default size on the root state with an empty layout record. *)
Lemma C4_default_container_size_witness :
  allocates (getContainerSize (VRef 1)) initial_world
    {[ "width" := VNum 0; "height" := VNum 0 ]}.
Proof.
  apply (C4_default_container_size initial_world (VRef 1) (VRef 0) ∅).
  - exact initial_world_mounted.
  - reflexivity.
  - reflexivity.
Defined.

(** ** Where the operations return *)

(** The reducer on an object state returns whenever the payload of a set
    action can be read. *)
Lemma reducer_returns_object w s so action ao :
  heap w !! s = Some so → readable w action ao →
  (∀ type, ao !! "type" = Some (VStr type) →
     type = GRAPH_SIZE_SET ∨ type = GRAPH_SELECTION_RECT_SET ∨ type = VIEWPORT_SET →
     ∃ p po, ao !! "payload" = Some p ∧ readable w p po) →
  ∃ r w', reducer (VRef s) action w = Return (r, w').
Proof.
  intros Hs Haction Hpayload.
  pose proof (get_readable _ _ _ "type" Haction) as Hget.
  assert (∀ type, ao !! "type" = Some (VStr type) →
            ∃ a, action = VRef a ∧ heap w !! a = Some ao) as Hobject.
  { intros type Hty. destruct action; simpl in Haction; try done;
      try (subst ao; by rewrite lookup_empty in Hty). by eexists. }
  destruct (ao !! "type") as [[| |b|n|type|l]|] eqn:Hty; simpl in Hget;
    try (eexists _, _; by eapply reducer_other).
  destruct (Hobject type eq_refl) as (a & -> & Ha).
  destruct (decide (type = GRAPH_SIZE_SET)) as [->|H1].
  { destruct (Hpayload _ eq_refl) as (p & po & Hp & Hpo); [by left|].
    eexists _, _. by eapply reducer_GRAPH_SIZE_SET. }
  destruct (decide (type = GRAPH_SELECTION_RECT_SET)) as [->|H2].
  { destruct (Hpayload _ eq_refl) as (p & po & Hp & Hpo); [by right; left|].
    eexists _, _. by eapply reducer_GRAPH_SELECTION_RECT_SET. }
  destruct (decide (type = GRAPH_SELECTION_RECT_CLEAR)) as [->|H3].
  { eexists _, _. by eapply reducer_GRAPH_SELECTION_RECT_CLEAR. }
  destruct (decide (type = VIEWPORT_SET)) as [->|H4].
  { destruct (Hpayload _ eq_refl) as (p & po & Hp & Hpo); [by right; right|].
    eexists _, _. by eapply reducer_VIEWPORT_SET. }
  destruct (decide (type = VIEWPORT_RESET)) as [->|H5].
  { eexists _, _. by eapply reducer_VIEWPORT_RESET. }
  eexists _, _. apply (reducer_other w (VRef s) (VRef a) (VStr type));
    [done|exact Hget|congruence..].
Qed.

Lemma reducer_returns w state action ao :
  (state = VUndef ∨ ∃ s so, state = VRef s ∧ heap w !! s = Some so) →
  readable w action ao →
  (∀ type, ao !! "type" = Some (VStr type) →
     type = GRAPH_SIZE_SET ∨ type = GRAPH_SELECTION_RECT_SET ∨ type = VIEWPORT_SET →
     ∃ p po, ao !! "payload" = Some p ∧ readable w p po) →
  ∃ r w', reducer state action w = Return (r, w').
Proof.
  intros [->|(s & so & -> & Hs)] Haction Hpayload.
  - rewrite reducer_default.
    apply reducer_returns_object with ∅ ao.
    + apply lookup_last_1.
    + by apply readable_grows.
    + intros type Hty Hset.
      destruct (Hpayload type Hty Hset) as (p & po & Hp & Hpo).
      exists p, po. split; [done|]. by apply readable_grows.
  - by apply reducer_returns_object with so ao.
Qed.

Lemma getContainerSize_returns w root layout lo :
  mounted w root layout → readable w layout lo →
  ∃ r w', getContainerSize root w = Return (r, w').
Proof.
  intros (r & ro & -> & Hr & Hmp) Hlo. unfold getContainerSize.
  rewrite (bind_Return _ _ _ _ _ (get_field _ _ _ _ _ Hr Hmp)).
  rewrite (bind_Return _ _ _ _ _ (get_readable _ _ _ "graphSize" Hlo)).
  destruct (truthy _); by eexists _, _.
Qed.

(** ** Scales *)

(** C7: the scale built by [getScaleX] exposes the domain it was given and
    the range [[0, width]], the one built by [getScaleY] the same domain and
    the range [[0, height]]; each is a function of the domain and of that
    one dimension only. *)
Theorem C7_scale_domain_and_range (domain : float * float) (size : ContainerSize) :
  scale_domain (getScaleX_resultFunc domain size) = domain ∧
  scale_range (getScaleX_resultFunc domain size) = (0%float, size_width size) ∧
  scale_domain (getScaleY_resultFunc domain size) = domain ∧
  scale_range (getScaleY_resultFunc domain size) = (0%float, size_height size) ∧
  (∀ size', size_width size' = size_width size →
     getScaleX_resultFunc domain size' = getScaleX_resultFunc domain size) ∧
  (∀ size', size_height size' = size_height size →
     getScaleY_resultFunc domain size' = getScaleY_resultFunc domain size).
Proof.
  repeat split.
  - intros size' Hwidth. unfold getScaleX_resultFunc. by rewrite Hwidth.
  - intros size' Hheight. unfold getScaleY_resultFunc. by rewrite Hheight.
Qed.

(** The cases of [scales.spec.js]: the domain [[0, 100]] on a container 50
    wide, or 50 high. *)
Lemma C7_scale_domain_and_range_witness :
  scale_domain (getScaleX_resultFunc (0, 100)%float {| size_width := 50; size_height := 0 |})
    = (0, 100)%float ∧
  scale_range (getScaleX_resultFunc (0, 100)%float {| size_width := 50; size_height := 0 |})
    = (0, 50)%float ∧
  getScaleX_resultFunc (0, 100)%float {| size_width := 50; size_height := 7 |}
    = getScaleX_resultFunc (0, 100)%float {| size_width := 50; size_height := 0 |}.
Proof.
  destruct (C7_scale_domain_and_range (0, 100)%float
              {| size_width := 50; size_height := 0 |})
    as (Hdomain & Hrange & _ & _ & Hpure & _).
  split; [exact Hdomain|]. split; [exact Hrange|].
  apply Hpure. reflexivity.
Defined.

(** ** Memoization of the chart position *)

Lemma mounted_extends w w' root layout :
  extends w w' → mounted w root layout → mounted w' root layout.
Proof. intros Hext (r & ro & -> & Hr & Hmp). exists r, ro. auto. Qed.

Lemma readable_extends w w' v o :
  extends w w' → readable w v o → readable w' v o.
Proof. intros Hext. destruct v; simpl; auto. Qed.

Lemma sized_state_extends w w' state size :
  extends w w' → sized_state w state size → sized_state w' state size.
Proof.
  intros Hext (layout & lo & Hroot & Hlo & Hsize & Htruthy).
  exists layout, lo.
  split; [by eapply mounted_extends|]. split; [by eapply readable_extends|]. done.
Qed.

Lemma is_size_extends w w' size width height :
  extends w w' → is_size w size width height → is_size w' size width height.
Proof. intros Hext (l & o & -> & Hl & Hw & Hh). exists l, o. auto. Qed.

Lemma consistent_extends w w' s :
  extends w w' → consistent w s → consistent w' s.
Proof.
  intros Hext Hs state Hlast. destruct (Hs state Hlast) as (Hres & layout & lo & Hroot & Hlo & Hsize).
  split; [done|]. exists layout, lo.
  split; [by eapply mounted_extends|]. split; [by eapply readable_extends|]. done.
Qed.

Lemma mounted_inj w root layout layout' :
  mounted w root layout → mounted w root layout' → layout = layout'.
Proof.
  intros (r & ro & -> & Hr & Hmp) (r' & ro' & [= <-] & Hr' & Hmp').
  rewrite Hr in Hr'. injection Hr' as <-. rewrite Hmp in Hmp'. by injection Hmp'.
Qed.

Lemma readable_inj w v o o' : readable w v o → readable w v o' → o = o'.
Proof.
  destruct v; simpl; try done; try by intros -> ->.
  intros Ho Ho'. rewrite Ho in Ho'. by injection Ho'.
Qed.

Lemma sized_state_inj w state size size' :
  sized_state w state size → sized_state w state size' → size = size'.
Proof.
  intros (layout & lo & Hroot & Hlo & Hsize & _) (layout' & lo' & Hroot' & Hlo' & Hsize' & _).
  pose proof (mounted_inj _ _ _ _ Hroot Hroot') as <-.
  pose proof (readable_inj _ _ _ _ Hlo Hlo') as <-.
  rewrite Hsize in Hsize'. by injection Hsize'.
Qed.

Lemma getContainerSize_sized w state size :
  sized_state w state size → getContainerSize state w = Return (size, w).
Proof.
  intros (layout & lo & (r & ro & -> & Hr & Hmp) & Hlo & Hsize & Htruthy).
  unfold getContainerSize.
  rewrite (bind_Return _ _ _ _ _ (get_field _ _ _ _ _ Hr Hmp)).
  rewrite (bind_Return _ _ _ _ _ (get_field_readable _ _ _ _ _ Hlo Hsize)).
  by rewrite Htruthy.
Qed.

Lemma strict_eq_VRef v l : strict_eq v (VRef l) = true → v = VRef l.
Proof. destruct v; simpl; try done. by intros ->%bool_decide_eq_true. Qed.

Lemma strict_eq_VRef_refl l : strict_eq (VRef l) (VRef l) = true.
Proof. simpl. by apply bool_decide_eq_true. Qed.

Lemma sized_state_ref w state size : sized_state w state size → ∃ r, state = VRef r.
Proof. intros (? & ? & (r & ? & -> & ?) & ?). by exists r. Qed.

Lemma read_selector_Return w f s :
  selectors w !! f = Some s → read_selector f w = Return (s, w).
Proof. unfold read_selector. by intros ->. Qed.

Lemma modify_selector_Return w f s g :
  selectors w !! f = Some s →
  modify_selector f g w = Return ((), World (heap w) (<[f := g s]> (selectors w)) (cache w)).
Proof. unfold modify_selector. by intros ->. Qed.

(** The result function returns on every numeric size, allocating the
    rectangle, if any. *)
Lemma resultFunc_returns chartType w size width height :
  is_size w size width height →
  ∃ r new, getChartPosition_resultFunc chartType size w
             = Return (r, set_heap (heap w ++ new) w).
Proof.
  intros Hsize.
  destruct (decide (chartType = "main")) as [->|Hmain];
    [eexists _, [_]; by apply resultFunc_main|].
  destruct (decide (chartType = "panner")) as [->|Hpanner];
    [eexists _, [_]; by apply resultFunc_panner|].
  destruct (decide (chartType = "lithography")) as [->|Hlitho];
    [eexists _, [_]; by apply resultFunc_lithography|].
  exists VUndef, []. rewrite resultFunc_other by done.
  unfold set_heap. rewrite app_nil_r. by destruct w.
Qed.

(** On a recognized chart type it allocates exactly one object. *)
Lemma resultFunc_allocates chartType w size width height :
  is_size w size width height →
  chartType = "main" ∨ chartType = "panner" ∨ chartType = "lithography" →
  ∃ o, allocates (getChartPosition_resultFunc chartType size) w o.
Proof.
  intros Hsize [-> | [-> | ->]]; eexists.
  - by apply resultFunc_main.
  - by apply resultFunc_panner.
  - by apply resultFunc_lithography.
Qed.

Lemma read_memo w f s :
  selectors w !! f = Some s →
  (let* s' := read_selector f in ret (sel_memo s')) w = Return (sel_memo s, w).
Proof. intros Hf. by rewrite (bind_Return _ _ _ _ _ (read_selector_Return _ _ _ Hf)). Qed.

Lemma read_resultMemo w f s :
  selectors w !! f = Some s →
  (let* s' := read_selector f in ret (sel_resultMemo s')) w
    = Return (sel_resultMemo s, w).
Proof. intros Hf. by rewrite (bind_Return _ _ _ _ _ (read_selector_Return _ _ _ Hf)). Qed.

Lemma same_args_ref m l :
  same_args m (VRef l) = true → lastArgs m = Some (VRef l).
Proof.
  unfold same_args. destruct (lastArgs m) as [prev|]; [|done].
  by intros ->%strict_eq_VRef.
Qed.

(** A call of the selector on a state with a numeric container size
    returns, only allocates, and leaves the state and its size in the two
    memos, with the result. *)
Lemma call_selector_post w f s state size width height :
  selectors w !! f = Some s → consistent w s →
  sized_state w state size → is_size w size width height →
  ∃ r new,
    call_selector f state w =
      Return (r, World (heap w ++ new)
                   (<[f := Selector (sel_chartType s)
                              (Memo (Some state) r) (Memo (Some size) r)]> (selectors w))
                   (cache w)).
Proof.
  intros Hf Hcons Hstate Hsize.
  assert (f < length (selectors w))%nat as Hlt by by eapply lookup_lt_Some.
  unfold call_selector.
  rewrite (bind_Return _ _ _ _ _ (read_selector_Return _ _ _ Hf)). cbn beta.
  unfold defaultMemoize at 1.
  rewrite (bind_Return _ _ _ _ _ (read_memo _ _ _ Hf)). cbn beta.
  destruct (same_args (sel_memo s) state) eqn:Hhit.
  - (* the selector was last called with this state *)
    destruct (sized_state_ref _ _ _ Hstate) as [r ->].
    apply same_args_ref in Hhit.
    destruct (Hcons _ Hhit) as (Hres & layout & lo & Hroot & Hlo & Hlast).
    destruct Hstate as (layout' & lo' & Hroot' & Hlo' & Hgs & Htruthy).
    pose proof (mounted_inj _ _ _ _ Hroot Hroot') as <-.
    pose proof (readable_inj _ _ _ _ Hlo Hlo') as <-.
    specialize (Hlast _ Hgs Htruthy).
    exists (lastResult (sel_memo s)), [].
    erewrite bind_Return by reflexivity. cbn beta.
    erewrite bind_Return by (by apply modify_selector_Return). cbn beta.
    unfold ret, set_memo. rewrite app_nil_r.
    destruct (sel_resultMemo s) as [args res]; simpl in *. by subst.
  - (* another state: the container size is read again *)
    pose proof (getContainerSize_sized _ _ _ Hstate) as Hget.
    assert (∃ r new,
      (let* size' := getContainerSize state in
       defaultMemoize (getChartPosition_resultFunc (sel_chartType s))
         (let* s' := read_selector f in ret (sel_resultMemo s'))
         (λ m, modify_selector f (set_resultMemo m)) size') w
      = Return (r, World (heap w ++ new)
                     (<[f := set_resultMemo (Memo (Some size) r) s]> (selectors w))
                     (cache w))) as (r & new & Hinner).
    { rewrite (bind_Return _ _ _ _ _ Hget). cbn beta.
      unfold defaultMemoize.
      rewrite (bind_Return _ _ _ _ _ (read_resultMemo _ _ _ Hf)). cbn beta.
      destruct (same_args (sel_resultMemo s) size).
      - exists (lastResult (sel_resultMemo s)), [].
        erewrite bind_Return by reflexivity. cbn beta.
        erewrite bind_Return by (by apply modify_selector_Return). cbn beta.
        unfold ret. by rewrite app_nil_r.
      - destruct (resultFunc_returns (sel_chartType s) _ _ _ _ Hsize)
          as (r & new & Hrun).
        exists r, new.
        rewrite (bind_Return _ _ _ _ _ Hrun). cbn beta.
        erewrite bind_Return by (by apply modify_selector_Return). cbn beta.
        reflexivity. }
    exists r, new.
    rewrite (bind_Return _ _ _ _ _ Hinner). cbn beta.
    erewrite bind_Return
      by (apply modify_selector_Return; simpl; by apply list_lookup_insert_eq).
    cbn beta. unfold ret. simpl.
    by rewrite list_insert_insert_eq.
Qed.

Lemma truthy_strict_eq_refl v : truthy v = true → strict_eq v v = true.
Proof.
  destruct v as [| |b|n|s|l]; simpl; try done.
  - intros _. by apply bool_decide_eq_true.
  - destruct (PrimFloat.eqb n n); [done|]. by rewrite orb_true_r.
  - intros _. by apply bool_decide_eq_true.
  - intros _. by apply bool_decide_eq_true.
Qed.

Lemma world_eta w : World (heap w) (selectors w) (cache w) = w.
Proof. by destruct w. Qed.

(** Called again with the state of the last call, the selector returns the
    cached result and changes nothing. *)
Lemma call_selector_same_state w f chartType l r inner :
  selectors w !! f = Some (Selector chartType (Memo (Some (VRef l)) r) inner) →
  call_selector f (VRef l) w = Return (r, w).
Proof.
  intros Hf. unfold call_selector.
  rewrite (bind_Return _ _ _ _ _ (read_selector_Return _ _ _ Hf)). cbn beta.
  unfold defaultMemoize.
  rewrite (bind_Return _ _ _ _ _ (read_memo _ _ _ Hf)). cbn beta.
  unfold same_args. cbn [lastArgs lastResult sel_memo]. rewrite strict_eq_VRef_refl.
  erewrite bind_Return by reflexivity. cbn beta.
  erewrite bind_Return by (by apply modify_selector_Return). cbn beta.
  unfold ret, set_memo. cbn [sel_chartType sel_resultMemo].
  by rewrite list_insert_id, world_eta.
Qed.

(** Called with a state that has the container size object of the last
    call, the selector returns the cached result and allocates nothing. *)
Lemma call_selector_same_size w f chartType state1 r size state :
  selectors w !! f
    = Some (Selector chartType (Memo (Some state1) r) (Memo (Some size) r)) →
  sized_state w state size →
  ∃ sels, call_selector f state w = Return (r, World (heap w) sels (cache w)).
Proof.
  intros Hf Hstate.
  assert (f < length (selectors w))%nat as Hlt by by eapply lookup_lt_Some.
  assert (strict_eq size size = true) as Hrefl.
  { destruct Hstate as (? & ? & ? & ? & ? & ?). by apply truthy_strict_eq_refl. }
  unfold call_selector.
  rewrite (bind_Return _ _ _ _ _ (read_selector_Return _ _ _ Hf)). cbn beta.
  unfold defaultMemoize at 1.
  rewrite (bind_Return _ _ _ _ _ (read_memo _ _ _ Hf)). cbn beta.
  destruct (same_args _ state).
  - eexists.
    erewrite bind_Return by reflexivity. cbn beta.
    erewrite bind_Return by (by apply modify_selector_Return). cbn beta.
    reflexivity.
  - eexists.
    erewrite bind_Return; cycle 1.
    { rewrite (bind_Return _ _ _ _ _ (getContainerSize_sized _ _ _ Hstate)). cbn beta.
      unfold defaultMemoize.
      rewrite (bind_Return _ _ _ _ _ (read_resultMemo _ _ _ Hf)). cbn beta.
      unfold same_args. cbn [lastArgs lastResult sel_resultMemo]. rewrite Hrefl.
      erewrite bind_Return by reflexivity. cbn beta.
      erewrite bind_Return by (by apply modify_selector_Return). cbn beta.
      reflexivity. }
    cbn beta.
    erewrite bind_Return
      by (apply modify_selector_Return; simpl; by apply list_lookup_insert_eq).
    cbn beta. reflexivity.
Qed.

(** Called with a state that has another container size object, the
    selector computes the rectangle anew. *)
Lemma call_selector_new_size w f chartType state1 r size1 state size width height :
  selectors w !! f
    = Some (Selector chartType (Memo (Some state1) r) (Memo (Some size1) r)) →
  sized_state w state1 size1 →
  sized_state w state size → is_size w size width height →
  size ≠ size1 →
  chartType = "main" ∨ chartType = "panner" ∨ chartType = "lithography" →
  ∃ o sels,
    allocates (getChartPosition_resultFunc chartType size) w o ∧
    call_selector f state w
      = Return (VRef (length (heap w)), World (heap w ++ [o]) sels (cache w)).
Proof.
  intros Hf Hstate1 Hstate Hsize Hne Hknown.
  assert (f < length (selectors w))%nat as Hlt by by eapply lookup_lt_Some.
  destruct (resultFunc_allocates chartType _ _ _ _ Hsize Hknown) as (o & Hrun).
  exists o. eexists. split; [exact Hrun|].
  unfold call_selector.
  rewrite (bind_Return _ _ _ _ _ (read_selector_Return _ _ _ Hf)). cbn beta.
  unfold defaultMemoize at 1.
  rewrite (bind_Return _ _ _ _ _ (read_memo _ _ _ Hf)). cbn beta.
  cbn [sel_memo].
  assert (same_args (Memo (Some state1) r) state = false) as ->.
  { destruct (sized_state_ref _ _ _ Hstate) as [l ->].
    unfold same_args. simpl. destruct (strict_eq state1 (VRef l)) eqn:Heq; [|done].
    apply strict_eq_VRef in Heq as ->.
    destruct Hne. by eapply sized_state_inj. }
  erewrite bind_Return; cycle 1.
  { rewrite (bind_Return _ _ _ _ _ (getContainerSize_sized _ _ _ Hstate)). cbn beta.
    unfold defaultMemoize.
    rewrite (bind_Return _ _ _ _ _ (read_resultMemo _ _ _ Hf)). cbn beta.
    cbn [sel_resultMemo].
    assert (same_args (Memo (Some size1) r) size = false) as ->.
    { destruct Hsize as (l & ? & -> & _).
      unfold same_args. simpl. destruct (strict_eq size1 (VRef l)) eqn:Heq; [|done].
      apply strict_eq_VRef in Heq. by destruct Hne. }
    cbn [sel_chartType].
    rewrite (bind_Return _ _ _ _ _ Hrun). cbn beta.
    erewrite bind_Return by (by apply modify_selector_Return). cbn beta.
    reflexivity. }
  cbn beta.
  erewrite bind_Return
    by (apply modify_selector_Return; simpl; by apply list_lookup_insert_eq).
  cbn beta. reflexivity.
Qed.

(** [getChartPosition] hands out one selector per chart type. *)
Lemma getChartPosition_twice w chartType :
  ∃ f w1, getChartPosition chartType w = Return (f, w1) ∧
          getChartPosition chartType w1 = Return (f, w1).
Proof.
  unfold getChartPosition. destruct (cache w !! chartType) as [f|] eqn:Hcache.
  - exists f, w. by rewrite Hcache.
  - eexists _, _. split; [reflexivity|]. simpl. by rewrite lookup_insert_eq.
Qed.

(** The selector [getChartPosition] creates is consistent, and calls keep
    it so. *)
Lemma consistent_fresh w chartType :
  consistent w (Selector chartType (Memo None VNull) (Memo None VNull)).
Proof. intros state. simpl. done. Qed.

Lemma consistent_post w w' chartType state size r :
  extends w w' → sized_state w state size →
  consistent w' (Selector chartType (Memo (Some state) r) (Memo (Some size) r)).
Proof.
  intros Hext (layout & lo & Hroot & Hlo & Hgs & Htruthy) state' [= <-].
  split; [done|]. exists layout, lo.
  split; [by eapply mounted_extends|]. split; [by eapply readable_extends|].
  intros size' Hgs' _. simpl. congruence.
Qed.

(** C9, as stated, fails: the selector compares the container size by
    reference, not by width and height.  Setting the same size again makes
    a new size object, and the position is computed again: the two results
    are two objects (7 and 13), equal field by field. *)
Lemma C9_unchanged_size_counterexample :
  ∃ w, resize_scenario empty_world = Return ((VRef 7, VRef 13), w) ∧
       VRef 7 ≠ VRef 13 ∧
       heap w !! 7%nat = Some {[ "x" := VNum 0; "y" := VNum 0;
                                "width" := VNum 100; "height" := VNum 40 ]} ∧
       heap w !! 13%nat = heap w !! 7%nat.
Proof. eexists. split; [vm_compute; reflexivity|]. by repeat split. Qed.

(** C9, amended: memoization is by reference, with a cache of one entry.
    Asking for the position function of a panel twice gives the same
    function.  Called twice with the same state, the function returns the
    identical cached result and changes nothing; called with another state
    that holds the same container size object, it returns the identical
    cached result and allocates nothing; called with a state that holds
    another container size object, it computes a new rectangle. *)
Theorem C9_memoized_by_reference :
  (∀ w chartType,
     ∃ f w1, getChartPosition chartType w = Return (f, w1) ∧
             getChartPosition chartType w1 = Return (f, w1)) ∧
  (∀ w f s state1 size1 width height,
     selectors w !! f = Some s → consistent w s →
     sized_state w state1 size1 → is_size w size1 width height →
     ∃ r1 w1,
       call_selector f state1 w = Return (r1, w1) ∧
       extends w w1 ∧
       call_selector f state1 w1 = Return (r1, w1) ∧
       (∀ state2, sized_state w1 state2 size1 →
          ∃ w2, call_selector f state2 w1 = Return (r1, w2) ∧ heap w2 = heap w1) ∧
       (∀ state2 size2 width2 height2,
          sized_state w1 state2 size2 → is_size w1 size2 width2 height2 →
          size2 ≠ size1 →
          sel_chartType s = "main" ∨ sel_chartType s = "panner"
            ∨ sel_chartType s = "lithography" →
          ∃ o w2,
            allocates (getChartPosition_resultFunc (sel_chartType s) size2) w1 o ∧
            call_selector f state2 w1 = Return (VRef (length (heap w1)), w2) ∧
            heap w2 = heap w1 ++ [o])).
Proof.
  split; [exact getChartPosition_twice|].
  intros w f s state1 size1 width height Hf Hcons Hstate1 Hsize1.
  assert (f < length (selectors w))%nat as Hlt by by eapply lookup_lt_Some.
  destruct (call_selector_post _ _ _ _ _ _ _ Hf Hcons Hstate1 Hsize1)
    as (r1 & new & Hcall).
  set (w1 := World _ _ _) in Hcall.
  assert (extends w w1) as Hext by apply (extends_set_heap w new).
  assert (selectors w1 !! f = Some (Selector (sel_chartType s)
            (Memo (Some state1) r1) (Memo (Some size1) r1))) as Hf1
    by by apply list_lookup_insert_eq.
  exists r1, w1. split; [exact Hcall|]. split; [exact Hext|].
  split; [|split].
  - destruct (sized_state_ref _ _ _ Hstate1) as [l ->].
    by eapply call_selector_same_state.
  - intros state2 Hstate2.
    destruct (call_selector_same_size _ _ _ _ _ _ _ Hf1 Hstate2) as (sels & Hcall2).
    eexists. split; [exact Hcall2|reflexivity].
  - intros state2 size2 width2 height2 Hstate2 Hsize2 Hne Hknown.
    destruct (call_selector_new_size _ _ _ _ _ _ _ _ _ _ Hf1
                (sized_state_extends _ _ _ _ Hext Hstate1) Hstate2 Hsize2 Hne Hknown)
      as (o & sels & Hrun & Hcall2).
    exists o. eexists. split; [exact Hrun|]. split; [exact Hcall2|reflexivity].
Qed.

Lemma resize_world_state1 : sized_state resize_world (VRef 2) (VRef 0).
Proof.
  exists (VRef 1), {[ "graphSize" := VRef 0 ]}.
  split; [by exists 2, {[ MOUNT_POINT := VRef 1 ]}|]. by repeat split.
Qed.

Lemma resize_world_size1 : is_size resize_world (VRef 0) 100 50.
Proof. by exists 0, {[ "width" := VNum 100; "height" := VNum 50 ]}. Qed.

(** The first call computes the rectangle, the second returns it again. *)
Lemma C9_memoized_by_reference_witness :
  ∃ r1 w1,
    call_selector 0 (VRef 2) resize_world = Return (r1, w1) ∧
    call_selector 0 (VRef 2) w1 = Return (r1, w1).
Proof.
  destruct C9_memoized_by_reference as [_ Hcalls].
  destruct (Hcalls resize_world 0%nat
              (Selector "main" (Memo None VNull) (Memo None VNull))
              (VRef 2) (VRef 0) 100%float 50%float eq_refl
              (consistent_fresh resize_world "main")
              resize_world_state1 resize_world_size1)
    as (r1 & w1 & Hfirst & _ & Hsecond & _).
  exists r1, w1. split; [exact Hfirst|exact Hsecond].
Defined.

(** ** The memos stay consistent *)

Lemma get_inv v k w x w' :
  get v k w = Return (x, w') →
  w' = w ∧ ∃ o, readable w v o ∧ x = default VUndef (o !! k).
Proof.
  unfold get. destruct v as [| |b|n|s|l]; try done;
    try (intros [= <- <-]; split; [done|]; by exists ∅).
  destruct (heap w !! l) as [o|] eqn:Hl; [|done].
  intros [= <- <-]. split; [done|]. by exists o.
Qed.

Lemma getContainerSize_inv state w size w' :
  getContainerSize state w = Return (size, w') →
  ∃ layout lo, mounted w state layout ∧ readable w layout lo ∧
    ∀ size', lo !! "graphSize" = Some size' → truthy size' = true → size = size'.
Proof.
  unfold getContainerSize.
  intros (layout & w1 & Hlayout & (gs & w2 & Hgs & Hrest)%bind_inv)%bind_inv.
  apply get_inv in Hlayout as (-> & ro & Hstate & ->).
  apply get_inv in Hgs as (-> & lo & Hlo & ->).
  destruct state as [| |b|n|s|r]; simpl in Hstate; try done;
    try (subst ro; by rewrite lookup_empty in Hlo).
  destruct (ro !! MOUNT_POINT) as [layout|] eqn:Hmp; [|done].
  exists layout, lo. split; [by exists r, ro|]. split; [done|].
  intros size' Hsize' Htruthy. rewrite Hsize' in Hrest. simpl in Hrest.
  rewrite Htruthy in Hrest. by injection Hrest.
Qed.

Lemma bind_assoc {A B C} (m : M A) (k1 : A → M B) (k2 : B → M C) w :
  bind (bind m k1) k2 w = bind m (λ a, bind (k1 a) k2) w.
Proof. unfold bind. by destruct (m w) as [[a w']| |]. Qed.

Lemma bind_Throw {A B} (m : M A) (k : A → M B) w :
  m w = Throw_TypeError → bind m k w = Throw_TypeError.
Proof. unfold bind. by intros ->. Qed.

Lemma bind_Unmodelled {A B} (m : M A) (k : A → M B) w :
  m w = Unmodelled → bind m k w = Unmodelled.
Proof. unfold bind. by intros ->. Qed.

(** What a call that returns leaves behind: it only allocated, and the
    selector's memo holds the state and the result; either the state was
    the last one and the memo of the result function is untouched, or the
    container size was read again and is in that memo, with the result. *)
Lemma call_selector_inv w f s state r w1 :
  selectors w !! f = Some s →
  call_selector f state w = Return (r, w1) →
  ∃ new inner,
    w1 = World (heap w ++ new)
           (<[f := Selector (sel_chartType s) (Memo (Some state) r) inner]> (selectors w))
           (cache w) ∧
    ((same_args (sel_memo s) state = true ∧ r = lastResult (sel_memo s) ∧
      inner = sel_resultMemo s) ∨
     (∃ size wA, getContainerSize state w = Return (size, wA) ∧
                 inner = Memo (Some size) r)).
Proof.
  intros Hf.
  assert (f < length (selectors w))%nat as Hlt by by eapply lookup_lt_Some.
  unfold call_selector.
  rewrite (bind_Return _ _ _ _ _ (read_selector_Return _ _ _ Hf)). cbn beta.
  unfold defaultMemoize at 1.
  rewrite (bind_Return _ _ _ _ _ (read_memo _ _ _ Hf)). cbn beta.
  destruct (same_args (sel_memo s) state) eqn:Hhit.
  - erewrite bind_Return by reflexivity. cbn beta.
    erewrite bind_Return by (by apply modify_selector_Return). cbn beta.
    intros [= <- <-]. exists [], (sel_resultMemo s).
    rewrite app_nil_r. split; [done|]. by left.
  - cbn beta. rewrite bind_assoc.
    destruct (getContainerSize state w) as [[size wA]| |] eqn:Hget; cycle 1.
    { by rewrite (bind_Throw _ _ _ Hget). }
    { by rewrite (bind_Unmodelled _ _ _ Hget). }
    destruct (grows_getContainerSize _ _ _ _ Hget) as [newA ->].
    rewrite (bind_Return _ _ _ _ _ Hget). cbn beta.
    unfold defaultMemoize. rewrite bind_assoc.
    rewrite (bind_Return _ _ _ _ _
               (read_resultMemo (set_heap (heap w ++ newA) w) f s Hf)). cbn beta.
    rewrite bind_assoc.
    destruct (same_args (sel_resultMemo s) size).
    + erewrite bind_Return by reflexivity. cbn beta. rewrite bind_assoc.
      erewrite bind_Return by (by apply modify_selector_Return). cbn beta.
      erewrite bind_Return by reflexivity. cbn beta.
      erewrite bind_Return
        by (apply modify_selector_Return; simpl; by apply list_lookup_insert_eq).
      cbn beta. unfold ret. simpl.
      intros [= <- <-]. eexists newA, _.
      rewrite list_insert_insert_eq. split; [reflexivity|]. right. by eexists _, _.
    + destruct (getChartPosition_resultFunc (sel_chartType s) size
                  (set_heap (heap w ++ newA) w)) as [[r' wB]| |] eqn:Hrun; cycle 1.
      { by rewrite (bind_Throw _ _ _ Hrun). }
      { by rewrite (bind_Unmodelled _ _ _ Hrun). }
      destruct (grows_resultFunc _ _ _ _ _ Hrun) as [newB ->].
      rewrite (bind_Return _ _ _ _ _ Hrun). cbn beta. rewrite bind_assoc.
      erewrite bind_Return by (by apply modify_selector_Return). cbn beta.
      erewrite bind_Return by reflexivity. cbn beta.
      erewrite bind_Return
        by (apply modify_selector_Return; simpl; by apply list_lookup_insert_eq).
      cbn beta. unfold ret. simpl.
      intros [= <- <-]. eexists (newA ++ newB), _.
      rewrite list_insert_insert_eq, app_assoc. split; [reflexivity|].
      right. by eexists _, _.
Qed.

Lemma strict_eq_VRef_l l v : strict_eq (VRef l) v = true → v = VRef l.
Proof. destruct v; simpl; try done. by intros <-%bool_decide_eq_true. Qed.

Lemma world_consistent_empty : world_consistent empty_world.
Proof. intros f s Hf. by destruct f. Qed.

(** Computations that only allocate keep the memos consistent: the action
    creators, the reducer and the plain selectors among them. *)
Lemma world_consistent_grows {A} (m : M A) w a w' :
  grows m → world_consistent w → m w = Return (a, w') → world_consistent w'.
Proof.
  intros Hm Hw Hrun. destruct (Hm _ _ _ Hrun) as [new ->].
  intros f s Hf. apply consistent_extends with w; [apply extends_set_heap|].
  exact (Hw f s Hf).
Qed.

Lemma world_consistent_getChartPosition chartType w f w' :
  world_consistent w → getChartPosition chartType w = Return (f, w') →
  world_consistent w'.
Proof.
  intros Hw. unfold getChartPosition.
  destruct (cache w !! chartType); intros [= <- <-]; [done|].
  intros f s. simpl. intros [Hf|[_ Hf]]%lookup_app_Some.
  - exact (Hw f s Hf).
  - destruct (f - length (selectors w))%nat as [|n]; [|by destruct n].
    injection Hf as <-. apply consistent_fresh.
Qed.

Lemma world_consistent_call_selector w f state r w1 :
  world_consistent w → call_selector f state w = Return (r, w1) →
  world_consistent w1.
Proof.
  intros Hw Hcall.
  destruct (selectors w !! f) as [s|] eqn:Hf; cycle 1.
  { unfold call_selector, bind, read_selector in Hcall. by rewrite Hf in Hcall. }
  assert (f < length (selectors w))%nat as Hlt by by eapply lookup_lt_Some.
  destruct (call_selector_inv _ _ _ _ _ _ Hf Hcall) as (new & inner & -> & Hcase).
  assert (extends w (World (heap w ++ new)
            (<[f := Selector (sel_chartType s) (Memo (Some state) r) inner]> (selectors w))
            (cache w))) as Hext by apply (extends_set_heap w new).
  intros f' s'. simpl. destruct (decide (f' = f)) as [->|Hne].
  - rewrite list_lookup_insert_eq by done. intros [= <-] state' [= <-]. simpl.
    destruct Hcase as [(Hhit & -> & ->)|(size & wA & Hget & ->)].
    + unfold same_args in Hhit.
      destruct (lastArgs (sel_memo s)) as [prev|] eqn:Hprev; [|done].
      destruct (Hw _ _ Hf _ Hprev) as (Hres & layout & lo & Hroot & Hlo & Hlast).
      assert (state = prev) as ->.
      { destruct Hroot as (l & ? & -> & _). by apply strict_eq_VRef_l in Hhit. }
      split; [done|]. exists layout, lo.
      split; [by eapply mounted_extends|]. split; [by eapply readable_extends|]. done.
    + destruct (getContainerSize_inv _ _ _ _ Hget) as (layout & lo & Hroot & Hlo & Hlast).
      split; [done|]. exists layout, lo.
      split; [by eapply mounted_extends|]. split; [by eapply readable_extends|].
      intros size' Hsize' Htruthy. simpl. f_equal. by apply Hlast.
  - rewrite list_lookup_insert_ne by done. intros Hf'.
    apply consistent_extends with w; [exact Hext|]. exact (Hw f' s' Hf').
Qed.

(** ** Dispatching the actions of the creators *)

Lemma points_to_extends w w' v o :
  extends w w' → points_to w v o → points_to w' v o.
Proof. intros Hext (l & -> & Hl). exists l. auto. Qed.

Lemma extends_refl w : extends w w.
Proof. by intros l o. Qed.

Lemma extends_trans w1 w2 w3 : extends w1 w2 → extends w2 w3 → extends w1 w3.
Proof. intros H12 H23 l o Hl. auto. Qed.

Lemma set_heap_app w new new' :
  set_heap (heap (set_heap (heap w ++ new) w) ++ new') (set_heap (heap w ++ new) w)
    = set_heap (heap w ++ (new ++ new')) w.
Proof. unfold set_heap. simpl. by rewrite app_assoc. Qed.

Lemma lookup_app_4 (h : list obj) (o1 o2 o3 o4 : obj) :
  (h ++ [o1; o2; o3; o4]) !! (length h + 2)%nat = Some o3 ∧
  (h ++ [o1; o2; o3; o4]) !! (length h + 3)%nat = Some o4.
Proof.
  split; rewrite lookup_app_r by lia.
  - by replace (length h + 2 - length h)%nat with 2%nat by lia.
  - by replace (length h + 3 - length h)%nat with 3%nat by lia.
Qed.

Lemma lookup_app_3 (h : list obj) (o1 o2 o3 : obj) :
  (h ++ [o1; o2; o3]) !! (length h + 2)%nat = Some o3.
Proof.
  rewrite lookup_app_r by lia.
  by replace (length h + 2 - length h)%nat with 2%nat by lia.
Qed.

Lemma dispatch_setViewport w s so arg argo :
  heap w !! s = Some so → readable w arg argo →
  set_result w so "viewport"
    {[ "startDate" := default VUndef (argo !! "startDate");
       "endDate" := default VUndef (argo !! "endDate") ]}
    (dispatch (setViewport arg) (VRef s) w).
Proof.
  intros Hs Harg. unfold dispatch.
  rewrite (bind_Return _ _ _ _ _ (setViewport_Return w arg argo Harg)).
  set (d := {[ "startDate" := _; "endDate" := _ ]}).
  set (act := {[ "type" := _; "payload" := _ ]}).
  set (w1 := set_heap (heap w ++ [d; act]) w).
  destruct (lookup_last_2 (heap w) d act) as [Hp Ha].
  assert (heap w1 !! s = Some so) as Hs1 by by apply heap_grows_lookup.
  rewrite (reducer_VIEWPORT_SET w1 s (S (length (heap w))) so act Hs1 Ha
             (VRef (length (heap w))) d eq_refl eq_refl Hp).
  change (default VUndef (d !! "startDate")) with (default VUndef (argo !! "startDate")).
  change (default VUndef (d !! "endDate")) with (default VUndef (argo !! "endDate")).
  fold d. unfold w1. rewrite set_heap_app. simpl.
  rewrite length_app. simpl.
  destruct (lookup_app_4 (heap w) d act d
              (<["viewport" := VRef (length (heap w) + 2)]> so)) as [Hv Hs'].
  exists (S (length (heap w) + 2)), (length (heap w) + 2)%nat. eexists.
  split; [reflexivity|]. split; [by eexists|].
  split; [apply lookup_ge_None; lia|]. split; [apply lookup_ge_None; lia|].
  simpl. split; [|exact Hv].
  by replace (S (length (heap w) + 2)) with (length (heap w) + 3)%nat by lia.
Qed.

Lemma dispatch_setContainerSize w s so arg argo :
  heap w !! s = Some so → readable w arg argo →
  set_result w so "graphSize"
    {[ "width" := default VUndef (argo !! "width");
       "height" := default VUndef (argo !! "height") ]}
    (dispatch (setContainerSize arg) (VRef s) w).
Proof.
  intros Hs Harg. unfold dispatch.
  rewrite (bind_Return _ _ _ _ _ (setContainerSize_Return w arg argo Harg)).
  set (d := {[ "width" := _; "height" := _ ]}).
  set (act := {[ "type" := _; "payload" := _ ]}).
  set (w1 := set_heap (heap w ++ [d; act]) w).
  destruct (lookup_last_2 (heap w) d act) as [Hp Ha].
  assert (heap w1 !! s = Some so) as Hs1 by by apply heap_grows_lookup.
  rewrite (reducer_GRAPH_SIZE_SET w1 s (S (length (heap w))) so act Hs1 Ha
             (VRef (length (heap w))) d eq_refl eq_refl Hp).
  change (default VUndef (d !! "width")) with (default VUndef (argo !! "width")).
  change (default VUndef (d !! "height")) with (default VUndef (argo !! "height")).
  fold d. unfold w1. rewrite set_heap_app. simpl.
  rewrite length_app. simpl.
  destruct (lookup_app_4 (heap w) d act d
              (<["graphSize" := VRef (length (heap w) + 2)]> so)) as [Hv Hs'].
  exists (S (length (heap w) + 2)), (length (heap w) + 2)%nat. eexists.
  split; [reflexivity|]. split; [by eexists|].
  split; [apply lookup_ge_None; lia|]. split; [apply lookup_ge_None; lia|].
  simpl. split; [|exact Hv].
  by replace (S (length (heap w) + 2)) with (length (heap w) + 3)%nat by lia.
Qed.

Lemma dispatch_setSelectionRect w s so arg argo :
  heap w !! s = Some so → readable w arg argo →
  set_result w so "selectionRect"
    {[ "top" := default VUndef (argo !! "top");
       "left" := default VUndef (argo !! "left");
       "bottom" := default VUndef (argo !! "bottom");
       "right" := default VUndef (argo !! "right") ]}
    (dispatch (setSelectionRect arg) (VRef s) w).
Proof.
  intros Hs Harg. unfold dispatch.
  rewrite (bind_Return _ _ _ _ _ (setSelectionRect_Return w arg argo Harg)).
  set (d := {[ "top" := _; "left" := _; "bottom" := _; "right" := _ ]}).
  set (act := {[ "type" := _; "payload" := _ ]}).
  set (w1 := set_heap (heap w ++ [d; act]) w).
  destruct (lookup_last_2 (heap w) d act) as [Hp Ha].
  assert (heap w1 !! s = Some so) as Hs1 by by apply heap_grows_lookup.
  rewrite (reducer_GRAPH_SELECTION_RECT_SET w1 s (S (length (heap w))) so act Hs1 Ha
             (VRef (length (heap w))) d eq_refl eq_refl Hp).
  change (default VUndef (d !! "top")) with (default VUndef (argo !! "top")).
  change (default VUndef (d !! "left")) with (default VUndef (argo !! "left")).
  change (default VUndef (d !! "bottom")) with (default VUndef (argo !! "bottom")).
  change (default VUndef (d !! "right")) with (default VUndef (argo !! "right")).
  fold d. unfold w1. rewrite set_heap_app. simpl.
  rewrite length_app. simpl.
  destruct (lookup_app_4 (heap w) d act d
              (<["selectionRect" := VRef (length (heap w) + 2)]> so)) as [Hv Hs'].
  exists (S (length (heap w) + 2)), (length (heap w) + 2)%nat. eexists.
  split; [reflexivity|]. split; [by eexists|].
  split; [apply lookup_ge_None; lia|]. split; [apply lookup_ge_None; lia|].
  simpl. split; [|exact Hv].
  by replace (S (length (heap w) + 2)) with (length (heap w) + 3)%nat by lia.
Qed.

Lemma dispatch_clearSelectionRect w s so :
  heap w !! s = Some so →
  clear_result w so "selectionRect" (dispatch clearSelectionRect (VRef s) w).
Proof.
  intros Hs. unfold dispatch, clearSelectionRect.
  rewrite (bind_Return _ _ _ _ _ (alloc_Return _ w)).
  set (act := {[ "type" := _ ]}).
  set (w1 := set_heap (heap w ++ [act]) w).
  assert (heap w1 !! s = Some so) as Hs1 by by apply heap_grows_lookup.
  rewrite (reducer_GRAPH_SELECTION_RECT_CLEAR w1 s (length (heap w)) so act Hs1
             (lookup_last_1 _ _) eq_refl).
  unfold w1. rewrite set_heap_app. simpl. rewrite length_app. simpl.
  eexists _, _. split; [reflexivity|]. split; [by eexists|].
  split; [apply lookup_ge_None; lia|].
  simpl. rewrite lookup_app_r by lia.
  by replace (length (heap w) + 1 - length (heap w))%nat with 1%nat by lia.
Qed.

Lemma dispatch_resetViewport w s so :
  heap w !! s = Some so →
  clear_result w so "viewport" (dispatch resetViewport (VRef s) w).
Proof.
  intros Hs. unfold dispatch, resetViewport.
  rewrite (bind_Return _ _ _ _ _ (alloc_Return _ w)).
  set (act := {[ "type" := _ ]}).
  set (w1 := set_heap (heap w ++ [act]) w).
  assert (heap w1 !! s = Some so) as Hs1 by by apply heap_grows_lookup.
  rewrite (reducer_VIEWPORT_RESET w1 s (length (heap w)) so act Hs1
             (lookup_last_1 _ _) eq_refl).
  unfold w1. rewrite set_heap_app. simpl. rewrite length_app. simpl.
  eexists _, _. split; [reflexivity|]. split; [by eexists|].
  split; [apply lookup_ge_None; lia|].
  simpl. rewrite lookup_app_r by lia.
  by replace (length (heap w) + 1 - length (heap w))%nat with 1%nat by lia.
Qed.

(** X1: the container size round trip.  For every state, the action made
    by [setContainerSize] from an argument, put through the reducer, gives
    a state on which (under the mount point of a root state)
    [getContainerSize] returns the stored object itself, which has exactly
    the [width] and the [height] of the argument; the default does not
    apply and the selector changes nothing. *)
Theorem X1_containerSize_roundtrip (w : world) (s : loc) (so : obj) (arg : value) (argo : obj) :
  heap w !! s = Some so → readable w arg argo →
  ∃ s' size w',
    dispatch (setContainerSize arg) (VRef s) w = Return (VRef s', w') ∧
    points_to w' size {[ "width" := default VUndef (argo !! "width");
                         "height" := default VUndef (argo !! "height") ]} ∧
    ∀ w'' root, extends w' w'' → mounted w'' root (VRef s') →
      getContainerSize root w'' = Return (size, w'').
Proof.
  intros Hs Harg.
  destruct (dispatch_setContainerSize w s so arg argo Hs Harg)
    as (s' & v & w' & Hrun & _ & _ & _ & Hs' & Hv).
  exists s', (VRef v), w'. split; [exact Hrun|]. split; [by exists v|].
  intros w'' root Hext Hroot. apply getContainerSize_sized.
  exists (VRef s'), (<["graphSize" := VRef v]> so).
  split; [exact Hroot|]. split; [apply Hext, Hs'|].
  split; [apply lookup_insert_eq|done].
Qed.

(** Setting the container size to 100 by 50; the [depth] is dropped. *)
Lemma X1_containerSize_roundtrip_witness :
  ∃ s' size w',
    dispatch (setContainerSize (VRef 4)) (VRef 3) dispatch_world = Return (VRef s', w') ∧
    points_to w' size {[ "width" := VNum 100; "height" := VNum 50 ]} ∧
    ∀ w'' root, extends w' w'' → mounted w'' root (VRef s') →
      getContainerSize root w'' = Return (size, w'').
Proof.
  exact (X1_containerSize_roundtrip dispatch_world 3
    {[ "graphSize" := VRef 0; "selectionRect" := VRef 1; "viewport" := VRef 2 ]}
    (VRef 4) {[ "width" := VNum 100; "height" := VNum 50; "depth" := VNum 3 ]}
    eq_refl eq_refl).
Defined.

Lemma get_cleared w root s so field :
  mounted w root (VRef s) → heap w !! s = Some (<[field := VNull]> so) →
  (let* l := get root MOUNT_POINT in get l field) w = Return (VNull, w).
Proof.
  intros Hroot Hs.
  erewrite get_mounted; [|exact Hroot|exact Hs]. by rewrite lookup_insert_eq.
Qed.

(** X2: clearing and resetting.  For every state, whatever its selection
    and viewport, the action of [clearSelectionRect] put through the reducer
    gives a state on which, under the mount point of a root state,
    [getSelectionRect] returns [null], and the action of [resetViewport] one
    on which, under the mount point of a root state, [getViewport] returns
    [null]. *)
Theorem X2_clear_and_reset (w : world) (s : loc) (so : obj) :
  heap w !! s = Some so →
  (∃ s' w',
     dispatch clearSelectionRect (VRef s) w = Return (VRef s', w') ∧
     ∀ w'' root, extends w' w'' → mounted w'' root (VRef s') →
       getSelectionRect root w'' = Return (VNull, w'')) ∧
  (∃ s' w',
     dispatch resetViewport (VRef s) w = Return (VRef s', w') ∧
     ∀ w'' root, extends w' w'' → mounted w'' root (VRef s') →
       getViewport root w'' = Return (VNull, w'')).
Proof.
  intros Hs. split.
  - destruct (dispatch_clearSelectionRect w s so Hs) as (s' & w' & Hrun & _ & _ & Hs').
    exists s', w'. split; [exact Hrun|].
    intros w'' root Hext Hroot.
    exact (get_cleared w'' root s' so "selectionRect" Hroot (Hext _ _ Hs')).
  - destruct (dispatch_resetViewport w s so Hs) as (s' & w' & Hrun & _ & _ & Hs').
    exists s', w'. split; [exact Hrun|].
    intros w'' root Hext Hroot.
    exact (get_cleared w'' root s' so "viewport" Hroot (Hext _ _ Hs')).
Qed.

(** Clearing the selection of a state that has one. *)
Lemma X2_clear_and_reset_witness :
  ∃ s' w',
    dispatch clearSelectionRect (VRef 3) dispatch_world = Return (VRef s', w') ∧
    ∀ w'' root, extends w' w'' → mounted w'' root (VRef s') →
      getSelectionRect root w'' = Return (VNull, w'').
Proof.
  destruct (X2_clear_and_reset dispatch_world 3
    {[ "graphSize" := VRef 0; "selectionRect" := VRef 1; "viewport" := VRef 2 ]}
    eq_refl) as [Hclear _].
  exact Hclear.
Defined.

(** X3: a later transition on a field overrides the earlier one.  Setting
    the viewport twice leaves the state that setting it to the second
    argument alone leaves; setting it and resetting it leaves the state that
    resetting alone leaves; and so for setting and clearing the selection. *)
Theorem X3_last_transition_wins (w : world) (s : loc) (so : obj)
    (arg1 arg2 : value) (argo1 argo2 : obj) :
  heap w !! s = Some so → readable w arg1 argo1 → readable w arg2 argo2 →
  (∃ s1 w1 s2 w2 v,
     dispatch (setViewport arg1) (VRef s) w = Return (VRef s1, w1) ∧
     dispatch (setViewport arg2) (VRef s1) w1 = Return (VRef s2, w2) ∧
     heap w2 !! s2 = Some (<["viewport" := VRef v]> so) ∧
     heap w2 !! v = Some {[ "startDate" := default VUndef (argo2 !! "startDate");
                            "endDate" := default VUndef (argo2 !! "endDate") ]}) ∧
  (∃ s1 w1 s2 w2,
     dispatch (setViewport arg1) (VRef s) w = Return (VRef s1, w1) ∧
     dispatch resetViewport (VRef s1) w1 = Return (VRef s2, w2) ∧
     heap w2 !! s2 = Some (<["viewport" := VNull]> so)) ∧
  (∃ s1 w1 s2 w2,
     dispatch (setSelectionRect arg1) (VRef s) w = Return (VRef s1, w1) ∧
     dispatch clearSelectionRect (VRef s1) w1 = Return (VRef s2, w2) ∧
     heap w2 !! s2 = Some (<["selectionRect" := VNull]> so)).
Proof.
  intros Hs Harg1 Harg2. split; [|split].
  - destruct (dispatch_setViewport w s so arg1 argo1 Hs Harg1)
      as (s1 & v1 & w1 & Hrun1 & [new ->] & _ & _ & Hs1 & _).
    destruct (dispatch_setViewport _ s1 _ arg2 argo2 Hs1 (readable_grows _ _ _ new Harg2))
      as (s2 & v2 & w2 & Hrun2 & _ & _ & _ & Hs2 & Hv2).
    exists s1. eexists. exists s2, w2, v2.
    split; [exact Hrun1|]. split; [exact Hrun2|].
    rewrite insert_insert_eq in Hs2. split; [exact Hs2|exact Hv2].
  - destruct (dispatch_setViewport w s so arg1 argo1 Hs Harg1)
      as (s1 & v1 & w1 & Hrun1 & _ & _ & _ & Hs1 & _).
    destruct (dispatch_resetViewport w1 s1 _ Hs1) as (s2 & w2 & Hrun2 & _ & _ & Hs2).
    exists s1, w1, s2, w2.
    split; [exact Hrun1|]. split; [exact Hrun2|].
    by rewrite insert_insert_eq in Hs2.
  - destruct (dispatch_setSelectionRect w s so arg1 argo1 Hs Harg1)
      as (s1 & v1 & w1 & Hrun1 & _ & _ & _ & Hs1 & _).
    destruct (dispatch_clearSelectionRect w1 s1 _ Hs1) as (s2 & w2 & Hrun2 & _ & _ & Hs2).
    exists s1, w1, s2, w2.
    split; [exact Hrun1|]. split; [exact Hrun2|].
    by rewrite insert_insert_eq in Hs2.
Qed.

(** The viewport set to the 10th to 20th, then to the 30th to 40th. *)
Lemma X3_last_transition_wins_witness :
  ∃ s1 w1 s2 w2 v,
    dispatch (setViewport (VRef 2)) (VRef 3) dispatch_world = Return (VRef s1, w1) ∧
    dispatch (setViewport (VRef 5)) (VRef s1) w1 = Return (VRef s2, w2) ∧
    heap w2 !! s2 = Some {[ "graphSize" := VRef 0; "selectionRect" := VRef 1;
                            "viewport" := VRef v ]} ∧
    heap w2 !! v = Some {[ "startDate" := VNum 30; "endDate" := VNum 40 ]}.
Proof.
  destruct (X3_last_transition_wins dispatch_world 3
    {[ "graphSize" := VRef 0; "selectionRect" := VRef 1; "viewport" := VRef 2 ]}
    (VRef 2) (VRef 5)
    {[ "startDate" := VNum 10; "endDate" := VNum 20 ]}
    {[ "startDate" := VNum 30; "endDate" := VNum 40 ]}
    eq_refl eq_refl eq_refl) as [Hset _].
  exact Hset.
Defined.

Lemma holds_insert_eq w so k v d :
  heap w !! v = Some d → holds w (<[k := VRef v]> so) k d.
Proof. intros Hv. exists v. split; [apply lookup_insert_eq|done]. Qed.

Lemma holds_insert_ne w so k k' v' d :
  k ≠ k' → holds w so k d → holds w (<[k' := v']> so) k d.
Proof.
  intros Hne (v & Hk & Hv). exists v. split; [|done].
  by rewrite lookup_insert_ne.
Qed.

(** X4: transitions on different fields commute.  Setting the viewport and
    then the selection, or the selection and then the viewport, gives two
    states that hold the same viewport fields and the same selection fields
    (in objects of their own) and agree on every other field. *)
Theorem X4_independent_fields_commute (w : world) (s : loc) (so : obj)
    (arg1 arg2 : value) (argo1 argo2 : obj) :
  heap w !! s = Some so → readable w arg1 argo1 → readable w arg2 argo2 →
  let dv : obj := {[ "startDate" := default VUndef (argo1 !! "startDate");
                     "endDate" := default VUndef (argo1 !! "endDate") ]} in
  let dr : obj := {[ "top" := default VUndef (argo2 !! "top");
                     "left" := default VUndef (argo2 !! "left");
                     "bottom" := default VUndef (argo2 !! "bottom");
                     "right" := default VUndef (argo2 !! "right") ]} in
  ∃ s1 w1 s12 w12 so12 s2 w2 s21 w21 so21,
    dispatch (setViewport arg1) (VRef s) w = Return (VRef s1, w1) ∧
    dispatch (setSelectionRect arg2) (VRef s1) w1 = Return (VRef s12, w12) ∧
    heap w12 !! s12 = Some so12 ∧
    dispatch (setSelectionRect arg2) (VRef s) w = Return (VRef s2, w2) ∧
    dispatch (setViewport arg1) (VRef s2) w2 = Return (VRef s21, w21) ∧
    heap w21 !! s21 = Some so21 ∧
    holds w12 so12 "viewport" dv ∧ holds w21 so21 "viewport" dv ∧
    holds w12 so12 "selectionRect" dr ∧ holds w21 so21 "selectionRect" dr ∧
    ∀ k, k ≠ "viewport" → k ≠ "selectionRect" →
      so12 !! k = so !! k ∧ so21 !! k = so !! k.
Proof.
  intros Hs Harg1 Harg2 dv dr.
  destruct (dispatch_setViewport w s so arg1 argo1 Hs Harg1)
    as (s1 & v1 & w1 & Hrun1 & [new1 ->] & _ & _ & Hs1 & Hv1).
  destruct (dispatch_setSelectionRect _ s1 _ arg2 argo2 Hs1
              (readable_grows _ _ _ new1 Harg2))
    as (s12 & r12 & w12 & Hrun12 & [new12 ->] & _ & _ & Hs12 & Hr12).
  destruct (dispatch_setSelectionRect w s so arg2 argo2 Hs Harg2)
    as (s2 & r2 & w2 & Hrun2 & [new2 ->] & _ & _ & Hs2 & Hr2).
  destruct (dispatch_setViewport _ s2 _ arg1 argo1 Hs2
              (readable_grows _ _ _ new2 Harg1))
    as (s21 & v21 & w21 & Hrun21 & [new21 ->] & _ & _ & Hs21 & Hv21).
  eexists s1, _, s12, _, _, s2, _, s21, _, _.
  split; [exact Hrun1|]. split; [exact Hrun12|]. split; [exact Hs12|].
  split; [exact Hrun2|]. split; [exact Hrun21|]. split; [exact Hs21|].
  split; [|split; [|split; [|split]]].
  - apply holds_insert_ne; [done|]. apply holds_insert_eq.
    by apply heap_grows_lookup.
  - by apply holds_insert_eq.
  - by apply holds_insert_eq.
  - apply holds_insert_ne; [done|]. apply holds_insert_eq.
    by apply heap_grows_lookup.
  - intros k Hv Hr. by rewrite !lookup_insert_ne.
Qed.

(** The viewport and the selection of a state, set in either order. *)
Lemma X4_independent_fields_commute_witness :
  ∃ s1 w1 s12 w12 so12 s2 w2 s21 w21 so21,
    dispatch (setViewport (VRef 5)) (VRef 3) dispatch_world = Return (VRef s1, w1) ∧
    dispatch (setSelectionRect (VRef 1)) (VRef s1) w1 = Return (VRef s12, w12) ∧
    heap w12 !! s12 = Some so12 ∧
    dispatch (setSelectionRect (VRef 1)) (VRef 3) dispatch_world = Return (VRef s2, w2) ∧
    dispatch (setViewport (VRef 5)) (VRef s2) w2 = Return (VRef s21, w21) ∧
    heap w21 !! s21 = Some so21 ∧
    holds w12 so12 "viewport" {[ "startDate" := VNum 30; "endDate" := VNum 40 ]} ∧
    holds w21 so21 "viewport" {[ "startDate" := VNum 30; "endDate" := VNum 40 ]}.
Proof.
  destruct (X4_independent_fields_commute dispatch_world 3
    {[ "graphSize" := VRef 0; "selectionRect" := VRef 1; "viewport" := VRef 2 ]}
    (VRef 5) (VRef 1)
    {[ "startDate" := VNum 30; "endDate" := VNum 40 ]}
    {[ "top" := VNum 1; "left" := VNum 2; "bottom" := VNum 3; "right" := VNum 4 ]}
    eq_refl eq_refl eq_refl)
    as (s1 & w1 & s12 & w12 & so12 & s2 & w2 & s21 & w21 & so21 &
        H1 & H12 & Hso12 & H2 & H21 & Hso21 & Hv12 & Hv21 & _).
  exists s1, w1, s12, w12, so12, s2, w2, s21, w21, so21.
  split; [exact H1|]. split; [exact H12|]. split; [exact Hso12|].
  split; [exact H2|]. split; [exact H21|]. split; [exact Hso21|].
  split; [exact Hv12|exact Hv21].
Defined.

(** ** Where the reducer throws *)

Lemma get_nullish v k w : nullish v → get v k w = Throw_TypeError.
Proof. by intros [-> | ->]. Qed.

(** The reducer up to the first read of the payload of a set action. *)
Ltac run_to_payload :=
  unfold reducer; cbn [strict_eq];
  erewrite bind_Return by reflexivity; cbn beta;
  erewrite bind_Return by (eapply get_field; eassumption); cbn beta;
  repeat decide_case;
  erewrite bind_Return by (eapply spread_object; eassumption); cbn beta;
  erewrite bind_Return by (eapply get_object; eassumption); cbn beta.

Lemma reducer_set_nullish w s so a ao :
  heap w !! s = Some so → heap w !! a = Some ao →
  set_kind ao → nullish (default VUndef (ao !! "payload")) →
  reducer (VRef s) (VRef a) w = Throw_TypeError.
Proof.
  intros Hs Ha [Hty | [Hty | Hty]] Hp; run_to_payload;
    apply bind_Throw; by apply get_nullish.
Qed.

Lemma reducer_set_dangling w s so a ao l :
  heap w !! s = Some so → heap w !! a = Some ao →
  set_kind ao → ao !! "payload" = Some (VRef l) → heap w !! l = None →
  reducer (VRef s) (VRef a) w = Unmodelled.
Proof.
  intros Hs Ha [Hty | [Hty | Hty]] Hp Hl; run_to_payload;
    apply bind_Unmodelled; rewrite Hp; simpl; by rewrite Hl.
Qed.

Lemma reducer_set_readable w s so a ao p po :
  heap w !! s = Some so → heap w !! a = Some ao →
  set_kind ao → ao !! "payload" = Some p → readable w p po →
  ∃ r w', reducer (VRef s) (VRef a) w = Return (r, w').
Proof.
  intros Hs Ha [Hty | [Hty | Hty]] Hp Hpo; eexists _, _.
  - by eapply reducer_GRAPH_SIZE_SET.
  - by eapply reducer_GRAPH_SELECTION_RECT_SET.
  - by eapply reducer_VIEWPORT_SET.
Qed.

Lemma reducer_not_set_returns w s so a ao :
  heap w !! s = Some so → heap w !! a = Some ao → ¬ set_kind ao →
  ∃ r w', reducer (VRef s) (VRef a) w = Return (r, w').
Proof.
  intros Hs Ha Hkind.
  apply reducer_returns_object with so ao; [done..|].
  intros type Hty [-> | [-> | ->]]; destruct Hkind; unfold set_kind; auto.
Qed.

(** X5: where the reducer throws.  On a state object and an action object
    the reducer throws a TypeError exactly when the action is of one of the
    three kinds that carry a payload and its payload is missing,
    [undefined] or [null]. *)
Theorem X5_reducer_throws_iff (w : world) (s a : loc) (so ao : obj) :
  heap w !! s = Some so → heap w !! a = Some ao →
  reducer (VRef s) (VRef a) w = Throw_TypeError ↔
  set_kind ao ∧ nullish (default VUndef (ao !! "payload")).
Proof.
  intros Hs Ha. split.
  - intros Hthrow.
    assert (set_kind ao ∨ ¬ set_kind ao) as [Hkind | Hkind].
    { unfold set_kind.
      destruct (ao !! "type") as [[| |b|n|type|l]|];
        try (right; intros [H | [H | H]]; discriminate).
      destruct (decide (type = GRAPH_SIZE_SET)) as [-> | H1]; [by left; left|].
      destruct (decide (type = GRAPH_SELECTION_RECT_SET)) as [-> | H2];
        [by left; right; left|].
      destruct (decide (type = VIEWPORT_SET)) as [-> | H3];
        [by left; right; right|].
      right. intros [[= H] | [[= H] | [= H]]]; congruence. }
    + split; [done|].
      destruct (ao !! "payload") as [p|] eqn:Hp; [|by left].
      destruct p as [| |b|n|str|l]; simpl; try (by left); try (by right).
      * destruct (reducer_set_readable w s so a ao (VBool b) ∅ Hs Ha Hkind Hp eq_refl)
          as (r & w' & Hrun). congruence.
      * destruct (reducer_set_readable w s so a ao (VNum n) ∅ Hs Ha Hkind Hp eq_refl)
          as (r & w' & Hrun). congruence.
      * destruct (reducer_set_readable w s so a ao (VStr str) ∅ Hs Ha Hkind Hp eq_refl)
          as (r & w' & Hrun). congruence.
      * destruct (heap w !! l) as [po|] eqn:Hl.
        -- destruct (reducer_set_readable w s so a ao (VRef l) po Hs Ha Hkind Hp Hl)
             as (r & w' & Hrun). congruence.
        -- rewrite (reducer_set_dangling w s so a ao l Hs Ha Hkind Hp Hl) in Hthrow.
           discriminate.
    + destruct (reducer_not_set_returns w s so a ao Hs Ha Hkind) as (r & w' & Hrun).
      congruence.
  - intros [Hkind Hp]. by eapply reducer_set_nullish.
Qed.

(** A set-viewport action without payload throws; a set-container-size
    action with an empty payload does not. *)
Lemma X5_reducer_throws_iff_witness :
  reducer (VRef 0) (VRef 1) payload_world = Throw_TypeError ∧
  reducer (VRef 0) (VRef 4) payload_world ≠ Throw_TypeError.
Proof.
  split.
  - apply (X5_reducer_throws_iff payload_world 0 1 ∅ {[ "type" := VStr VIEWPORT_SET ]}
             eq_refl eq_refl).
    split; [by right; right|by left].
  - intros Hthrow.
    apply (X5_reducer_throws_iff payload_world 0 4 ∅
             {[ "type" := VStr GRAPH_SIZE_SET; "payload" := VRef 3 ]}
             eq_refl eq_refl) in Hthrow as [_ [Hp | Hp]]; discriminate.
Defined.

(** ** Where the selectors and the action creators throw *)

Lemma get_throws_iff v k w : get v k w = Throw_TypeError ↔ nullish v.
Proof.
  split; [|apply get_nullish].
  unfold get, nullish. destruct v as [| |b|n|s|l]; auto; try done.
  by destruct (heap w !! l).
Qed.

Lemma get_get_throws_iff root k w :
  (let* l := get root MOUNT_POINT in get l k) w = Throw_TypeError ↔ no_layout w root.
Proof.
  split.
  - unfold bind. destruct (get root MOUNT_POINT w) as [[layout w']| |] eqn:Hroot.
    + apply get_inv in Hroot as (-> & ro & Hro & ->).
      intros Hlayout%get_throws_iff. right. by exists ro.
    + intros _. left. by apply get_throws_iff in Hroot.
    + done.
  - intros [Hroot | (ro & Hro & Hlayout)].
    + by apply bind_Throw, get_nullish.
    + rewrite (bind_Return _ _ _ _ _ (get_readable _ _ _ MOUNT_POINT Hro)).
      by apply get_nullish.
Qed.

Lemma getContainerSize_throws_iff root w :
  getContainerSize root w = Throw_TypeError ↔ no_layout w root.
Proof.
  rewrite <-(get_get_throws_iff root "graphSize" w).
  unfold getContainerSize. rewrite <-bind_assoc. unfold bind at 1.
  destruct (bind (get root MOUNT_POINT) _ w) as [[gs w']| |]; [|done..].
  split; [|discriminate]. destruct (truthy gs); discriminate.
Qed.

(** X6: where the selectors throw.  Each of [getViewport],
    [getSelectionRect] and [getContainerSize] throws a TypeError exactly on
    a root state without a layout record (the state, or its slot at the
    mount point, is missing, [undefined] or [null]); on such a state the
    chart position selector throws as well, unless it was last called with
    that very state. *)
Theorem X6_selectors_throw_iff (w : world) (root : value) :
  (getViewport root w = Throw_TypeError ↔ no_layout w root) ∧
  (getSelectionRect root w = Throw_TypeError ↔ no_layout w root) ∧
  (getContainerSize root w = Throw_TypeError ↔ no_layout w root) ∧
  (no_layout w root →
   ∀ f s, selectors w !! f = Some s → same_args (sel_memo s) root = false →
     call_selector f root w = Throw_TypeError).
Proof.
  split; [apply get_get_throws_iff|]. split; [apply get_get_throws_iff|].
  split; [apply getContainerSize_throws_iff|].
  intros Hroot f s Hf Hmiss. unfold call_selector.
  rewrite (bind_Return _ _ _ _ _ (read_selector_Return _ _ _ Hf)). cbn beta.
  unfold defaultMemoize at 1.
  rewrite (bind_Return _ _ _ _ _ (read_memo _ _ _ Hf)). cbn beta.
  rewrite Hmiss. apply bind_Throw, bind_Throw.
  by apply getContainerSize_throws_iff.
Qed.

(** On the empty root state [{}] every selector throws; on a root state
    with an empty layout record [getViewport] does not. *)
Lemma X6_selectors_throw_iff_witness :
  getViewport (VRef 0) roots_world = Throw_TypeError ∧
  getContainerSize (VRef 0) roots_world = Throw_TypeError ∧
  call_selector 0 (VRef 0) roots_world = Throw_TypeError ∧
  getViewport (VRef 2) roots_world ≠ Throw_TypeError.
Proof.
  destruct (X6_selectors_throw_iff roots_world (VRef 0))
    as (Hviewport & _ & Hsize & Hposition).
  assert (no_layout roots_world (VRef 0)) as Hroot.
  { right. exists ∅. split; [reflexivity|by left]. }
  split; [by apply Hviewport|]. split; [by apply Hsize|].
  split.
  - by apply (Hposition Hroot 0%nat (Selector "main" (Memo None VNull) (Memo None VNull))).
  - destruct (X6_selectors_throw_iff roots_world (VRef 2)) as (Hviewport2 & _).
    intros [Hnull | (ro & Hro & Hnull)]%Hviewport2.
    + destruct Hnull; discriminate.
    + simpl in Hro. injection Hro as <-. destruct Hnull; discriminate.
Defined.

Lemma creator_throws_iff (creator : value → M value) arg w :
  (∀ argo, readable w arg argo → ∃ r w', creator arg w = Return (r, w')) →
  (nullish arg → creator arg w = Throw_TypeError) →
  (∀ l, arg = VRef l → heap w !! l = None → creator arg w = Unmodelled) →
  creator arg w = Throw_TypeError ↔ nullish arg.
Proof.
  intros Hreturns Hthrows Hdangling. split; [|done].
  intros Hthrow. destruct arg as [| |b|n|s|l]; try (by left); try (by right).
  - destruct (Hreturns ∅ eq_refl) as (r & w' & Hrun). congruence.
  - destruct (Hreturns ∅ eq_refl) as (r & w' & Hrun). congruence.
  - destruct (Hreturns ∅ eq_refl) as (r & w' & Hrun). congruence.
  - destruct (heap w !! l) as [o|] eqn:Hl.
    + destruct (Hreturns o Hl) as (r & w' & Hrun). congruence.
    + rewrite (Hdangling l eq_refl Hl) in Hthrow. discriminate.
Qed.

Lemma get_dangling l k w : heap w !! l = None → get (VRef l) k w = Unmodelled.
Proof. unfold get. by intros ->. Qed.

(** X7: [undefined] and [null] arguments.  Each of [setViewport],
    [setContainerSize] and [setSelectionRect] throws a TypeError exactly
    when its argument is [undefined] or [null] (destructuring reads its
    properties), and the reducer throws on an action that is [undefined] or
    [null], whatever the state. *)
Theorem X7_nullish_arguments (w : world) (arg : value) :
  (setViewport arg w = Throw_TypeError ↔ nullish arg) ∧
  (setContainerSize arg w = Throw_TypeError ↔ nullish arg) ∧
  (setSelectionRect arg w = Throw_TypeError ↔ nullish arg) ∧
  (nullish arg → ∀ state, reducer state arg w = Throw_TypeError).
Proof.
  split; [|split; [|split]].
  - apply creator_throws_iff.
    + intros argo Harg. eexists _, _. by apply setViewport_Return.
    + intros Hnull. by apply bind_Throw, get_nullish.
    + intros l -> Hl. by apply bind_Unmodelled, get_dangling.
  - apply creator_throws_iff.
    + intros argo Harg. eexists _, _. by apply setContainerSize_Return.
    + intros Hnull. by apply bind_Throw, get_nullish.
    + intros l -> Hl. by apply bind_Unmodelled, get_dangling.
  - apply creator_throws_iff.
    + intros argo Harg. eexists _, _. by apply setSelectionRect_Return.
    + intros Hnull. by apply bind_Throw, get_nullish.
    + intros l -> Hl. by apply bind_Unmodelled, get_dangling.
  - intros Hnull state. unfold reducer.
    destruct (strict_eq state VUndef).
    + rewrite (bind_Return _ _ _ _ _ (alloc_Return _ w)).
      by apply bind_Throw, get_nullish.
    + erewrite bind_Return by reflexivity. by apply bind_Throw, get_nullish.
Qed.

(** [setViewport(undefined)] throws, [setViewport(5)] does not. *)
Lemma X7_nullish_arguments_witness :
  setViewport VUndef empty_world = Throw_TypeError ∧
  setViewport (VNum 5) empty_world ≠ Throw_TypeError ∧
  reducer VUndef VNull empty_world = Throw_TypeError.
Proof.
  destruct (X7_nullish_arguments empty_world VUndef) as (Hcreator & _).
  destruct (X7_nullish_arguments empty_world (VNum 5)) as (Hnumber & _).
  destruct (X7_nullish_arguments empty_world VNull) as (_ & _ & _ & Hreducer).
  split; [apply Hcreator; by left|].
  split.
  - intros [H | H]%Hnumber; discriminate.
  - apply Hreducer. by right.
Defined.

(** ** The first state *)

(** X8: the first state.  With no state given (as the store calls it
    first) and an action of a type it has no case for, the reducer returns
    a new empty object; on a root state that mounts it [getViewport] and
    [getSelectionRect] return [undefined] (not [null]) and
    [getContainerSize] the default [{width: 0, height: 0}]. *)
Theorem X8_initial_state (w : world) (action : value) (ao : obj) :
  readable w action ao → unrecognized (default VUndef (ao !! "type")) →
  ∃ s w',
    reducer VUndef action w = Return (VRef s, w') ∧
    heap w !! s = None ∧ heap w' !! s = Some ∅ ∧
    ∀ w'' root, extends w' w'' → mounted w'' root (VRef s) →
      getViewport root w'' = Return (VUndef, w'') ∧
      getSelectionRect root w'' = Return (VUndef, w'') ∧
      allocates (getContainerSize root) w'' {[ "width" := VNum 0; "height" := VNum 0 ]}.
Proof.
  intros Haction (H1 & H2 & H3 & H4 & H5).
  exists (length (heap w)), (set_heap (heap w ++ [∅]) w).
  split.
  { rewrite reducer_default. apply reducer_other with (default VUndef (ao !! "type"));
      try done.
    apply get_readable. by apply readable_grows. }
  split; [apply heap_fresh|]. split; [apply lookup_last_1|].
  intros w'' root Hext Hroot.
  assert (readable w'' (VRef (length (heap w))) ∅) as Hempty
    by apply Hext, lookup_last_1.
  split; [exact (get_mounted w'' root _ ∅ "viewport" Hroot Hempty)|].
  split; [exact (get_mounted w'' root _ ∅ "selectionRect" Hroot Hempty)|].
  destruct Hroot as (r & ro & -> & Hr & Hmp).
  unfold allocates, getContainerSize.
  rewrite (bind_Return _ _ _ _ _ (get_field _ _ _ _ _ Hr Hmp)).
  by rewrite (bind_Return _ _ _ _ _ (get_readable _ _ _ "graphSize" Hempty)).
Qed.

(** The store's first call, [reducer(undefined, {type: '@@redux/INIT'})]. *)
Lemma X8_initial_state_witness :
  ∃ s w',
    reducer VUndef (VRef 0) init_world = Return (VRef s, w') ∧
    heap w' !! s = Some ∅.
Proof.
  destruct (X8_initial_state init_world (VRef 0) {[ "type" := VStr "@@redux/INIT" ]}
              eq_refl) as (s & w' & Hrun & _ & Hs & _).
  - by repeat split.
  - by exists s, w'.
Defined.

(** ** Copies *)

(** X9: the reducer copies.  For each of the three set actions the object
    stored in the state is a new one, not the payload of the action nor any
    other object there was; it has exactly the named fields of the payload,
    whatever else the payload holds, and the payload is left as it was. *)
Theorem X9_reducer_copies_payload (w : world) (s a p : loc) (so ao po : obj) :
  heap w !! s = Some so → heap w !! a = Some ao →
  ao !! "payload" = Some (VRef p) → heap w !! p = Some po →
  ∀ field d,
    (ao !! "type" = Some (VStr GRAPH_SIZE_SET) ∧ field = "graphSize" ∧
     d = {[ "width" := default VUndef (po !! "width");
            "height" := default VUndef (po !! "height") ]}) ∨
    (ao !! "type" = Some (VStr GRAPH_SELECTION_RECT_SET) ∧ field = "selectionRect" ∧
     d = {[ "top" := default VUndef (po !! "top");
            "left" := default VUndef (po !! "left");
            "bottom" := default VUndef (po !! "bottom");
            "right" := default VUndef (po !! "right") ]}) ∨
    (ao !! "type" = Some (VStr VIEWPORT_SET) ∧ field = "viewport" ∧
     d = {[ "startDate" := default VUndef (po !! "startDate");
            "endDate" := default VUndef (po !! "endDate") ]}) →
    ∃ s' v w',
      reducer (VRef s) (VRef a) w = Return (VRef s', w') ∧
      heap w' !! s' = Some (<[field := VRef v]> so) ∧
      v ≠ p ∧ heap w !! v = None ∧ heap w' !! v = Some d ∧
      heap w' !! p = Some po.
Proof.
  intros Hs Ha Hp Hpo field d Hkind.
  assert (length (heap w) ≠ p) as Hne.
  { apply lookup_lt_Some in Hpo. lia. }
  destruct Hkind as [(Hty & -> & ->) | [(Hty & -> & ->) | (Hty & -> & ->)]];
    eexists _, (length (heap w)), _.
  - split; [by eapply (reducer_GRAPH_SIZE_SET w s a so ao Hs Ha (VRef p) po)|].
    simpl. split; [apply lookup_last_2|]. split; [done|].
    split; [apply heap_fresh|]. split; [apply lookup_last_2|].
    by apply heap_grows_lookup.
  - split; [by eapply (reducer_GRAPH_SELECTION_RECT_SET w s a so ao Hs Ha (VRef p) po)|].
    simpl. split; [apply lookup_last_2|]. split; [done|].
    split; [apply heap_fresh|]. split; [apply lookup_last_2|].
    by apply heap_grows_lookup.
  - split; [by eapply (reducer_VIEWPORT_SET w s a so ao Hs Ha (VRef p) po)|].
    simpl. split; [apply lookup_last_2|]. split; [done|].
    split; [apply heap_fresh|]. split; [apply lookup_last_2|].
    by apply heap_grows_lookup.
Qed.

(** Setting the container size from the payload 4 stores a copy. *)
Lemma X9_reducer_copies_payload_witness :
  ∃ s' v w',
    reducer (VRef 3) (VRef 5) full_world = Return (VRef s', w') ∧
    v ≠ 4%nat ∧ heap w' !! v = Some {[ "width" := VNum 100; "height" := VNum 50 ]}.
Proof.
  destruct (X9_reducer_copies_payload full_world 3 5 4
    {[ "graphSize" := VRef 0; "selectionRect" := VRef 1; "viewport" := VRef 2 ]}
    {[ "type" := VStr GRAPH_SIZE_SET; "payload" := VRef 4 ]}
    {[ "width" := VNum 100; "height" := VNum 50 ]}
    eq_refl eq_refl eq_refl eq_refl "graphSize"
    {[ "width" := VNum 100; "height" := VNum 50 ]})
    as (s' & v & w' & Hrun & _ & Hne & _ & Hv & _).
  - left. by repeat split.
  - exists s', v, w'. by repeat split.
Defined.

(** ** The default container size *)

(** X10: the default container size.  On a root state whose layout record
    holds a falsy [graphSize] (missing, [undefined], [null], [false], 0,
    NaN or the empty string), [getContainerSize] makes a new
    [{width: 0, height: 0}] at every call: two calls return two different
    objects. *)
Theorem X10_default_size_is_new (w : world) (root layout : value) (lo : obj) :
  mounted w root layout → readable w layout lo →
  falsy (default VUndef (lo !! "graphSize")) →
  ∃ l1 w1 l2 w2,
    getContainerSize root w = Return (VRef l1, w1) ∧
    getContainerSize root w1 = Return (VRef l2, w2) ∧
    l1 ≠ l2 ∧ heap w !! l1 = None ∧
    heap w2 !! l1 = Some {[ "width" := VNum 0; "height" := VNum 0 ]} ∧
    heap w2 !! l2 = Some {[ "width" := VNum 0; "height" := VNum 0 ]}.
Proof.
  intros Hroot Hlo Hfalsy.
  assert (∀ w', extends w w' →
            allocates (getContainerSize root) w'
              {[ "width" := VNum 0; "height" := VNum 0 ]}) as Hdefault.
  { intros w' Hext.
    destruct (mounted_extends _ _ _ _ Hext Hroot) as (r & ro & -> & Hr & Hmp).
    unfold allocates, getContainerSize.
    rewrite (bind_Return _ _ _ _ _ (get_field _ _ _ _ _ Hr Hmp)).
    rewrite (bind_Return _ _ _ _ _
               (get_readable _ _ _ "graphSize" (readable_extends _ _ _ _ Hext Hlo))).
    cbn beta. unfold falsy in Hfalsy. by rewrite Hfalsy. }
  set (d := {[ "width" := VNum 0; "height" := VNum 0 ]}) in *.
  set (w1 := set_heap (heap w ++ [d]) w).
  exists (length (heap w)), w1, (length (heap w1)), (set_heap (heap w1 ++ [d]) w1).
  split; [apply Hdefault, extends_refl|].
  split; [apply (Hdefault w1), extends_set_heap|].
  split; [unfold w1; simpl; rewrite length_app; simpl; lia|].
  split; [apply heap_fresh|].
  split.
  - apply (heap_grows_lookup (heap w1)), lookup_last_1.
  - apply (lookup_last_1 (heap w1)).
Qed.

(** A container size of [null], and one of 0. *)
Lemma X10_default_size_is_new_witness :
  (∃ l1 w1 l2 w2,
     getContainerSize (VRef 1) falsy_world = Return (VRef l1, w1) ∧
     getContainerSize (VRef 1) w1 = Return (VRef l2, w2) ∧ l1 ≠ l2) ∧
  (∃ l1 w1, getContainerSize (VRef 3) falsy_world = Return (VRef l1, w1) ∧
            heap falsy_world !! l1 = None).
Proof.
  split.
  - destruct (X10_default_size_is_new falsy_world (VRef 1) (VRef 0)
                {[ "graphSize" := VNull ]})
      as (l1 & w1 & l2 & w2 & H1 & H2 & Hne & _);
      [by exists 1, {[ MOUNT_POINT := VRef 0 ]} | reflexivity | reflexivity |].
    by exists l1, w1, l2, w2.
  - destruct (X10_default_size_is_new falsy_world (VRef 3) (VRef 2)
                {[ "graphSize" := VNum 0 ]})
      as (l1 & w1 & l2 & w2 & H1 & _ & _ & Hnew & _);
      [by exists 3, {[ MOUNT_POINT := VRef 2 ]} | reflexivity | reflexivity |].
    by exists l1, w1.
Defined.

(** ** The position calculator on sizes that are not numeric *)

Lemma times_Return v n c w :
  ToNumber v = Some n → times v c w = Return (VNum (n * c), w).
Proof. unfold times. by intros ->. Qed.

Ltac run_position :=
  unfold allocates, getChartPosition_resultFunc; simpl;
  repeat (erewrite bind_Return
            by first [ eapply get_readable; eassumption
                     | eapply times_Return; eassumption ];
          cbn beta);
  reflexivity.

(** X11: the position calculator converts to numbers.  On a size whose
    properties can be read and whose [height] is [undefined], [null], a
    boolean or a number (the values that convert without parsing and
    without a method call), the 'main' and 'panner' rectangles take the
    [width] as it is, whatever it is, and multiply the converted height (a
    missing one is NaN, [null] is 0); the 'lithography' rectangle does so
    when the [width] is such a value too, and multiplies the converted
    width.  On a size that is [undefined] or [null] the three throw a
    TypeError. *)
Theorem X11_position_converts_to_numbers (w : world) (size : value) :
  (∀ o nh, readable w size o →
     ToNumber (default VUndef (o !! "height")) = Some nh →
     allocates (getChartPosition_resultFunc "main" size) w
       {[ "x" := VNum 0; "y" := VNum 0;
          "width" := default VUndef (o !! "width"); "height" := VNum (nh * 0.8) ]} ∧
     allocates (getChartPosition_resultFunc "panner" size) w
       {[ "x" := VNum 0; "y" := VNum (nh * 0.8);
          "width" := default VUndef (o !! "width"); "height" := VNum (nh * 0.2) ]} ∧
     ∀ nw, ToNumber (default VUndef (o !! "width")) = Some nw →
       allocates (getChartPosition_resultFunc "lithography" size) w
         {[ "x" := VNum (nw * 0.9); "y" := VNum 0;
            "width" := VNum (nw * 0.1); "height" := VNum (nh * 0.8) ]}) ∧
  (nullish size →
     getChartPosition_resultFunc "main" size w = Throw_TypeError ∧
     getChartPosition_resultFunc "panner" size w = Throw_TypeError ∧
     getChartPosition_resultFunc "lithography" size w = Throw_TypeError).
Proof.
  split.
  - intros o nh Hsize Hheight. split; [|split].
    + run_position.
    + run_position.
    + intros nw Hwidth. run_position.
  - intros Hnull. unfold getChartPosition_resultFunc. simpl.
    repeat split; by apply bind_Throw, get_nullish.
Qed.

(** The main panel of the size [{}]: no width, and a height that is NaN. *)
Lemma X11_position_converts_to_numbers_witness :
  allocates (getChartPosition_resultFunc "main" (VRef 0)) (World [∅] [] ∅)
    {[ "x" := VNum 0; "y" := VNum 0; "width" := VUndef; "height" := VNum nan ]} ∧
  getChartPosition_resultFunc "panner" VUndef empty_world = Throw_TypeError.
Proof.
  destruct (X11_position_converts_to_numbers (World [∅] [] ∅) (VRef 0)) as [Hany _].
  destruct (X11_position_converts_to_numbers empty_world VUndef) as [_ Hnull].
  split.
  - destruct (Hany ∅ nan eq_refl eq_refl) as [Hmain _]. exact Hmain.
  - destruct Hnull as (_ & Hpanner & _); [by left|exact Hpanner].
Defined.

(** ** The cache of [getChartPosition] *)

Lemma lookup_last_1' {A} (l : list A) (x : A) : (l ++ [x]) !! length l = Some x.
Proof. rewrite lookup_app_r by done. by rewrite Nat.sub_diag. Qed.

Lemma cache_ok_empty : cache_ok empty_world.
Proof. intros chartType f. simpl. by rewrite lookup_empty. Qed.

Lemma cache_ok_grows {A} (m : M A) w a w' :
  grows m → cache_ok w → m w = Return (a, w') → cache_ok w'.
Proof. intros Hm Hw Hrun. by destruct (Hm _ _ _ Hrun) as [new ->]. Qed.

Lemma getChartPosition_cases chartType w f w' :
  getChartPosition chartType w = Return (f, w') →
  cache w' !! chartType = Some f ∧ heap w' = heap w ∧
  (∀ chartType' f', cache w !! chartType' = Some f' → cache w' !! chartType' = Some f') ∧
  (∀ f' s, selectors w !! f' = Some s → selectors w' !! f' = Some s) ∧
  (w' = w ∨
   cache w !! chartType = None ∧ f = length (selectors w) ∧
   selectors w' = selectors w ++ [Selector chartType (Memo None VNull) (Memo None VNull)] ∧
   cache w' = <[chartType := f]> (cache w)).
Proof.
  unfold getChartPosition. destruct (cache w !! chartType) as [f0|] eqn:Hcache.
  - intros [= <- <-]. repeat split; auto.
  - intros [= <- <-]. simpl. split; [apply lookup_insert_eq|]. split; [done|].
    split; [|split].
    + intros chartType' f' Hf'. rewrite lookup_insert_ne; [done|congruence].
    + intros f' s Hs. by apply lookup_app_l_Some.
    + right. by repeat split.
Qed.

Lemma cache_ok_getChartPosition chartType w f w' :
  cache_ok w → getChartPosition chartType w = Return (f, w') → cache_ok w'.
Proof.
  intros Hw Hrun.
  destruct (getChartPosition_cases _ _ _ _ Hrun)
    as (_ & _ & _ & Hkeep & [-> | (Hnone & -> & Hsels & Hcache)]); [done|].
  intros chartType' f'. rewrite Hcache.
  destruct (decide (chartType = chartType')) as [<- | Hne].
  - rewrite lookup_insert_eq. intros [= <-].
    exists (Selector chartType (Memo None VNull) (Memo None VNull)).
    split; [|reflexivity]. rewrite Hsels. apply lookup_last_1'.
  - rewrite lookup_insert_ne by done. intros Hf'.
    destruct (Hw _ _ Hf') as (s & Hs & Hct). exists s. auto.
Qed.

(** ** No stale position *)

(** The ways a call of the selector returns: the state is the last one;
    or the container size is read again and is the last one; or the
    rectangle is computed. *)
Lemma call_selector_cases w f s state r w1 :
  selectors w !! f = Some s →
  call_selector f state w = Return (r, w1) →
  ∃ new inner,
    w1 = World (heap w ++ new)
           (<[f := Selector (sel_chartType s) (Memo (Some state) r) inner]> (selectors w))
           (cache w) ∧
    ((same_args (sel_memo s) state = true ∧ r = lastResult (sel_memo s) ∧
      inner = sel_resultMemo s ∧ new = []) ∨
     (same_args (sel_memo s) state = false ∧
      ∃ size newA,
        getContainerSize state w = Return (size, set_heap (heap w ++ newA) w) ∧
        inner = Memo (Some size) r ∧
        ((same_args (sel_resultMemo s) size = true ∧
          r = lastResult (sel_resultMemo s) ∧ new = newA) ∨
         (same_args (sel_resultMemo s) size = false ∧
          ∃ newB,
            getChartPosition_resultFunc (sel_chartType s) size
              (set_heap (heap w ++ newA) w)
              = Return (r, set_heap ((heap w ++ newA) ++ newB) w) ∧
            new = newA ++ newB)))).
Proof.
  intros Hf.
  assert (f < length (selectors w))%nat as Hlt by by eapply lookup_lt_Some.
  unfold call_selector.
  rewrite (bind_Return _ _ _ _ _ (read_selector_Return _ _ _ Hf)). cbn beta.
  unfold defaultMemoize at 1.
  rewrite (bind_Return _ _ _ _ _ (read_memo _ _ _ Hf)). cbn beta.
  destruct (same_args (sel_memo s) state) eqn:Hhit.
  - erewrite bind_Return by reflexivity. cbn beta.
    erewrite bind_Return by (by apply modify_selector_Return). cbn beta.
    intros [= <- <-]. exists [], (sel_resultMemo s).
    rewrite app_nil_r. split; [done|]. by left.
  - cbn beta. rewrite bind_assoc.
    destruct (getContainerSize state w) as [[size wA]| |] eqn:Hget; cycle 1.
    { by rewrite (bind_Throw _ _ _ Hget). }
    { by rewrite (bind_Unmodelled _ _ _ Hget). }
    destruct (grows_getContainerSize _ _ _ _ Hget) as [newA ->].
    rewrite (bind_Return _ _ _ _ _ Hget). cbn beta.
    unfold defaultMemoize. rewrite bind_assoc.
    rewrite (bind_Return _ _ _ _ _
               (read_resultMemo (set_heap (heap w ++ newA) w) f s Hf)). cbn beta.
    rewrite bind_assoc.
    destruct (same_args (sel_resultMemo s) size) eqn:Hsize.
    + erewrite bind_Return by reflexivity. cbn beta. rewrite bind_assoc.
      erewrite bind_Return by (by apply modify_selector_Return). cbn beta.
      erewrite bind_Return by reflexivity. cbn beta.
      erewrite bind_Return
        by (apply modify_selector_Return; simpl; by apply list_lookup_insert_eq).
      cbn beta. unfold ret. simpl.
      intros [= <- <-]. eexists newA, _.
      rewrite list_insert_insert_eq. split; [reflexivity|]. right.
      split; [done|]. exists size, newA. split; [done|]. split; [done|].
      by left.
    + destruct (getChartPosition_resultFunc (sel_chartType s) size
                  (set_heap (heap w ++ newA) w)) as [[r' wB]| |] eqn:Hrun; cycle 1.
      { by rewrite (bind_Throw _ _ _ Hrun). }
      { by rewrite (bind_Unmodelled _ _ _ Hrun). }
      destruct (grows_resultFunc _ _ _ _ _ Hrun) as [newB ->].
      rewrite (bind_Return _ _ _ _ _ Hrun). cbn beta. rewrite bind_assoc.
      erewrite bind_Return by (by apply modify_selector_Return). cbn beta.
      erewrite bind_Return by reflexivity. cbn beta.
      erewrite bind_Return
        by (apply modify_selector_Return; simpl; by apply list_lookup_insert_eq).
      cbn beta. unfold ret. simpl.
      intros [= <- <-]. eexists (newA ++ newB), _.
      rewrite list_insert_insert_eq, app_assoc. split; [reflexivity|].
      right. split; [done|]. exists size, newA. split; [done|]. split; [done|].
      right. split; [done|]. by exists newB.
Qed.

Lemma recognized_false_rectangle chartType width height :
  recognized chartType = false → rectangle chartType width height = None.
Proof.
  unfold recognized, rectangle.
  by repeat (case_bool_decide; simpl; try done).
Qed.

Lemma recognized_true_cases chartType :
  recognized chartType = true →
  chartType = "main" ∨ chartType = "panner" ∨ chartType = "lithography".
Proof.
  unfold recognized. repeat (case_bool_decide; simpl; auto). done.
Qed.

Lemma recognized_false_cases chartType :
  recognized chartType = false →
  chartType ≠ "main" ∧ chartType ≠ "panner" ∧ chartType ≠ "lithography".
Proof.
  unfold recognized. by repeat (case_bool_decide; simpl; try done).
Qed.

Lemma is_position_extends w w' chartType width height r :
  extends w w' → is_position w chartType width height r →
  is_position w' chartType width height r.
Proof.
  intros Hext. unfold is_position.
  destruct (rectangle chartType width height); [|done].
  by apply points_to_extends.
Qed.

Lemma is_position_unrecognized w chartType width height :
  recognized chartType = false → is_position w chartType width height VUndef.
Proof.
  intros Hct. unfold is_position. by rewrite recognized_false_rectangle.
Qed.

(** The result function makes the rectangle of the size it is given. *)
Lemma resultFunc_is_position chartType w size width height r w' :
  is_size w size width height →
  getChartPosition_resultFunc chartType size w = Return (r, w') →
  is_position w' chartType width height r.
Proof.
  intros Hsize Hrun. unfold is_position, rectangle.
  case_bool_decide as Hmain; [subst|].
  { rewrite (resultFunc_main _ _ _ _ Hsize) in Hrun. injection Hrun as <- <-.
    eexists. split; [done|]. apply lookup_last_1. }
  case_bool_decide as Hpanner; [subst|].
  { rewrite (resultFunc_panner _ _ _ _ Hsize) in Hrun. injection Hrun as <- <-.
    eexists. split; [done|]. apply lookup_last_1. }
  case_bool_decide as Hlitho; [subst|].
  { rewrite (resultFunc_lithography _ _ _ _ Hsize) in Hrun. injection Hrun as <- <-.
    eexists. split; [done|]. apply lookup_last_1. }
  rewrite resultFunc_other in Hrun by done. by injection Hrun as <- <-.
Qed.

Lemma resultFunc_unrecognized chartType size w r w' :
  recognized chartType = false →
  getChartPosition_resultFunc chartType size w = Return (r, w') → r = VUndef.
Proof.
  intros (Hmain & Hpanner & Hlitho)%recognized_false_cases.
  rewrite resultFunc_other by done. by intros [= <- <-].
Qed.

(** For a panel that has a rectangle the result function reads the size. *)
Lemma resultFunc_live chartType l w r w' :
  recognized chartType = true →
  getChartPosition_resultFunc chartType (VRef l) w = Return (r, w') →
  is_Some (heap w !! l).
Proof.
  intros Hct Hrun. destruct (heap w !! l) as [o|] eqn:Hl; [by eexists|].
  apply recognized_true_cases in Hct as [-> | [-> | ->]];
    unfold getChartPosition_resultFunc in Hrun; simpl in Hrun;
    by rewrite (bind_Unmodelled _ _ _ (get_dangling l _ w Hl)) in Hrun.
Qed.

Lemma is_size_back w w' l o width height :
  extends w w' → heap w !! l = Some o →
  is_size w' (VRef l) width height → is_size w (VRef l) width height.
Proof.
  intros Hext Hl (l' & o' & Heq & Hl' & Hwidth & Hheight).
  injection Heq as Heq. subst l'.
  assert (o' = o) as ->.
  { apply (inj Some). rewrite <-Hl'. exact (Hext _ _ Hl). }
  by exists l, o.
Qed.

(** How [getContainerSize] returns: the size of the layout record, or a
    new default. *)
Lemma getContainerSize_cases state w size w' :
  getContainerSize state w = Return (size, w') →
  ∃ layout lo, mounted w state layout ∧ readable w layout lo ∧
    ((truthy (default VUndef (lo !! "graphSize")) = true ∧
      size = default VUndef (lo !! "graphSize") ∧ w' = w) ∨
     (falsy (default VUndef (lo !! "graphSize")) ∧
      size = VRef (length (heap w)) ∧
      w' = set_heap (heap w ++ [ {[ "width" := VNum 0; "height" := VNum 0 ]} ]) w)).
Proof.
  intros Hrun.
  destruct (getContainerSize_inv _ _ _ _ Hrun) as (layout & lo & Hroot & Hlo & _).
  exists layout, lo. split; [done|]. split; [done|].
  destruct Hroot as (r & ro & -> & Hr & Hmp).
  unfold getContainerSize in Hrun.
  rewrite (bind_Return _ _ _ _ _ (get_field _ _ _ _ _ Hr Hmp)) in Hrun.
  rewrite (bind_Return _ _ _ _ _ (get_readable _ _ _ "graphSize" Hlo)) in Hrun.
  cbn beta in Hrun. unfold falsy.
  destruct (truthy (default VUndef (lo !! "graphSize"))).
  - left. by injection Hrun as <- <-.
  - right. by injection Hrun as <- <-.
Qed.

Lemma sound_fresh w chartType :
  sound w (Selector chartType (Memo None VNull) (Memo None VNull)).
Proof.
  split; [apply consistent_fresh|]. simpl.
  split; [by intros _ [? ?]|]. by repeat split.
Qed.

Lemma sound_extends w w' s : extends w w' → sound w s → sound w' s.
Proof.
  intros Hext (Hcons & Hother & Hlive & Hsize & Hdefault).
  split; [by eapply consistent_extends|]. split; [done|].
  split; [intros Hct l Hl; destruct (Hlive Hct l Hl) as [o Ho]; eauto|].
  split.
  - intros size width height Hlast Hsize'.
    destruct (recognized (sel_chartType s)) eqn:Hct.
    + destruct Hsize' as (l & o & -> & Hl & Hwidth & Hheight).
      destruct (Hlive eq_refl l Hlast) as [o' Ho'].
      apply is_position_extends with w; [done|]. apply (Hsize (VRef l)); [done|].
      apply is_size_back with w' o'; [done..|]. by exists l, o.
    + rewrite (Hother eq_refl (mk_is_Some _ _ Hlast)).
      by apply is_position_unrecognized.
  - intros state layout lo Hlast Hroot Hlo Hfalsy.
    destruct (Hcons state Hlast) as (_ & layout0 & lo0 & Hroot0 & Hlo0 & _).
    pose proof (mounted_inj _ _ _ _ Hroot (mounted_extends _ _ _ _ Hext Hroot0)) as ->.
    pose proof (readable_inj _ _ _ _ Hlo (readable_extends _ _ _ _ Hext Hlo0)) as ->.
    apply is_position_extends with w; [done|]. by eapply Hdefault.
Qed.

Lemma extends_heap w w' new : heap w' = heap w ++ new → extends w w'.
Proof. intros Hheap l o Hl. rewrite Hheap. by apply heap_grows_lookup. Qed.

(** After the container size was read again: the selector is sound when
    the result is the position for the size. *)
Lemma sound_after_miss w w1 chartType state size r newA newB :
  getContainerSize state w = Return (size, set_heap (heap w ++ newA) w) →
  heap w1 = heap w ++ (newA ++ newB) →
  consistent w1 (Selector chartType (Memo (Some state) r) (Memo (Some size) r)) →
  (recognized chartType = false → r = VUndef) →
  (recognized chartType = true → ∀ l, size = VRef l → is_Some (heap w1 !! l)) →
  (∀ width height, is_size w1 size width height →
     is_position w1 chartType width height r) →
  sound w1 (Selector chartType (Memo (Some state) r) (Memo (Some size) r)).
Proof.
  intros Hget Hheap Hcons Hother Hlive Hsize.
  pose proof (extends_heap _ _ _ Hheap) as Hext.
  split; [done|]. simpl. split; [by intros Hct _; apply Hother|].
  split; [by intros Hct l [= ->]; apply Hlive|].
  split; [by intros size' width height [= <-]; apply Hsize|].
  intros state' layout lo [= <-] Hroot Hlo Hfalsy.
  apply Hsize.
  destruct (getContainerSize_cases _ _ _ _ Hget)
    as (layout0 & lo0 & Hroot0 & Hlo0 & Hcase).
  pose proof (mounted_inj _ _ _ _ Hroot (mounted_extends _ _ _ _ Hext Hroot0)) as ->.
  pose proof (readable_inj _ _ _ _ Hlo (readable_extends _ _ _ _ Hext Hlo0)) as ->.
  destruct Hcase as [(Htruthy & _) | (_ & -> & Hdefault)].
  { unfold falsy in Hfalsy. congruence. }
  assert (newA = [ {[ "width" := VNum 0; "height" := VNum 0 ]} ]) as ->.
  { unfold set_heap in Hdefault. injection Hdefault as Hdefault.
    by apply app_inv_head in Hdefault. }
  exists (length (heap w)), {[ "width" := VNum 0; "height" := VNum 0 ]}.
  split; [done|]. split; [|done].
  rewrite Hheap. simpl. rewrite lookup_app_r by done. by rewrite Nat.sub_diag.
Qed.

Lemma world_sound_consistent w : world_sound w → world_consistent w.
Proof. intros [_ Hw] f s Hf. by destruct (Hw f s Hf). Qed.

Lemma world_sound_empty : world_sound empty_world.
Proof. split; [apply cache_ok_empty|]. intros f s Hf. by destruct f. Qed.

(** The action creators, the reducer and the plain selectors keep the
    store in order. *)
Lemma world_sound_grows {A} (m : M A) w a w' :
  grows m → world_sound w → m w = Return (a, w') → world_sound w'.
Proof.
  intros Hm [Hcache Hw] Hrun. split; [by eapply cache_ok_grows|].
  destruct (Hm _ _ _ Hrun) as [new ->].
  intros f s Hf. apply sound_extends with w; [apply extends_set_heap|].
  exact (Hw f s Hf).
Qed.

Lemma world_sound_getChartPosition chartType w f w' :
  world_sound w → getChartPosition chartType w = Return (f, w') → world_sound w'.
Proof.
  intros [Hcache Hw] Hrun. split; [by eapply cache_ok_getChartPosition|].
  destruct (getChartPosition_cases _ _ _ _ Hrun)
    as (_ & Hheap & _ & _ & [-> | (_ & -> & Hsels & _)]); [done|].
  assert (extends w w') as Hext by (apply extends_heap with []; by rewrite app_nil_r).
  intros f s. rewrite Hsels. intros [Hf | [_ Hf]]%lookup_app_Some.
  - apply sound_extends with w; [done|]. exact (Hw f s Hf).
  - destruct (f - length (selectors w))%nat as [|n]; [|by destruct n].
    injection Hf as <-. apply sound_fresh.
Qed.

Lemma world_sound_call_selector w f state r w1 :
  world_sound w → call_selector f state w = Return (r, w1) → world_sound w1.
Proof.
  intros Hw Hcall.
  pose proof (world_consistent_call_selector _ _ _ _ _
                (world_sound_consistent _ Hw) Hcall) as Hcons1.
  destruct Hw as [Hcache Hw].
  destruct (selectors w !! f) as [s|] eqn:Hf; cycle 1.
  { unfold call_selector, bind, read_selector in Hcall. by rewrite Hf in Hcall. }
  assert (f < length (selectors w))%nat as Hlt by by eapply lookup_lt_Some.
  destruct (call_selector_cases _ _ _ _ _ _ Hf Hcall) as (new & inner & -> & Hcase).
  set (s1 := Selector (sel_chartType s) (Memo (Some state) r) inner) in *.
  set (w1 := World (heap w ++ new) (<[f := s1]> (selectors w)) (cache w)) in *.
  assert (extends w w1) as Hext by apply (extends_set_heap w new).
  assert (selectors w1 !! f = Some s1) as Hf1 by by apply list_lookup_insert_eq.
  split.
  { intros chartType f0 Hf0. destruct (Hcache _ _ Hf0) as (s0 & Hs0 & Hct).
    destruct (decide (f0 = f)) as [-> | Hne].
    - exists s1. split; [done|]. rewrite Hf in Hs0. by injection Hs0 as <-.
    - exists s0. split; [|done]. simpl. by rewrite list_lookup_insert_ne. }
  intros f' s'. destruct (decide (f' = f)) as [-> | Hne]; cycle 1.
  { simpl. rewrite list_lookup_insert_ne by done. intros Hf'.
    apply sound_extends with w; [done|]. exact (Hw f' s' Hf'). }
  rewrite Hf1. intros [= <-].
  pose proof (Hcons1 f s1 Hf1) as Hcons.
  pose proof (Hw f s Hf) as Hs.
  destruct Hcase as [(Hhit & -> & -> & ->) |
                     (Hmiss & size & newA & Hget & -> & Hinner)].
  - (* the state of the last call *)
    destruct (sound_extends _ _ _ Hext Hs) as (_ & Hother & Hlive & Hsize & Hdefault).
    split; [done|]. split; [exact Hother|]. split; [exact Hlive|].
    split; [exact Hsize|].
    intros state' layout lo [= <-] Hroot Hlo Hfalsy.
    apply (Hdefault state layout lo); [|done..].
    destruct Hroot as (l & ? & -> & _). by apply same_args_ref.
  - destruct Hinner as [(Hhit & -> & ->) | (Hmiss' & newB & Hrun & ->)].
    + (* the size of the last call *)
      destruct Hs as (_ & Hother & Hlive & Hsize & _).
      unfold same_args in Hhit.
      destruct (lastArgs (sel_resultMemo s)) as [prev|] eqn:Hprev; [|done].
      apply (sound_after_miss w w1 _ state size _ newA []); try done.
      * simpl. by rewrite app_nil_r.
      * intros Hct. apply Hother; [done|by eexists].
      * intros Hct l ->. apply strict_eq_VRef in Hhit as ->.
        destruct (Hlive Hct l eq_refl) as [o Ho]. exists o. by apply Hext.
      * intros width height Hsize1.
        destruct (recognized (sel_chartType s)) eqn:Hct.
        -- destruct Hsize1 as (l & o & -> & Hl & Hwidth & Hheight).
           apply strict_eq_VRef in Hhit as ->.
           destruct (Hlive eq_refl l eq_refl) as [o' Ho'].
           apply is_position_extends with w; [done|].
           apply (Hsize (VRef l)); [done|].
           apply is_size_back with w1 o'; [done..|]. by exists l, o.
        -- rewrite (Hother eq_refl (mk_is_Some _ _ eq_refl)).
           by apply is_position_unrecognized.
    + (* the rectangle is computed *)
      set (wA := set_heap (heap w ++ newA) w) in *.
      assert (extends wA w1) as HextA.
      { apply extends_heap with newB. simpl. by rewrite app_assoc. }
      apply (sound_after_miss w w1 _ state size _ newA newB); try done.
      * intros Hct. by eapply resultFunc_unrecognized.
      * intros Hct l ->. destruct (resultFunc_live _ _ _ _ _ Hct Hrun) as [o Ho].
        exists o. by apply HextA.
      * intros width height Hsize1.
        destruct (recognized (sel_chartType s)) eqn:Hct.
        -- destruct Hsize1 as (l & o & -> & Hl & Hwidth & Hheight).
           destruct (resultFunc_live _ _ _ _ _ Hct Hrun) as [o' Ho'].
           assert (is_size wA (VRef l) width height) as HsizeA.
           { apply is_size_back with w1 o'; [done..|]. by exists l, o. }
           pose proof (resultFunc_is_position _ _ _ _ _ _ _ HsizeA Hrun) as Hpos.
           eapply is_position_extends; [|exact Hpos].
           apply extends_heap with []. simpl. by rewrite app_nil_r, app_assoc.
        -- rewrite (resultFunc_unrecognized _ _ _ _ _ Hct Hrun).
           by apply is_position_unrecognized.
Qed.

Lemma getContainerSize_falsy w root layout lo :
  mounted w root layout → readable w layout lo →
  falsy (default VUndef (lo !! "graphSize")) →
  allocates (getContainerSize root) w {[ "width" := VNum 0; "height" := VNum 0 ]}.
Proof.
  intros (r & ro & -> & Hr & Hmp) Hlo Hfalsy.
  unfold allocates, getContainerSize.
  rewrite (bind_Return _ _ _ _ _ (get_field _ _ _ _ _ Hr Hmp)).
  rewrite (bind_Return _ _ _ _ _ (get_readable _ _ _ "graphSize" Hlo)).
  cbn beta. unfold falsy in Hfalsy. by rewrite Hfalsy.
Qed.

(** On a state without container size the selector returns as well. *)
Lemma call_selector_returns_default w f s state layout lo :
  selectors w !! f = Some s →
  mounted w state layout → readable w layout lo →
  falsy (default VUndef (lo !! "graphSize")) →
  ∃ r w1, call_selector f state w = Return (r, w1).
Proof.
  intros Hf Hroot Hlo Hfalsy.
  assert (f < length (selectors w))%nat as Hlt by by eapply lookup_lt_Some.
  pose proof (getContainerSize_falsy _ _ _ _ Hroot Hlo Hfalsy) as Hget.
  unfold allocates in Hget.
  set (wA := set_heap _ w) in Hget.
  assert (is_size wA (VRef (length (heap w))) 0 0) as Hsize.
  { eexists _, _. split; [done|]. split; [apply lookup_last_1|done]. }
  unfold call_selector.
  rewrite (bind_Return _ _ _ _ _ (read_selector_Return _ _ _ Hf)). cbn beta.
  unfold defaultMemoize at 1.
  rewrite (bind_Return _ _ _ _ _ (read_memo _ _ _ Hf)). cbn beta.
  destruct (same_args (sel_memo s) state).
  - erewrite bind_Return by reflexivity. cbn beta.
    erewrite bind_Return by (by apply modify_selector_Return). cbn beta.
    by eexists _, _.
  - cbn beta. rewrite bind_assoc.
    rewrite (bind_Return _ _ _ _ _ Hget). cbn beta.
    unfold defaultMemoize. rewrite bind_assoc.
    rewrite (bind_Return _ _ _ _ _ (read_resultMemo wA f s Hf)). cbn beta.
    rewrite bind_assoc.
    destruct (same_args (sel_resultMemo s) _).
    + erewrite bind_Return by reflexivity. cbn beta. rewrite bind_assoc.
      erewrite bind_Return by (by apply modify_selector_Return). cbn beta.
      erewrite bind_Return by reflexivity. cbn beta.
      erewrite bind_Return
        by (apply modify_selector_Return; simpl; by apply list_lookup_insert_eq).
      by eexists _, _.
    + destruct (resultFunc_returns (sel_chartType s) _ _ _ _ Hsize)
        as (r & new & Hrun).
      rewrite (bind_Return _ _ _ _ _ Hrun). cbn beta. rewrite bind_assoc.
      erewrite bind_Return by (by apply modify_selector_Return). cbn beta.
      erewrite bind_Return by reflexivity. cbn beta.
      erewrite bind_Return
        by (apply modify_selector_Return; simpl; by apply list_lookup_insert_eq).
      by eexists _, _.
Qed.

Lemma getChartPosition_returns chartType w :
  ∃ f w0, getChartPosition chartType w = Return (f, w0).
Proof.
  unfold getChartPosition. destruct (cache w !! chartType); by eexists _, _.
Qed.

Lemma world_sound_selector chartType w f w0 :
  world_sound w → getChartPosition chartType w = Return (f, w0) →
  world_sound w0 ∧ extends w w0 ∧
  ∃ s, selectors w0 !! f = Some s ∧ sel_chartType s = chartType ∧ sound w0 s.
Proof.
  intros Hw Hrun.
  pose proof (world_sound_getChartPosition _ _ _ _ Hw Hrun) as Hw0.
  destruct (getChartPosition_cases _ _ _ _ Hrun) as (Hcache & Hheap & _).
  split; [done|]. split; [apply extends_heap with []; by rewrite app_nil_r|].
  destruct Hw0 as [Hcache0 Hsound0].
  destruct (Hcache0 _ _ Hcache) as (s & Hs & Hct).
  exists s. split; [done|]. split; [done|]. exact (Hsound0 f s Hs).
Qed.

Lemma chart_position_sized w chartType state size width height :
  world_sound w → sized_state w state size → is_size w size width height →
  ∃ f r w1,
    chart_position chartType state w = Return (r, w1) ∧
    cache w1 !! chartType = Some f ∧
    (∀ chartType' g, cache w !! chartType' = Some g → cache w1 !! chartType' = Some g) ∧
    selectors w1 !! f
      = Some (Selector chartType (Memo (Some state) r) (Memo (Some size) r)) ∧
    is_position w1 chartType width height r ∧ world_sound w1 ∧ extends w w1.
Proof.
  intros Hw Hstate Hsize.
  destruct (getChartPosition_returns chartType w) as (f & w0 & Hposition).
  destruct (world_sound_selector _ _ _ _ Hw Hposition)
    as (Hw0 & Hext0 & s & Hf & <- & Hs).
  destruct (getChartPosition_cases _ _ _ _ Hposition) as (Hcache & _ & Hkeep & _).
  unfold chart_position. rewrite (bind_Return _ _ _ _ _ Hposition). cbn beta.
  destruct (call_selector_post w0 f s state size width height Hf (proj1 Hs)
              (sized_state_extends _ _ _ _ Hext0 Hstate)
              (is_size_extends _ _ _ _ _ Hext0 Hsize)) as (r & new & Hcall).
  pose proof (world_sound_call_selector _ _ _ _ _ Hw0 Hcall) as Hw1.
  assert (f < length (selectors w0))%nat as Hlt by by eapply lookup_lt_Some.
  assert (extends w (World (heap w0 ++ new)
            (<[f := Selector (sel_chartType s) (Memo (Some state) r)
                      (Memo (Some size) r)]> (selectors w0)) (cache w0))) as Hext1.
  { eapply extends_trans; [exact Hext0|apply (extends_set_heap w0 new)]. }
  eexists f, r, _. split; [exact Hcall|]. split; [exact Hcache|].
  split; [exact Hkeep|]. split; [by apply list_lookup_insert_eq|].
  split; [|split; [exact Hw1|exact Hext1]].
  destruct Hw1 as [_ Hsound1].
  destruct (Hsound1 f _ (list_lookup_insert_eq _ _ _ Hlt))
    as (_ & _ & _ & Hcurrent & _).
  apply (Hcurrent size); [done|]. by apply is_size_extends with w.
Qed.

(** X13: no stale position.  In a store in order (as the empty one is, and
    as every operation of the module leaves it),
    [getChartPosition(chartType)(state)] returns, cached or not, the
    position for the container size the state holds now: the rectangle of
    the panel for its width and height, or [undefined] for a chart type
    without rectangle; on a state without container size it is the position
    in the empty container.  The store stays in order. *)
Theorem X13_position_is_current (w : world) (chartType : string) (state : value) :
  world_sound w →
  (∀ size width height,
     sized_state w state size → is_size w size width height →
     ∃ r w1, chart_position chartType state w = Return (r, w1) ∧
             is_position w1 chartType width height r ∧ world_sound w1) ∧
  (∀ layout lo,
     mounted w state layout → readable w layout lo →
     falsy (default VUndef (lo !! "graphSize")) →
     ∃ r w1, chart_position chartType state w = Return (r, w1) ∧
             is_position w1 chartType 0 0 r ∧ world_sound w1).
Proof.
  intros Hw.
  destruct (getChartPosition_returns chartType w) as (f & w0 & Hposition).
  destruct (world_sound_selector _ _ _ _ Hw Hposition)
    as (Hw0 & Hext0 & s & Hf & <- & Hs).
  unfold chart_position. rewrite (bind_Return _ _ _ _ _ Hposition). cbn beta.
  split.
  - intros size width height Hstate Hsize.
    destruct (call_selector_post w0 f s state size width height Hf (proj1 Hs)
                (sized_state_extends _ _ _ _ Hext0 Hstate)
                (is_size_extends _ _ _ _ _ Hext0 Hsize)) as (r & new & Hcall).
    pose proof (world_sound_call_selector _ _ _ _ _ Hw0 Hcall) as Hw1.
    eexists r, _. split; [exact Hcall|]. split; [|exact Hw1].
    assert (f < length (selectors w0))%nat as Hlt by by eapply lookup_lt_Some.
    destruct Hw1 as [_ Hsound1].
    destruct (Hsound1 f _ (list_lookup_insert_eq _ _ _ Hlt))
      as (_ & _ & _ & Hcurrent & _).
    apply (Hcurrent size); [done|].
    apply is_size_extends with w0; [apply (extends_set_heap w0 new)|].
    by apply is_size_extends with w.
  - intros layout lo Hroot Hlo Hfalsy.
    destruct (call_selector_returns_default w0 f s state layout lo Hf
                (mounted_extends _ _ _ _ Hext0 Hroot)
                (readable_extends _ _ _ _ Hext0 Hlo) Hfalsy) as (r & w1 & Hcall).
    pose proof (world_sound_call_selector _ _ _ _ _ Hw0 Hcall) as Hw1.
    exists r, w1. split; [exact Hcall|]. split; [|exact Hw1].
    assert (f < length (selectors w0))%nat as Hlt by by eapply lookup_lt_Some.
    destruct (call_selector_cases _ _ _ _ _ _ Hf Hcall) as (new & inner & -> & _).
    destruct Hw1 as [_ Hsound1].
    destruct (Hsound1 f _ (list_lookup_insert_eq _ _ _ Hlt))
      as (_ & _ & _ & _ & Hdefault).
    assert (extends w0 (World (heap w0 ++ new)
              (<[f := Selector (sel_chartType s) (Memo (Some state) r) inner]>
                 (selectors w0)) (cache w0))) as Hext1
      by apply (extends_set_heap w0 new).
    apply (Hdefault state layout lo); [done| |  |done].
    + by eapply mounted_extends, mounted_extends.
    + by eapply readable_extends, readable_extends.
Qed.

Lemma position_world_sound : world_sound position_world.
Proof.
  split.
  - intros chartType f. simpl. by rewrite lookup_empty.
  - intros f s Hf. by destruct f.
Qed.

Lemma position_world_state1 : sized_state position_world (VRef 2) (VRef 0).
Proof.
  exists (VRef 1), {[ "graphSize" := VRef 0 ]}.
  split; [by exists 2, {[ MOUNT_POINT := VRef 1 ]}|]. by repeat split.
Qed.

Lemma position_world_state2 : sized_state position_world (VRef 5) (VRef 3).
Proof.
  exists (VRef 4), {[ "graphSize" := VRef 3 ]}.
  split; [by exists 5, {[ MOUNT_POINT := VRef 4 ]}|]. by repeat split.
Qed.

Lemma position_world_size1 : is_size position_world (VRef 0) 100 50.
Proof. by exists 0, {[ "width" := VNum 100; "height" := VNum 50 ]}. Qed.

Lemma position_world_size2 : is_size position_world (VRef 3) 200 80.
Proof. by exists 3, {[ "width" := VNum 200; "height" := VNum 80 ]}. Qed.

(** The panner of a container 100 by 50, and the main panel of a state
    without container size. *)
Lemma X13_position_is_current_witness :
  (∃ r w1, chart_position "panner" (VRef 2) position_world = Return (r, w1) ∧
           points_to w1 r {[ "x" := VNum 0; "y" := VNum 40;
                             "width" := VNum 100; "height" := VNum 10 ]}) ∧
  (∃ r w1, chart_position "main" (VRef 7) position_world = Return (r, w1) ∧
           points_to w1 r {[ "x" := VNum 0; "y" := VNum 0;
                             "width" := VNum 0; "height" := VNum 0 ]}).
Proof.
  split.
  - destruct (X13_position_is_current position_world "panner" (VRef 2)
                position_world_sound) as [Hsized _].
    destruct (Hsized (VRef 0) 100%float 50%float
                position_world_state1 position_world_size1)
      as (r & w1 & Hrun & Hposition & _).
    exists r, w1. split; [exact Hrun|exact Hposition].
  - destruct (X13_position_is_current position_world "main" (VRef 7)
                position_world_sound) as [_ Hdefault].
    destruct (Hdefault (VRef 6) ∅) as (r & w1 & Hrun & Hposition & _).
    + by exists 7, {[ MOUNT_POINT := VRef 6 ]}.
    + reflexivity.
    + reflexivity.
    + exists r, w1. split; [exact Hrun|exact Hposition].
Defined.

(** X12: one selector per chart type.  In a store whose cache is in order,
    [getChartPosition] gives a selector of the chart type asked for; asking
    for another chart type in between changes nothing for the first (the
    same selector comes back, and the store is left as it is), and two
    different chart types never share a selector. *)
Theorem X12_one_selector_per_chart_type (w : world) (chartType chartType' : string) :
  cache_ok w →
  ∃ f w1 f' w2,
    getChartPosition chartType w = Return (f, w1) ∧
    getChartPosition chartType' w1 = Return (f', w2) ∧
    getChartPosition chartType w2 = Return (f, w2) ∧
    (∃ s, selectors w2 !! f = Some s ∧ sel_chartType s = chartType) ∧
    (chartType ≠ chartType' → f ≠ f') ∧
    cache_ok w2.
Proof.
  intros Hw.
  destruct (getChartPosition_returns chartType w) as (f & w1 & H1).
  destruct (getChartPosition_returns chartType' w1) as (f' & w2 & H2).
  pose proof (cache_ok_getChartPosition _ _ _ _ Hw H1) as Hw1.
  pose proof (cache_ok_getChartPosition _ _ _ _ Hw1 H2) as Hw2.
  destruct (getChartPosition_cases _ _ _ _ H1) as (Hcache1 & _).
  destruct (getChartPosition_cases _ _ _ _ H2) as (Hcache2 & _ & Hkeep & _).
  pose proof (Hkeep _ _ Hcache1) as Hcache.
  exists f, w1, f', w2. split; [exact H1|]. split; [exact H2|].
  split; [unfold getChartPosition; by rewrite Hcache|].
  split; [exact (Hw2 _ _ Hcache)|]. split; [|exact Hw2].
  intros Hne ->.
  destruct (Hw2 _ _ Hcache) as (s & Hs & Hct).
  destruct (Hw2 _ _ Hcache2) as (s' & Hs' & Hct').
  rewrite Hs in Hs'. injection Hs' as <-. congruence.
Qed.

(** The selectors of the main panel and of the panner. *)
Lemma X12_one_selector_per_chart_type_witness :
  ∃ f w1 f' w2,
    getChartPosition "main" empty_world = Return (f, w1) ∧
    getChartPosition "panner" w1 = Return (f', w2) ∧
    getChartPosition "main" w2 = Return (f, w2) ∧ f ≠ f'.
Proof.
  destruct (X12_one_selector_per_chart_type empty_world "main" "panner" cache_ok_empty)
    as (f & w1 & f' & w2 & H1 & H2 & H3 & _ & Hne & _).
  exists f, w1, f', w2. split; [exact H1|]. split; [exact H2|].
  split; [exact H3|]. apply Hne. discriminate.
Defined.

Lemma getChartPosition_cached chartType w f :
  cache w !! chartType = Some f → getChartPosition chartType w = Return (f, w).
Proof. intros Hcache. unfold getChartPosition. by rewrite Hcache. Qed.

Lemma chart_position_inv chartType state w r w1 :
  chart_position chartType state w = Return (r, w1) →
  ∃ f w0, getChartPosition chartType w = Return (f, w0) ∧
          call_selector f state w0 = Return (r, w1).
Proof. apply bind_inv. Qed.

Lemma cache_ok_call_selector w f state r w1 :
  cache_ok w → call_selector f state w = Return (r, w1) →
  cache_ok w1 ∧ cache w1 = cache w ∧
  ∀ f' s', f' ≠ f → selectors w !! f' = Some s' → selectors w1 !! f' = Some s'.
Proof.
  intros Hw Hcall.
  assert (∃ s, selectors w !! f = Some s) as (s & Hf).
  { destruct (selectors w !! f) as [s|] eqn:Hf; [by exists s|].
    unfold call_selector, bind, read_selector in Hcall. by rewrite Hf in Hcall. }
  destruct (call_selector_cases _ _ _ _ _ _ Hf Hcall) as (new & inner & -> & _).
  simpl. split; [|split; [done|]].
  - intros chartType g Hg. simpl in *.
    destruct (Hw _ _ Hg) as (sg & Hsg & Hct).
    destruct (decide (g = f)) as [->|Hne].
    + eexists. split; [apply list_lookup_insert_eq; by eapply lookup_lt_Some|].
      simpl. congruence.
    + exists sg. split; [|done]. by rewrite list_lookup_insert_ne.
  - intros f' s' Hne Hf'. by rewrite list_lookup_insert_ne.
Qed.

(** X14: the panels do not share a memo.  Once the position of a panel has
    been read on a state, reading the position of a panel of another chart
    type, on any state, does not evict it: asked again on the first state,
    the first panel answers with the very same value, and the store is left
    as it is. *)
Theorem X14_chart_types_do_not_interfere (w : world) (chartType chartType' : string)
    (l : loc) (state' r r' : value) (w1 w2 : world) :
  cache_ok w → chartType ≠ chartType' →
  chart_position chartType (VRef l) w = Return (r, w1) →
  chart_position chartType' state' w1 = Return (r', w2) →
  chart_position chartType (VRef l) w2 = Return (r, w2).
Proof.
  intros Hw Hne Hfirst Hsecond.
  destruct (chart_position_inv _ _ _ _ _ Hfirst) as (f & w0 & Hposition & Hcall).
  destruct (chart_position_inv _ _ _ _ _ Hsecond) as (f' & w0' & Hposition' & Hcall').
  pose proof (cache_ok_getChartPosition _ _ _ _ Hw Hposition) as Hw0.
  destruct (getChartPosition_cases _ _ _ _ Hposition) as (Hcache & _).
  destruct (Hw0 _ _ Hcache) as (s & Hf & Hct).
  destruct (cache_ok_call_selector _ _ _ _ _ Hw0 Hcall) as (Hw1 & Hcache1 & _).
  destruct (call_selector_cases _ _ _ _ _ _ Hf Hcall) as (new & inner & Heq & _).
  assert (selectors w1 !! f
          = Some (Selector (sel_chartType s) (Memo (Some (VRef l)) r) inner)) as Hf1.
  { rewrite Heq. simpl. apply list_lookup_insert_eq. by eapply lookup_lt_Some. }
  pose proof (cache_ok_getChartPosition _ _ _ _ Hw1 Hposition') as Hw0'.
  destruct (getChartPosition_cases _ _ _ _ Hposition')
    as (Hcache' & _ & Hkeep & Hkeep_selectors & _).
  assert (cache w0' !! chartType = Some f) as Hcache0'.
  { apply Hkeep. by rewrite Hcache1. }
  assert (f ≠ f') as Hff'.
  { intros <-. destruct (Hw0' _ _ Hcache0') as (s1 & Hs1 & Hct1).
    destruct (Hw0' _ _ Hcache') as (s2 & Hs2 & Hct2).
    rewrite Hs1 in Hs2. injection Hs2 as <-. congruence. }
  destruct (cache_ok_call_selector _ _ _ _ _ Hw0' Hcall') as (_ & Hcache2 & Hothers).
  unfold chart_position.
  rewrite (bind_Return _ _ _ _ _
             (getChartPosition_cached chartType w2 f ltac:(by rewrite Hcache2))).
  cbn beta. eapply call_selector_same_state.
  apply Hothers; [done|]. apply Hkeep_selectors. exact Hf1.
Qed.

(** The main panel, then the panner on another state, then the main panel
    again. *)
Lemma X14_chart_types_do_not_interfere_witness :
  ∃ r w1 r' w2,
    chart_position "main" (VRef 2) position_world = Return (r, w1) ∧
    chart_position "panner" (VRef 5) w1 = Return (r', w2) ∧
    chart_position "main" (VRef 2) w2 = Return (r, w2).
Proof.
  destruct (chart_position_sized position_world "main" (VRef 2) (VRef 0) 100 50
              position_world_sound position_world_state1 position_world_size1)
    as (f & r & w1 & Hfirst & _ & _ & _ & _ & Hw1 & Hext).
  destruct (chart_position_sized w1 "panner" (VRef 5) (VRef 3) 200 80 Hw1
              (sized_state_extends _ _ _ _ Hext position_world_state2)
              (is_size_extends _ _ _ _ _ Hext position_world_size2))
    as (f' & r' & w2 & Hsecond & _).
  exists r, w1, r', w2. split; [exact Hfirst|]. split; [exact Hsecond|].
  apply (X14_chart_types_do_not_interfere position_world "main" "panner"
           2 (VRef 5) r r' w1 w2); [|discriminate|exact Hfirst|exact Hsecond].
  intros chartType g. simpl. by rewrite lookup_empty.
Defined.

(** X15: the memo of a panel holds one state.  In a store in order, for a
    panel that has a rectangle, reading the position on a state, then on a
    state with another container size object, and then on the first state
    again computes the position anew: the third answer is a new object,
    another one than the first answer, and both are the rectangle of the
    first container size. *)
Theorem X15_memo_holds_one_state (w : world) (chartType : string)
    (state1 size1 state2 size2 : value) (width1 height1 width2 height2 : float) :
  world_sound w → recognized chartType = true →
  sized_state w state1 size1 → is_size w size1 width1 height1 →
  sized_state w state2 size2 → is_size w size2 width2 height2 →
  size1 ≠ size2 →
  ∃ r1 wa r2 wb wc,
    chart_position chartType state1 w = Return (r1, wa) ∧
    chart_position chartType state2 wa = Return (r2, wb) ∧
    chart_position chartType state1 wb = Return (VRef (length (heap wb)), wc) ∧
    r1 ≠ VRef (length (heap wb)) ∧
    is_position wc chartType width1 height1 r1 ∧
    is_position wc chartType width1 height1 (VRef (length (heap wb))).
Proof.
  intros Hw Hct Hstate1 Hsize1 Hstate2 Hsize2 Hne.
  destruct (chart_position_sized w chartType state1 size1 width1 height1 Hw Hstate1 Hsize1)
    as (f & r1 & wa & Hfirst & Hcache_a & _ & _ & Hr1 & Hwa & Hext_a).
  destruct (chart_position_sized wa chartType state2 size2 width2 height2 Hwa
              (sized_state_extends _ _ _ _ Hext_a Hstate2)
              (is_size_extends _ _ _ _ _ Hext_a Hsize2))
    as (f' & r2 & wb & Hsecond & Hcache_b & Hkeep & Hf & _ & Hwb & Hext_b).
  assert (f' = f) as ->.
  { apply (inj Some). rewrite <-Hcache_b. by apply Hkeep. }
  pose proof (extends_trans _ _ _ Hext_a Hext_b) as Hext.
  destruct (call_selector_new_size wb f chartType state2 r2 size2 state1 size1
              width1 height1 Hf
              (sized_state_extends _ _ _ _ Hext Hstate2)
              (sized_state_extends _ _ _ _ Hext Hstate1)
              (is_size_extends _ _ _ _ _ Hext Hsize1) Hne
              (recognized_true_cases _ Hct))
    as (o & sels & Hnew & Hthird).
  exists r1, wa, r2, wb, (World (heap wb ++ [o]) sels (cache wb)).
  split; [exact Hfirst|]. split; [exact Hsecond|].
  split.
  { unfold chart_position.
    by rewrite (bind_Return _ _ _ _ _ (getChartPosition_cached chartType wb f Hcache_b)). }
  assert (extends wb (World (heap wb ++ [o]) sels (cache wb))) as Hext_c
    by apply (extends_set_heap wb [o]).
  split; [|split].
  - pose proof Hr1 as Hobject. unfold is_position in Hobject.
    destruct (rectangle chartType width1 height1) as [o1|] eqn:Hrect.
    + destruct Hobject as (l1 & Hl & Hl1). intros Heq. rewrite Heq in Hl.
      injection Hl as <-.
      apply Hext_b in Hl1. apply lookup_lt_Some in Hl1. lia.
    + exfalso. revert Hct Hrect. unfold recognized, rectangle.
      by repeat (case_bool_decide; simpl; try done).
  - apply is_position_extends with wb; [exact Hext_c|].
    by apply is_position_extends with wa.
  - exact (resultFunc_is_position chartType wb size1 width1 height1 _ _
             (is_size_extends _ _ _ _ _ Hext Hsize1) Hnew).
Qed.

(** The lithography panel on a container 100 by 50, then on one 200 by 80,
    then on the first again. *)
Lemma X15_memo_holds_one_state_witness :
  ∃ r1 wa r2 wb wc,
    chart_position "lithography" (VRef 2) position_world = Return (r1, wa) ∧
    chart_position "lithography" (VRef 5) wa = Return (r2, wb) ∧
    chart_position "lithography" (VRef 2) wb = Return (VRef (length (heap wb)), wc) ∧
    r1 ≠ VRef (length (heap wb)).
Proof.
  destruct (X15_memo_holds_one_state position_world "lithography"
              (VRef 2) (VRef 0) (VRef 5) (VRef 3) 100 50 200 80
              position_world_sound eq_refl
              position_world_state1 position_world_size1
              position_world_state2 position_world_size2)
    as (r1 & wa & r2 & wb & wc & H1 & H2 & H3 & Hne & _).
  - discriminate.
  - exists r1, wa, r2, wb, wc. auto.
Defined.

(** ** The transition table, on every state *)

Lemma set_result_intro w so field d :
  set_result w so field d
    (Return (VRef (S (length (heap w))),
             set_heap (heap w ++ [ d; <[field := VRef (length (heap w))]> so ]) w)).
Proof.
  exists (S (length (heap w))), (length (heap w)). eexists.
  split; [reflexivity|]. split; [by eexists|].
  split; [apply lookup_ge_None; lia|]. split; [apply heap_fresh|].
  simpl. apply and_comm, lookup_last_2.
Qed.

Lemma clear_result_intro w so field :
  clear_result w so field
    (Return (VRef (length (heap w)),
             set_heap (heap w ++ [ <[field := VNull]> so ]) w)).
Proof.
  exists (length (heap w)). eexists.
  split; [reflexivity|]. split; [by eexists|].
  split; [apply heap_fresh|]. simpl. apply lookup_last_1.
Qed.

(** What the reducer leaves behind on the new empty state of the default
    parameter, seen from the store it was called in. *)
Lemma set_result_default w field d r :
  set_result (set_heap (heap w ++ [∅]) w) ∅ field d r → set_result w ∅ field d r.
Proof.
  intros (s' & v & w' & -> & (new & ->) & Hs' & Hv & Hstate & Hd).
  exists s', v. eexists. split; [reflexivity|].
  split; [exists ([∅] ++ new); apply set_heap_app|].
  simpl in Hs', Hv. apply lookup_ge_None in Hs', Hv.
  rewrite length_app in Hs', Hv. simpl in Hs', Hv.
  split; [apply lookup_ge_None; lia|]. split; [apply lookup_ge_None; lia|].
  split; [exact Hstate|exact Hd].
Qed.

Lemma clear_result_default w field r :
  clear_result (set_heap (heap w ++ [∅]) w) ∅ field r → clear_result w ∅ field r.
Proof.
  intros (s' & w' & -> & (new & ->) & Hs' & Hstate).
  exists s'. eexists. split; [reflexivity|].
  split; [exists ([∅] ++ new); apply set_heap_app|].
  simpl in Hs'. apply lookup_ge_None in Hs'.
  rewrite length_app in Hs'. simpl in Hs'.
  split; [apply lookup_ge_None; lia|exact Hstate].
Qed.

Section transition_table.
Context (w : world) (state : value) (so : obj) (a : loc) (ao : obj).
Hypothesis Hstate : state_fields w state so.
Hypothesis Ha : heap w !! a = Some ao.

(** The store the reducer works in when no state is given. *)
Let w0 : world := set_heap (heap w ++ [∅]) w.

Local Lemma default_state : heap w0 !! length (heap w) = Some ∅.
Proof. apply lookup_last_1. Qed.

Local Lemma default_action : heap w0 !! a = Some ao.
Proof. by apply heap_grows_lookup. Qed.

Lemma table_GRAPH_SIZE_SET p po :
  ao !! "type" = Some (VStr GRAPH_SIZE_SET) →
  ao !! "payload" = Some p → readable w p po →
  set_result w so "graphSize"
    {[ "width" := default VUndef (po !! "width");
       "height" := default VUndef (po !! "height") ]}
    (reducer state (VRef a) w).
Proof.
  intros Hty Hp Hpo. destruct Hstate as [[-> ->] | (s & -> & Hs)].
  - rewrite reducer_default. apply set_result_default. fold w0.
    rewrite (reducer_GRAPH_SIZE_SET w0 _ a ∅ ao default_state default_action
               p po Hty Hp (readable_grows _ _ _ _ Hpo)).
    apply (set_result_intro w0).
  - rewrite (reducer_GRAPH_SIZE_SET w s a so ao Hs Ha p po Hty Hp Hpo).
    apply set_result_intro.
Qed.

Lemma table_GRAPH_SELECTION_RECT_SET p po :
  ao !! "type" = Some (VStr GRAPH_SELECTION_RECT_SET) →
  ao !! "payload" = Some p → readable w p po →
  set_result w so "selectionRect"
    {[ "top" := default VUndef (po !! "top");
       "left" := default VUndef (po !! "left");
       "bottom" := default VUndef (po !! "bottom");
       "right" := default VUndef (po !! "right") ]}
    (reducer state (VRef a) w).
Proof.
  intros Hty Hp Hpo. destruct Hstate as [[-> ->] | (s & -> & Hs)].
  - rewrite reducer_default. apply set_result_default. fold w0.
    rewrite (reducer_GRAPH_SELECTION_RECT_SET w0 _ a ∅ ao default_state default_action
               p po Hty Hp (readable_grows _ _ _ _ Hpo)).
    apply (set_result_intro w0).
  - rewrite (reducer_GRAPH_SELECTION_RECT_SET w s a so ao Hs Ha p po Hty Hp Hpo).
    apply set_result_intro.
Qed.

Lemma table_VIEWPORT_SET p po :
  ao !! "type" = Some (VStr VIEWPORT_SET) →
  ao !! "payload" = Some p → readable w p po →
  set_result w so "viewport"
    {[ "startDate" := default VUndef (po !! "startDate");
       "endDate" := default VUndef (po !! "endDate") ]}
    (reducer state (VRef a) w).
Proof.
  intros Hty Hp Hpo. destruct Hstate as [[-> ->] | (s & -> & Hs)].
  - rewrite reducer_default. apply set_result_default. fold w0.
    rewrite (reducer_VIEWPORT_SET w0 _ a ∅ ao default_state default_action
               p po Hty Hp (readable_grows _ _ _ _ Hpo)).
    apply (set_result_intro w0).
  - rewrite (reducer_VIEWPORT_SET w s a so ao Hs Ha p po Hty Hp Hpo).
    apply set_result_intro.
Qed.

Lemma table_GRAPH_SELECTION_RECT_CLEAR :
  ao !! "type" = Some (VStr GRAPH_SELECTION_RECT_CLEAR) →
  clear_result w so "selectionRect" (reducer state (VRef a) w).
Proof.
  intros Hty. destruct Hstate as [[-> ->] | (s & -> & Hs)].
  - rewrite reducer_default. apply clear_result_default. fold w0.
    rewrite (reducer_GRAPH_SELECTION_RECT_CLEAR w0 _ a ∅ ao default_state
               default_action Hty).
    apply (clear_result_intro w0).
  - rewrite (reducer_GRAPH_SELECTION_RECT_CLEAR w s a so ao Hs Ha Hty).
    apply clear_result_intro.
Qed.

Lemma table_VIEWPORT_RESET :
  ao !! "type" = Some (VStr VIEWPORT_RESET) →
  clear_result w so "viewport" (reducer state (VRef a) w).
Proof.
  intros Hty. destruct Hstate as [[-> ->] | (s & -> & Hs)].
  - rewrite reducer_default. apply clear_result_default. fold w0.
    rewrite (reducer_VIEWPORT_RESET w0 _ a ∅ ao default_state default_action Hty).
    apply (clear_result_intro w0).
  - rewrite (reducer_VIEWPORT_RESET w s a so ao Hs Ha Hty).
    apply clear_result_intro.
Qed.

(** A set action without a payload: the reducer reads a property of
    [undefined] or [null]. *)
Lemma table_no_payload :
  set_kind ao → nullish (default VUndef (ao !! "payload")) →
  reducer state (VRef a) w = Throw_TypeError.
Proof.
  intros Hkind Hp. destruct Hstate as [[-> ->] | (s & -> & Hs)].
  - rewrite reducer_default. fold w0.
    exact (reducer_set_nullish w0 _ ∅ a ao default_state default_action Hkind Hp).
  - exact (reducer_set_nullish w s so a ao Hs Ha Hkind Hp).
Qed.
End transition_table.

(** C2, as stated, fails on the state [undefined]: with an action of a type
    it has no case for, the reducer does not return its input but the new
    empty object of the default parameter [state = {}]. *)
Lemma C2_undefined_state_counterexample :
  reducer VUndef (VRef 0) (World [ {[ "type" := VStr "UNKNOWN" ]} ] [] ∅)
  = Return (VRef 1, World [ {[ "type" := VStr "UNKNOWN" ]}; ∅ ] [] ∅).
Proof. reflexivity. Qed.

(** C2, amended: the transition table.  On every state (an object, or
    [undefined], for which the default parameter supplies a new empty
    state) a set-container-size, set-selection-rect or set-viewport action
    whose payload can be read gives a new state that is the old one with
    [graphSize], [selectionRect] or [viewport] pointing to a new object
    with exactly the [width] and [height], the [top], [left], [bottom] and
    [right], or the [startDate] and [endDate] of the payload; a
    clear-selection-rect action gives a new state that is the old one with
    [selectionRect] set to [null], a viewport-reset action one with
    [viewport] set to [null].  On every state other than [undefined], an
    action whose type is none of the five returns the input state itself,
    the store untouched; on [undefined] it returns a new empty object. *)
Theorem C2_transition_table :
  (∀ w state so a ao p po,
     state_fields w state so → heap w !! a = Some ao →
     ao !! "payload" = Some p → readable w p po →
     (ao !! "type" = Some (VStr GRAPH_SIZE_SET) →
      set_result w so "graphSize"
        {[ "width" := default VUndef (po !! "width");
           "height" := default VUndef (po !! "height") ]}
        (reducer state (VRef a) w)) ∧
     (ao !! "type" = Some (VStr GRAPH_SELECTION_RECT_SET) →
      set_result w so "selectionRect"
        {[ "top" := default VUndef (po !! "top");
           "left" := default VUndef (po !! "left");
           "bottom" := default VUndef (po !! "bottom");
           "right" := default VUndef (po !! "right") ]}
        (reducer state (VRef a) w)) ∧
     (ao !! "type" = Some (VStr VIEWPORT_SET) →
      set_result w so "viewport"
        {[ "startDate" := default VUndef (po !! "startDate");
           "endDate" := default VUndef (po !! "endDate") ]}
        (reducer state (VRef a) w))) ∧
  (∀ w state so a ao,
     state_fields w state so → heap w !! a = Some ao →
     (ao !! "type" = Some (VStr GRAPH_SELECTION_RECT_CLEAR) →
      clear_result w so "selectionRect" (reducer state (VRef a) w)) ∧
     (ao !! "type" = Some (VStr VIEWPORT_RESET) →
      clear_result w so "viewport" (reducer state (VRef a) w))) ∧
  (∀ w state action type,
     state ≠ VUndef →
     get action "type" w = Return (type, w) →
     type ≠ VStr GRAPH_SIZE_SET → type ≠ VStr GRAPH_SELECTION_RECT_SET →
     type ≠ VStr GRAPH_SELECTION_RECT_CLEAR →
     type ≠ VStr VIEWPORT_SET → type ≠ VStr VIEWPORT_RESET →
     reducer state action w = Return (state, w)) ∧
  (∀ w action ao,
     readable w action ao → unrecognized (default VUndef (ao !! "type")) →
     reducer VUndef action w
       = Return (VRef (length (heap w)), set_heap (heap w ++ [∅]) w)).
Proof.
  split; [|split; [|split]].
  - intros w state so a ao p po Hstate Ha Hp Hpo. split; [|split]; intros Hty.
    + by apply table_GRAPH_SIZE_SET with ao p.
    + by apply table_GRAPH_SELECTION_RECT_SET with ao p.
    + by apply table_VIEWPORT_SET with ao p.
  - intros w state so a ao Hstate Ha. split; intros Hty.
    + by apply table_GRAPH_SELECTION_RECT_CLEAR with ao.
    + by apply table_VIEWPORT_RESET with ao.
  - apply reducer_other.
  - intros w action ao Haction (H1 & H2 & H3 & H4 & H5).
    rewrite reducer_default.
    apply reducer_other with (default VUndef (ao !! "type")); try done.
    apply get_readable. by apply readable_grows.
Qed.

(** The rows of the claim, on the empty state: the container size 100 by
    50, clearing the selection, resetting the viewport, and an unknown
    action. *)
Lemma C2_transition_table_witness :
  (∃ s' g w',
     reducer (VRef 0) (VRef 2) table_world = Return (VRef s', w') ∧
     heap w' !! s' = Some {[ "graphSize" := VRef g ]} ∧
     heap w' !! g = Some {[ "width" := VNum 100; "height" := VNum 50 ]}) ∧
  (∃ s' w',
     reducer (VRef 0) (VRef 3) table_world = Return (VRef s', w') ∧
     heap w' !! s' = Some {[ "selectionRect" := VNull ]}) ∧
  (∃ s' w',
     reducer (VRef 0) (VRef 4) table_world = Return (VRef s', w') ∧
     heap w' !! s' = Some {[ "viewport" := VNull ]}) ∧
  reducer (VRef 0) (VRef 5) table_world = Return (VRef 0, table_world).
Proof.
  destruct C2_transition_table as (Hset & Hclear & Hother & _).
  assert (state_fields table_world (VRef 0) ∅) as Hstate by (right; by exists 0).
  split; [|split; [|split]].
  - destruct (Hset table_world (VRef 0) ∅ 2
                {[ "type" := VStr GRAPH_SIZE_SET; "payload" := VRef 1 ]}
                (VRef 1) {[ "width" := VNum 100; "height" := VNum 50 ]}
                Hstate eq_refl eq_refl eq_refl) as (Hsize & _).
    destruct (Hsize eq_refl) as (s' & g & w' & Hrun & _ & _ & _ & Hs' & Hg).
    exists s', g, w'. split; [exact Hrun|]. split; [exact Hs'|exact Hg].
  - destruct (Hclear table_world (VRef 0) ∅ 3
                {[ "type" := VStr GRAPH_SELECTION_RECT_CLEAR ]} Hstate eq_refl)
      as (Hrow & _).
    destruct (Hrow eq_refl) as (s' & w' & Hrun & _ & _ & Hs').
    exists s', w'. split; [exact Hrun|exact Hs'].
  - destruct (Hclear table_world (VRef 0) ∅ 4
                {[ "type" := VStr VIEWPORT_RESET ]} Hstate eq_refl)
      as (_ & Hrow).
    destruct (Hrow eq_refl) as (s' & w' & Hrun & _ & _ & Hs').
    exists s', w'. split; [exact Hrun|exact Hs'].
  - by apply (Hother table_world (VRef 0) (VRef 5) (VStr "UNKNOWN")).
Defined.

(** ** Exceptions *)

(** C3, as stated, fails: a set-container-size action without a payload
    makes the reducer read [width] of [undefined], which throws; nothing is
    stored. *)
Lemma C3_missing_payload_counterexample :
  reducer (VRef 0) (VRef 1)
    (World [ ∅; {[ "type" := VStr GRAPH_SIZE_SET ]} ] [] ∅) = Throw_TypeError.
Proof. reflexivity. Qed.

(** C3, amended: no operation throws on well-formed input.  The reducer
    returns on every state (an object, or [undefined]) and every action
    whose payload, for the three set kinds, can be read (is not missing,
    [undefined] or [null]); it then stores every named field of the
    payload, a missing one as [undefined].  On a set action of any of the
    three kinds whose payload is missing, [undefined] or [null] it throws a
    TypeError, on every such state.  The selectors return on every root
    state that holds a layout record, the action creators on every argument
    other than [undefined] and [null], and the position calculator on every
    size with numeric fields; looking up the selector of a chart type
    always returns. *)
Theorem C3_no_throw_when_payload_present :
  (∀ w state action ao,
     (state = VUndef ∨ ∃ s so, state = VRef s ∧ heap w !! s = Some so) →
     readable w action ao →
     (∀ type, ao !! "type" = Some (VStr type) →
        type = GRAPH_SIZE_SET ∨ type = GRAPH_SELECTION_RECT_SET ∨ type = VIEWPORT_SET →
        ∃ p po, ao !! "payload" = Some p ∧ readable w p po) →
     ∃ r w', reducer state action w = Return (r, w')) ∧
  (∀ w state so a ao p po,
     state_fields w state so → heap w !! a = Some ao →
     ao !! "payload" = Some p → readable w p po →
     (ao !! "type" = Some (VStr GRAPH_SIZE_SET) →
      set_result w so "graphSize"
        {[ "width" := default VUndef (po !! "width");
           "height" := default VUndef (po !! "height") ]}
        (reducer state (VRef a) w)) ∧
     (ao !! "type" = Some (VStr GRAPH_SELECTION_RECT_SET) →
      set_result w so "selectionRect"
        {[ "top" := default VUndef (po !! "top");
           "left" := default VUndef (po !! "left");
           "bottom" := default VUndef (po !! "bottom");
           "right" := default VUndef (po !! "right") ]}
        (reducer state (VRef a) w)) ∧
     (ao !! "type" = Some (VStr VIEWPORT_SET) →
      set_result w so "viewport"
        {[ "startDate" := default VUndef (po !! "startDate");
           "endDate" := default VUndef (po !! "endDate") ]}
        (reducer state (VRef a) w))) ∧
  (∀ w state so a ao,
     state_fields w state so → heap w !! a = Some ao →
     set_kind ao → nullish (default VUndef (ao !! "payload")) →
     reducer state (VRef a) w = Throw_TypeError) ∧
  (∀ w root layout lo,
     mounted w root layout → readable w layout lo →
     getViewport root w = Return (default VUndef (lo !! "viewport"), w) ∧
     getSelectionRect root w = Return (default VUndef (lo !! "selectionRect"), w) ∧
     ∃ r w', getContainerSize root w = Return (r, w')) ∧
  (∀ w arg argo,
     readable w arg argo →
     (∃ r w', setViewport arg w = Return (r, w')) ∧
     (∃ r w', setContainerSize arg w = Return (r, w')) ∧
     (∃ r w', setSelectionRect arg w = Return (r, w'))) ∧
  (∀ w, (∃ r w', resetViewport w = Return (r, w')) ∧
        (∃ r w', clearSelectionRect w = Return (r, w'))) ∧
  (∀ w chartType size width height,
     is_size w size width height →
     ∃ r w', getChartPosition_resultFunc chartType size w = Return (r, w')) ∧
  (∀ w chartType, ∃ f w', getChartPosition chartType w = Return (f, w')).
Proof.
  split; [exact reducer_returns|].
  split.
  { intros w state so a ao p po Hstate Ha Hp Hpo. split; [|split]; intros Hty.
    - by apply table_GRAPH_SIZE_SET with ao p.
    - by apply table_GRAPH_SELECTION_RECT_SET with ao p.
    - by apply table_VIEWPORT_SET with ao p. }
  split; [exact table_no_payload|].
  split.
  { intros w root layout lo Hroot Hlo. split; [|split].
    - exact (get_mounted w root layout lo "viewport" Hroot Hlo).
    - exact (get_mounted w root layout lo "selectionRect" Hroot Hlo).
    - by eapply getContainerSize_returns. }
  split.
  { intros w arg argo Harg. split; [|split]; eexists _, _.
    - by apply setViewport_Return.
    - by apply setContainerSize_Return.
    - by apply setSelectionRect_Return. }
  split.
  { intros w. split; by eexists _, _. }
  split.
  { intros w chartType size width height Hsize.
    destruct (decide (chartType = "main")) as [->|Hmain];
      [eexists _, _; by apply resultFunc_main|].
    destruct (decide (chartType = "panner")) as [->|Hpanner];
      [eexists _, _; by apply resultFunc_panner|].
    destruct (decide (chartType = "lithography")) as [->|Hlitho];
      [eexists _, _; by apply resultFunc_lithography|].
    eexists _, _. by apply resultFunc_other. }
  intros w chartType. unfold getChartPosition.
  destruct (cache w !! chartType); by eexists _, _.
Qed.

(** An empty payload stores [undefined] twice; a set-selection-rect action
    whose payload is [null] throws; the viewport of an empty layout record
    is [undefined]. *)
Lemma C3_no_throw_when_payload_present_witness :
  (∃ s' g w',
     reducer (VRef 0) (VRef 2) partial_world = Return (VRef s', w') ∧
     heap w' !! s' = Some {[ "graphSize" := VRef g ]} ∧
     heap w' !! g = Some {[ "width" := VUndef; "height" := VUndef ]}) ∧
  reducer (VRef 0) (VRef 2) payload_world = Throw_TypeError ∧
  getViewport (VRef 3) partial_world = Return (VUndef, partial_world).
Proof.
  destruct C3_no_throw_when_payload_present
    as (_ & Hstored & Hthrows & Hselectors & _).
  split; [|split].
  - assert (state_fields partial_world (VRef 0) ∅) as Hstate by (right; by exists 0).
    destruct (Hstored partial_world (VRef 0) ∅ 2
                {[ "type" := VStr GRAPH_SIZE_SET; "payload" := VRef 1 ]}
                (VRef 1) ∅ Hstate eq_refl eq_refl eq_refl) as (Hsize & _).
    destruct (Hsize eq_refl) as (s' & g & w' & Hrun & _ & _ & _ & Hs' & Hg).
    exists s', g, w'. split; [exact Hrun|]. split; [exact Hs'|exact Hg].
  - assert (state_fields payload_world (VRef 0) ∅) as Hstate by (right; by exists 0).
    apply (Hthrows payload_world (VRef 0) ∅ 2
             {[ "type" := VStr GRAPH_SELECTION_RECT_SET; "payload" := VNull ]}
             Hstate eq_refl).
    + right. by left.
    + by right.
  - assert (mounted partial_world (VRef 3) (VRef 0)) as Hroot
      by (by exists 3, {[ MOUNT_POINT := VRef 0 ]}).
    destruct (Hselectors partial_world (VRef 3) (VRef 0) ∅ Hroot eq_refl)
      as (Hviewport & _).
    exact Hviewport.
Defined.
